(** * tintui: hex <-> 0..1000 colour codec, bounded history and key loop

    A shallow embedding of [main.py].  The Python builtins the program
    relies on ([str.lstrip], [int(s, base)], [round], true division,
    [format(n, "02x")], list slicing) are written out in module [Py];
    the two codec functions, the history file functions and the body of
    the key loop follow the source line by line.

    Conventions.
    - A Python [str] is a [string]; each [ascii] is one code point below
      256.  Python [int] is [Z]; Python [float] is a binary64 [float].
    - A raised exception is the [Raise] branch of [result].
    - Status-line texts are the constructors of [msg]; the terminal is
      not modelled beyond the argument last handed to
      [draw_color_panel]. *)

From Stdlib Require Import ZArith List String Ascii Bool Lia Floats.
From Stdlib Require Import HexadecimalString.
From Stdlib Require DecimalString.
Import ListNotations.

Local Open Scope string_scope.
Local Open Scope Z_scope.

(** ** Exceptions and the error monad *)

Inductive exn : Type :=
| InvalidFormat      (* ValueError: "HEX должен быть в формате #rrggbb" *)
| InvalidDigits      (* ValueError: "Недопустимые символы в HEX" *)
| OutOfRange         (* ValueError: "Значения RGB должны быть в диапазоне 0–1000" *)
| NeedThreeNumbers   (* ValueError: "Нужно 3 числа (0–1000) или HEX" *)
| InvalidLiteral (base : Z) (s : string)  (* ValueError of int(): invalid literal *)
| TooManyDigits      (* ValueError of int(): decimal literal over the digit limit *)
| OverflowError      (* round() of an infinity *)
| NanError           (* ValueError: round() of a NaN *)
| IndexError         (* list index out of range *)
| EnvError (text : string).  (* raised by the file system, json or the clipboard *)

Inductive result (A : Type) : Type :=
| Ok (a : A)
| Raise (e : exn).

Arguments Ok {A} a.
Arguments Raise {A} e.

Definition bind {A B : Type} (r : result A) (k : A -> result B) : result B :=
  match r with
  | Ok a => k a
  | Raise e => Raise e
  end.

Notation "x <- r ;; k" := (bind r (fun x => k))
  (at level 61, r at next level, right associativity).
Notation "' p <- r ;; k" := (bind r (fun x => let p := x in k))
  (at level 61, p pattern, r at next level, right associativity).

Fixpoint mapM {A B : Type} (f : A -> result B) (l : list A) : result (list B) :=
  match l with
  | [] => Ok []
  | a :: l' => b <- f a ;; bs <- mapM f l' ;; Ok (b :: bs)
  end.

(** Which exceptions an [except ValueError] clause catches. *)
Definition is_ValueError (e : exn) : bool :=
  match e with
  | InvalidFormat | InvalidDigits | OutOfRange | NeedThreeNumbers
  | InvalidLiteral _ _ | TooManyDigits | NanError => true
  | OverflowError | IndexError | EnvError _ => false
  end.

(** [try: r  except ValueError: raise e'] *)
Definition except_ValueError {A : Type} (r : result A) (e' : exn) : result A :=
  match r with
  | Ok a => Ok a
  | Raise e => if is_ValueError e then Raise e' else Raise e
  end.

(** ** Python builtins *)

Module Py.

Definition ord (c : ascii) : Z := Z.of_nat (nat_of_ascii c).

(** [Py_ISSPACE]: the C-locale white space [int()] skips. *)
Definition is_c_space (c : ascii) : bool :=
  ((9 <=? ord c) && (ord c <=? 13)) || (ord c =? 32).

(** [Py_UNICODE_ISSPACE] on code points below 256: what [str.strip()]
    and [str.split()] treat as white space. *)
Definition is_space (c : ascii) : bool :=
  ((9 <=? ord c) && (ord c <=? 13)) || ((28 <=? ord c) && (ord c <=? 32))
  || (ord c =? 133) || (ord c =? 160).

(** [s.lstrip(chars)] for a one-character [chars]. *)
Fixpoint lstrip_char (c : ascii) (s : string) : string :=
  match s with
  | String a r => if Ascii.eqb a c then lstrip_char c r else s
  | EmptyString => EmptyString
  end.

Fixpoint lstrip (s : string) : string :=
  match s with
  | String a r => if is_space a then lstrip r else s
  | EmptyString => EmptyString
  end.

(** Drops the trailing white space: [s.rstrip()]. *)
Fixpoint rstrip (s : string) : string :=
  match s with
  | String a r =>
      match rstrip r with
      | EmptyString => if is_space a then EmptyString else String a EmptyString
      | r' => String a r'
      end
  | EmptyString => EmptyString
  end.

Definition strip (s : string) : string := rstrip (lstrip s).

Definition startswith (p s : string) : bool := String.prefix p s.

(** [s.split()]: the maximal runs of non-space characters.  [cur] is
    the run being read, reversed. *)
Fixpoint split_aux (s : string) (cur : list ascii) : list string :=
  let flush (k : list string) :=
    match cur with
    | [] => k
    | _ => string_of_list_ascii (rev cur) :: k
    end in
  match s with
  | EmptyString => flush []
  | String a r =>
      if is_space a then flush (split_aux r []) else split_aux r (a :: cur)
  end.

Definition split (s : string) : list string := split_aux s [].

(** [s[i:j]] for [0 <= i <= j]. *)
Definition slice (i j : nat) (s : string) : string := substring i (j - i) s.

(** [s[:-1]] *)
Definition drop_last (s : string) : string :=
  substring 0 (String.length s - 1) s.

(** [l[i]] with Python's negative indices; [None] is IndexError. *)
Definition index {A : Type} (l : list A) (i : Z) : option A :=
  let n := Z.of_nat (List.length l) in
  if (0 <=? i) && (i <? n) then nth_error l (Z.to_nat i)
  else if (- n <=? i) && (i <? 0) then nth_error l (Z.to_nat (n + i))
  else None.

(** *** [int(s, base)]

    CPython first maps the text to ASCII
    ([_PyUnicode_TransformDecimalAndSpaceToASCII]): a code point from
    127 up that is white space becomes a blank, any other one becomes
    ['?'] and ends the text (there is no decimal digit between 127 and
    255).  [PyLong_FromString] then reads: blanks, one optional sign,
    for base 16 an optional [0x]/[0X] (and one underscore after it),
    digits with single underscores between them, blanks.  In a base
    that is no power of two the number of digits is checked against the
    limit as soon as the digits are read, before what follows them is
    looked at. *)

Fixpoint to_ascii_text (s : string) : string :=
  match s with
  | EmptyString => EmptyString
  | String c r =>
      if ord c <? 127 then String c (to_ascii_text r)
      else if is_space c then String " " (to_ascii_text r)
      else "?"
  end.

Fixpoint skip_c_spaces (s : string) : string :=
  match s with
  | String a r => if is_c_space a then skip_c_spaces r else s
  | EmptyString => EmptyString
  end.

(** [_PyLong_DigitValue]: 37 marks a character that is no digit. *)
Definition digit_value (c : ascii) : Z :=
  let n := ord c in
  if (48 <=? n) && (n <=? 57) then n - 48
  else if (97 <=? n) && (n <=? 122) then n - 87
  else if (65 <=? n) && (n <=? 90) then n - 55
  else 37.

(** The digit loop: the value read, the number of digits and the text
    left; [None] on a doubled or trailing underscore. *)
Fixpoint scan_digits (base : Z) (s : string) (prev_underscore : bool)
         (acc : Z) (digits : nat) : option (Z * nat * string) :=
  match s with
  | String c r =>
      if Ascii.eqb c "_" then
        if prev_underscore then None
        else scan_digits base r true acc digits
      else if digit_value c <? base then
        scan_digits base r false (acc * base + digit_value c) (S digits)
      else if prev_underscore then None
      else Some (acc, digits, s)
  | EmptyString =>
      if prev_underscore then None else Some (acc, digits, EmptyString)
  end.

(** [sys.int_max_str_digits], CPython's default: a literal in a base
    that is no power of two may have at most this many digits. *)
Definition int_max_str_digits : nat := 4300.

Definition is_power_of_two (b : Z) : bool :=
  (b =? 2) || (b =? 4) || (b =? 8) || (b =? 16) || (b =? 32).

Definition int (s : string) (base : Z) : result Z :=
  let bad := Raise (InvalidLiteral base s) in
  let t := skip_c_spaces (to_ascii_text s) in
  let '(negative, t) :=
    match t with
    | String "+" r => (false, r)
    | String "-" r => (true, r)
    | _ => (false, t)
    end in
  let t :=
    match t with
    | String "0" (String x r) =>
        if (base =? 16) && (Ascii.eqb x "x" || Ascii.eqb x "X") then
          match r with
          | String "_" r' => r'
          | _ => r
          end
        else t
    | _ => t
    end in
  match t with
  | String "_" _ => bad
  | _ =>
      match scan_digits base t false 0 0 with
      | None => bad
      | Some (v, digits, rest) =>
          if negb (is_power_of_two base)
             && (int_max_str_digits <? digits)%nat
          then Raise TooManyDigits
          else if (digits =? 0)%nat then bad
          else
            match skip_c_spaces rest with
            | EmptyString => Ok (if negative then - v else v)
            | _ => bad
            end
      end
  end.

(** *** Floats: [a / b] on ints and [round(x)] *)

(** The binary64 nearest to an int (exact below 2^53, which covers
    every int the program converts). *)
Definition float_of_int (z : Z) : float :=
  SF2Prim (binary_normalize prec emax z 0 false).

(** [a / b] for ints [a], [b <> 0], both below 2^53. *)
Definition truediv (a b : Z) : float :=
  PrimFloat.div (float_of_int a) (float_of_int b).

(** [x * n] for a float [x] and an int [n]. *)
Definition fmul_int (x : float) (n : Z) : float :=
  PrimFloat.mul x (float_of_int n).

(** The integer nearest to [m * 2^e], a tie going to the even one. *)
Definition nearest_even (m e : Z) : Z :=
  if 0 <=? e then m * 2 ^ e
  else
    let d := 2 ^ (- e) in
    let q := m / d in
    let r := m mod d in
    match 2 * r ?= d with
    | Lt => q
    | Gt => q + 1
    | Eq => if Z.even q then q else q + 1
    end.

(** [round(x)] with one argument: [float.__round__] rounds the exact
    value of the float half to even and returns an int. *)
Definition round (x : float) : result Z :=
  match Prim2SF x with
  | S754_zero _ => Ok 0
  | S754_finite s m e =>
      let v := nearest_even (Z.pos m) e in
      Ok (if s then - v else v)
  | S754_infinity _ => Raise OverflowError
  | S754_nan => Raise NanError
  end.

(** *** [format(n, "02x")] *)

Definition hex (n : Z) : string :=
  NilZero.string_of_uint (N.to_hex_uint (Z.to_N n)).

Fixpoint zeros (k : nat) : string :=
  match k with
  | O => EmptyString
  | S k' => String "0" (zeros k')
  end.

Definition zfill (width : nat) (s : string) : string :=
  zeros (width - String.length s) ++ s.

(** Sign-aware zero padding to width 2, lowercase digits. *)
Definition format_02x (n : Z) : string :=
  if n <? 0 then "-" ++ zfill 1 (hex (- n)) else zfill 2 (hex n).

(** [chr(k)] for [0 <= k < 256]. *)
Definition chr (k : Z) : string :=
  String (ascii_of_nat (Z.to_nat k)) EmptyString.

End Py.

(** ** Constants *)

Definition INPUT_PANEL_WIDTH : Z := 50.
Definition INPUT_PANEL_HEIGHT : Z := 12.
Definition HISTORY_MAX : nat := 200.
Definition INDENT_X : Z := 2.
Definition INDENT_Y : Z := 1.
Definition SWAP_PAGE_KEYS : bool := true.

(** Key codes of the [curses] module. *)
Definition KEY_DOWN : Z := 258.
Definition KEY_UP : Z := 259.
Definition KEY_BACKSPACE : Z := 263.
Definition KEY_NPAGE : Z := 338.
Definition KEY_PPAGE : Z := 339.
Definition KEY_ENTER : Z := 343.

(** ** Colour codec *)

(** [round(c / 255 * 1000)], one channel of [hex_to_1000]. *)
Definition to_1000 (c : Z) : result Z :=
  Py.round (Py.fmul_int (Py.truediv c 255) 1000).

(** [round(v / 1000 * 255)], one channel of [rgb1000_to_hex]. *)
Definition to_255 (v : Z) : result Z :=
  Py.round (Py.fmul_int (Py.truediv v 1000) 255).

Definition hex_to_1000 (hex_color : string) : result (Z * Z * Z) :=
  let hex_color := Py.lstrip_char "#" hex_color in
  if negb (String.length hex_color =? 6)%nat then Raise InvalidFormat
  else
    '(r, g, b) <-
      except_ValueError
        (r <- Py.int (Py.slice 0 2 hex_color) 16 ;;
         g <- Py.int (Py.slice 2 4 hex_color) 16 ;;
         b <- Py.int (Py.slice 4 6 hex_color) 16 ;;
         Ok (r, g, b))
        InvalidDigits ;;
    r_1000 <- to_1000 r ;;
    g_1000 <- to_1000 g ;;
    b_1000 <- to_1000 b ;;
    Ok (r_1000, g_1000, b_1000).

Definition rgb1000_to_hex (r g b : Z) : result string :=
  if negb ((0 <=? r) && (r <=? 1000) && (0 <=? g) && (g <=? 1000)
           && (0 <=? b) && (b <=? 1000))
  then Raise OutOfRange
  else
    r_255 <- to_255 r ;;
    g_255 <- to_255 g ;;
    b_255 <- to_255 b ;;
    Ok ("#" ++ Py.format_02x r_255 ++ Py.format_02x g_255
            ++ Py.format_02x b_255)%string.

(** ** Values, status messages, the outside world *)

(** What [json.load] can return, hence what a history entry can be. *)
#[warnings="-register-all"]
Inductive pyval : Type :=
| PNone
| PBool (b : bool)
| PInt (n : Z)
| PFloat (x : float)
| PStr (s : string)
| PList (l : list pyval)
| PDict (items : list (string * pyval)).

(** [v != s] for a str [s]. *)
Definition ne_str (v : pyval) (s : string) : bool :=
  match v with
  | PStr t => negb (String.eqb t s)
  | _ => true
  end.

(** The status line.  Each constructor stands for one text of the
    source; the file name in them is always [HISTORY_FILENAME]. *)
Inductive msg : Type :=
| MsgNone                                        (* "" *)
| MsgEmptyInput                                  (* "Ввод пустой" *)
| MsgHexToRgb (hex : string) (r g b : Z)         (* "HEX: {hex} -> RGB: {r} {g} {b}" *)
| MsgRgbToHex (r g b : Z) (hex : string)         (* "RGB: {r} {g} {b} -> HEX: {hex}" *)
| MsgError (e : exn)                             (* "Ошибка: {e}" *)
| MsgCopied (text : string)                      (* "Скопировано: {to_copy}" *)
| MsgCopyError (e : string)                      (* "Ошибка копирования: {e}" *)
| MsgNoClipboard                                 (* "pyperclip не установлен ..." *)
| MsgNothingToCopy                               (* "Нет HEX для копирования" *)
| MsgSaved                                       (* "История сохранена в {filename}" *)
| MsgSaveError (e : string)                      (* "Ошибка сохранения: {e}" *)
| MsgNotFound                                    (* "Файл {filename} не найден" *)
| MsgWrongFormat                                 (* "Неверный формат файла истории" *)
| MsgLoaded                                      (* "История загружена из {filename}" *)
| MsgLoadError (e : string)                      (* "Ошибка загрузки: {e}" *)
| MsgCleared                                     (* "История очищена" *)
| MsgGlobalError (e : exn).                      (* "Global error: {e}" *)

(** [curses.color_pair(n)]: 1 plain, 2 error, 3 success. *)
Definition color_pair (n : Z) : Z := n.

(** What the history file holds when [load_history_from_file] looks. *)
Inductive file_status : Type :=
| Missing                    (* os.path.exists(filename) is false *)
| Unreadable (e : string)    (* open() or json.load() raises e *)
| Holds (data : pyval).      (* json.load() returns data *)

(** The answers of the outside world during one pass of the loop. *)
Record world : Type := {
  file : file_status;
  write_error : option string;   (* the exception, if writing the file raises *)
  CLIP_AVAILABLE : bool;         (* whether [import pyperclip] succeeded *)
  copy_error : option string     (* the exception, if pyperclip.copy raises *)
}.

(** ** History file *)

Definition save_history_to_file (w : world) (history : list pyval) : bool * msg :=
  match write_error w with
  | None => (true, MsgSaved)
  | Some e => (false, MsgSaveError e)
  end.

Definition load_history_from_file (w : world) : list pyval * msg :=
  match file w with
  | Missing => ([], MsgNotFound)
  | Unreadable e => ([], MsgLoadError e)
  | Holds (PList data) => (firstn HISTORY_MAX data, MsgLoaded)
  | Holds _ => ([], MsgWrongFormat)
  end.

(** ** The state of [main] and the key loop *)

Record state : Type := {
  current_input : pyval;
  message : msg;
  message_attr : Z;
  last_hex : option string;
  history : list pyval;           (* index 0 is the newest entry *)
  history_index : option Z;
  history_view_start : Z;
  color_panel : pyval             (* the argument of the last draw_color_panel *)
}.

Definition set_input (v : pyval) (s : state) : state :=
  {| current_input := v; message := message s; message_attr := message_attr s;
     last_hex := last_hex s; history := history s;
     history_index := history_index s;
     history_view_start := history_view_start s;
     color_panel := color_panel s |}.

Definition set_message (m : msg) (attr : Z) (s : state) : state :=
  {| current_input := current_input s; message := m; message_attr := attr;
     last_hex := last_hex s; history := history s;
     history_index := history_index s;
     history_view_start := history_view_start s;
     color_panel := color_panel s |}.

Definition set_last_hex (h : option string) (s : state) : state :=
  {| current_input := current_input s; message := message s;
     message_attr := message_attr s;
     last_hex := h; history := history s;
     history_index := history_index s;
     history_view_start := history_view_start s;
     color_panel := color_panel s |}.

Definition set_history (h : list pyval) (s : state) : state :=
  {| current_input := current_input s; message := message s;
     message_attr := message_attr s;
     last_hex := last_hex s; history := h;
     history_index := history_index s;
     history_view_start := history_view_start s;
     color_panel := color_panel s |}.

Definition set_index (i : option Z) (s : state) : state :=
  {| current_input := current_input s; message := message s;
     message_attr := message_attr s;
     last_hex := last_hex s; history := history s;
     history_index := i;
     history_view_start := history_view_start s;
     color_panel := color_panel s |}.

Definition set_view_start (v : Z) (s : state) : state :=
  {| current_input := current_input s; message := message s;
     message_attr := message_attr s;
     last_hex := last_hex s; history := history s;
     history_index := history_index s;
     history_view_start := v;
     color_panel := color_panel s |}.

(** [draw_color_panel(v)]: the panel now shows what it draws for [v]
    ("No color" for [None] and the other false values). *)
Definition draw_color_panel (v : pyval) (s : state) : state :=
  {| current_input := current_input s; message := message s;
     message_attr := message_attr s;
     last_hex := last_hex s; history := history s;
     history_index := history_index s;
     history_view_start := history_view_start s;
     color_panel := v |}.

(** The state on entry to [while True], after [draw_color_panel(None)]. *)
Definition initial_state : state :=
  {| current_input := PStr ""; message := MsgNone;
     message_attr := color_pair 1; last_hex := None; history := [];
     history_index := None; history_view_start := 0;
     color_panel := PNone |}.

Definition len (s : state) : Z := Z.of_nat (List.length (history s)).

(** [hist_start_y = INDENT_Y + 7];
    [available_lines = INPUT_PANEL_HEIGHT - hist_start_y - 1]. *)
Definition hist_start_y : Z := INDENT_Y + 7.
Definition available_lines : Z := INPUT_PANEL_HEIGHT - hist_start_y - 1.

(** Lines 204-207: the bounds of the view are corrected before the
    history is drawn. *)
Definition clamp_view (s : state) : state :=
  let s := if history_view_start s <? 0 then set_view_start 0 s else s in
  if history_view_start s >? Z.max 0 (len s - available_lines)
  then set_view_start (Z.max 0 (len s - available_lines)) s
  else s.

(** The handler of the whole [try] of the loop body:
    [except Exception as e]. *)
Definition global_error (e : exn) (s : state) : state :=
  set_input (PStr "") (set_message (MsgGlobalError e) (color_pair 2) s).

(** Lines 273-276: the new hex goes in front unless it equals the
    newest entry; the list is then cut to [HISTORY_MAX]. *)
Definition history_insert (history : list pyval) (hex_color_str : string)
  : list pyval :=
  let history :=
    match history with
    | [] => PStr hex_color_str :: history
    | top :: _ =>
        if ne_str top hex_color_str then PStr hex_color_str :: history
        else history
    end in
  firstn HISTORY_MAX history.

(** Lines 256-270: the hex to show and the success message, or the
    exception raised on the way. *)
Definition parse_input (current_input : string) : result (string * msg) :=
  if Py.startswith "#" (Py.strip current_input) then
    let hex_color_str := Py.strip current_input in
    _ <- hex_to_1000 hex_color_str ;;
    '(r, g, b) <- hex_to_1000 hex_color_str ;;
    Ok (hex_color_str, MsgHexToRgb hex_color_str r g b)
  else
    parts <- mapM (fun t => Py.int t 10) (Py.split (Py.strip current_input)) ;;
    match parts with
    | [r; g; b] =>
        hex_color_str <- rgb1000_to_hex r g b ;;
        Ok (hex_color_str, MsgRgbToHex r g b hex_color_str)
    | _ => Raise NeedThreeNumbers
    end.

(** Enter (lines 249-286). *)
Definition on_enter (current_input : string) (s : state) : state :=
  if String.eqb (Py.strip current_input) "" then
    set_message MsgEmptyInput (color_pair 2) s
  else
    let s :=
      match parse_input current_input with
      | Ok (hex_color_str, m) =>
          let s := set_last_hex (Some hex_color_str) s in
          let s := set_history (history_insert (history s) hex_color_str) s in
          let s := set_index None s in
          let s := set_view_start 0 s in
          let s := set_message m (color_pair 3) s in
          draw_color_panel (PStr hex_color_str) s
      | Raise e => set_message (MsgError e) (color_pair 2) s
      end in
    set_input (PStr "") s.

(** Backspace (lines 289-293). *)
Definition on_backspace (current_input : string) (s : state) : state :=
  let s := set_input (PStr (Py.drop_last current_input)) s in
  let s := set_index None s in
  set_message MsgNone (color_pair 1) s.

(** Lines 305-308 and 326-329: the view follows the selected entry. *)
Definition follow_index (i : Z) (s : state) : state :=
  let s := if i <? history_view_start s then set_view_start i s else s in
  if i >=? history_view_start s + available_lines
  then set_view_start (i - available_lines + 1) s
  else s.

(** [current_input = history[i]], the view adjusted, the panel redrawn;
    an index outside the list raises inside the loop's [try]. *)
Definition select_entry (i : Z) (s : state) : state :=
  match Py.index (history s) i with
  | None => global_error IndexError s
  | Some v =>
      let s := set_input v s in
      let s := follow_index i s in
      draw_color_panel v s
  end.

(** KEY_DOWN (lines 296-310). *)
Definition on_key_down (s : state) : state :=
  match history s with
  | [] => s
  | _ =>
      let i :=
        match history_index s with
        | None => 0
        | Some i => Z.min (len s - 1) (i + 1)
        end in
      select_entry i (set_index (Some i) s)
  end.

(** KEY_UP (lines 312-331). *)
Definition on_key_up (s : state) : state :=
  match history s with
  | [] => s
  | _ =>
      match history_index s with
      | None => s
      | Some i =>
          let i := i - 1 in
          if i <? 0 then
            let s := set_index None s in
            let s := set_input (PStr "") s in
            draw_color_panel PNone s
          else select_entry i (set_index (Some i) s)
      end
  end.

(** PageUp / PageDown (lines 334-363). *)
Definition on_page (key : Z) (s : state) : state :=
  let is_ppage := key =? KEY_PPAGE in
  let direction :=
    if SWAP_PAGE_KEYS then (if is_ppage then 1 else -1)
    else (if is_ppage then -1 else 1) in
  let step := if available_lines >? 0 then available_lines else 1 in
  let new_start := history_view_start s + direction * step in
  let new_start :=
    Z.max 0 (Z.min new_start (Z.max 0 (len s - available_lines))) in
  let s := set_view_start new_start s in
  match history_index s with
  | Some i =>
      if (0 <=? i) && (i <? len s) then
        match Py.index (history s) i with
        | Some v => draw_color_panel v s
        | None => global_error IndexError s
        end
      else s
  | None => s
  end.

(** [c] (lines 366-387). *)
Definition on_copy (w : world) (current_input : string) (s : state) : state :=
  let to_copy :=
    match last_hex s with
    | Some h => if String.eqb h "" then None else Some h
    | None => None
    end in
  let to_copy :=
    match to_copy with
    | Some h => Some h
    | None =>
        if Py.startswith "#" (Py.strip current_input)
        then Some (Py.strip current_input) else None
    end in
  match to_copy with
  | Some text =>
      if CLIP_AVAILABLE w then
        match copy_error w with
        | None => set_message (MsgCopied text) (color_pair 3) s
        | Some e => set_message (MsgCopyError e) (color_pair 2) s
        end
      else set_message MsgNoClipboard (color_pair 2) s
  | None => set_message MsgNothingToCopy (color_pair 2) s
  end.

(** [s] (lines 389-392). *)
Definition on_save (w : world) (s : state) : state :=
  let '(ok, m) := save_history_to_file w (history s) in
  set_message m (if ok then color_pair 3 else color_pair 2) s.

(** [l] (lines 394-410). *)
Definition on_load (w : world) (s : state) : state :=
  let '(loaded, m) := load_history_from_file w in
  match loaded with
  | _ :: _ =>
      let s := set_history (firstn HISTORY_MAX loaded) s in
      let s := set_index None s in
      let s := set_view_start 0 s in
      let s := set_message m (color_pair 3) s in
      match history s with
      | v :: _ => draw_color_panel v s
      | [] => draw_color_panel PNone s
      end
  | [] => set_message m (color_pair 2) s
  end.

(** [C] (lines 412-419). *)
Definition on_clear (s : state) : state :=
  let s := set_history [] s in
  let s := set_index None s in
  let s := set_view_start 0 s in
  let s := set_message MsgCleared (color_pair 3) s in
  draw_color_panel PNone s.

(** A printable character (lines 422-427). *)
Definition on_char (key : Z) (current_input : string) (s : state) : state :=
  if (32 <=? key) && (key <=? 126) then
    let s := set_input (PStr (current_input ++ Py.chr key)) s in
    let s := set_index None s in
    set_message MsgNone (color_pair 1) s
  else s.

(** The [if]/[elif] chain of lines 249-427, for a key that is neither
    -1 nor Esc; [current_input] is the text of the input field. *)
Definition handle_key (w : world) (key : Z) (current_input : string)
           (s : state) : state :=
  if (key =? KEY_ENTER) || (key =? 10) || (key =? 13) then
    on_enter current_input s
  else if (key =? KEY_BACKSPACE) || (key =? 127) || (key =? 8) then
    on_backspace current_input s
  else if key =? KEY_DOWN then on_key_down s
  else if key =? KEY_UP then on_key_up s
  else if (key =? KEY_PPAGE) || (key =? KEY_NPAGE) then on_page key s
  else if key =? 99 then on_copy w current_input s
  else if key =? 115 then on_save w s
  else if key =? 108 then on_load w s
  else if key =? 67 then on_clear s
  else on_char key current_input s.

Inductive outcome : Type :=
| Continue (s : state)   (* the loop goes round again *)
| Exit (s : state)       (* Esc: [break] *)
| Crash.                 (* an exception leaves [main] *)

(** One pass of [while True] with the key [getch] returns, on a screen
    whose texts [addstr] writes.  The input field is drawn outside the
    [try]: a [current_input] that is not a str (an entry of a loaded
    file can be any JSON value) is a TypeError there and ends the
    program.  What [addstr] itself can raise for a str (an embedded
    NUL, a text the terminal refuses) is added by [render_raises] and
    [loop_pass] below; [run_screen] is the loop with it. *)
Definition loop_body (w : world) (key : Z) (s : state) : outcome :=
  match current_input s with
  | PStr text =>
      let s := clamp_view s in
      if key =? -1 then Continue s
      else if key =? 27 then Exit s
      else Continue (handle_key w key text s)
  | _ => Crash
  end.

(** The loop over the keys read, each with the world of its pass, on
    a screen whose texts [addstr] writes. *)
Fixpoint run (s : state) (events : list (world * Z)) : outcome :=
  match events with
  | [] => Continue s
  | (w, key) :: rest =>
      match loop_body w key s with
      | Continue s' => run s' rest
      | o => o
      end
  end.

(** ** Notions of the specification *)

(** The integer nearest to [num / den] for [den > 0], a tie going away
    from zero. *)
Definition round_half_away (num den : Z) : Z :=
  Z.sgn num * ((2 * Z.abs num + den) / (2 * den)).

(** The integer nearest to [num / den] for [den > 0], a tie going to
    the even neighbour. *)
Definition round_half_even (num den : Z) : Z :=
  let q := num / den in
  match 2 * (num mod den) ?= den with
  | Lt => q
  | Gt => q + 1
  | Eq => if Z.even q then q else q + 1
  end.

(** A hexadecimal digit: 0-9, a-f, A-F. *)
Definition is_hex_digit (c : ascii) : bool :=
  let n := Py.ord c in
  ((48 <=? n) && (n <=? 57)) || ((97 <=? n) && (n <=? 102))
  || ((65 <=? n) && (n <=? 70)).

(** Exactly six hexadecimal digits. *)
Definition is_hex6 (s : string) : bool :=
  (String.length s =? 6)%nat && forallb is_hex_digit (list_ascii_of_string s).

(** A valid hex colour: [#] and six hexadecimal digits. *)
Definition valid_hex (h : string) : bool :=
  match h with
  | String "#" s => is_hex6 s
  | _ => false
  end.

(** The byte two hexadecimal digits denote. *)
Definition byte_of (a b : ascii) : Z := 16 * Py.digit_value a + Py.digit_value b.

(** The three bytes of a valid hex colour. *)
Definition channels (h : string) : option (Z * Z * Z) :=
  match h with
  | String "#" (String a (String b (String c (String d
      (String e (String f EmptyString)))))) =>
      if valid_hex h then Some (byte_of a b, byte_of c d, byte_of e f)
      else None
  | _ => None
  end.

(** The largest difference between the channels of two triples. *)
Definition drift (x y : Z * Z * Z) : Z :=
  let '(r, g, b) := x in
  let '(r', g', b') := y in
  Z.max (Z.abs (r - r')) (Z.max (Z.abs (g - g')) (Z.abs (b - b'))).

(** [c.lower()] for one character below code point 256: the letters
    A-Z and the Latin-1 capitals from 192 to 222 (215, the
    multiplication sign, apart) move up by 32; every other character
    stays. *)
Definition lower_char (c : ascii) : ascii :=
  let n := Py.ord c in
  if ((65 <=? n) && (n <=? 90))
     || ((192 <=? n) && (n <=? 222) && negb (n =? 215))
  then ascii_of_nat (nat_of_ascii c + 32) else c.

(** [h.lower()] for a text of characters below code point 256: there
    the lower-case form of a character is again one such character. *)
Fixpoint lower (h : string) : string :=
  match h with
  | EmptyString => EmptyString
  | String c r => String (lower_char c) (lower r)
  end.

(** [n] times the character [#]. *)
Fixpoint hashes (n : nat) : string :=
  match n with
  | O => EmptyString
  | S n' => String "#" (hashes n')
  end.

(** A JSON array whose entries are all strings. *)
Definition is_str (v : pyval) : bool :=
  match v with
  | PStr _ => true
  | _ => false
  end.



(** The view window lies inside the history. *)
Definition view_ok (s : state) : Prop :=
  0 <= history_view_start s <= Z.max 0 (len s - available_lines).

(** The cursor, when set, is an index of the history. *)
Definition cursor_ok (s : state) : Prop :=
  match history_index s with
  | None => True
  | Some i => 0 <= i < len s
  end.

(** A property of the state an outcome carries. *)
Definition sat (P : state -> Prop) (o : outcome) : Prop :=
  match o with
  | Continue s | Exit s => P s
  | Crash => True
  end.

(** Inserting a sequence of values, the first one first. *)
Definition insert_all (values : list string) (history : list pyval) : list pyval :=
  fold_left history_insert values history.

(** Finite enumerations used to decide statements by evaluation. *)
Definition Zrange (n : nat) : list Z := map Z.of_nat (seq 0 n).
Definition all_ascii : list ascii := map ascii_of_nat (seq 0 256).

Definition result_is (r : result Z) (v : Z) : bool :=
  match r with
  | Ok x => x =? v
  | Raise _ => false
  end.

(** The text of two characters, as [hex_color[i:i+2]] yields it. *)
Definition pair_text (a b : ascii) : string := String a (String b EmptyString).

(** What evaluation checks of a pair of characters: when both are
    hexadecimal digits, [int(.., 16)] reads their byte, and [02x] writes
    that byte as the two digits in lower case. *)
Definition hex_pair_ok (a b : ascii) : bool :=
  implb (is_hex_digit a && is_hex_digit b)
        (result_is (Py.int (pair_text a b) 16) (byte_of a b)
         && (0 <=? byte_of a b) && (byte_of a b <=? 255)
         && String.eqb (Py.format_02x (byte_of a b))
                       (pair_text (lower_char a) (lower_char b))
         && is_hex_digit (lower_char a) && is_hex_digit (lower_char b)
         && (byte_of (lower_char a) (lower_char b) =? byte_of a b)
         && negb (Ascii.eqb a "#")).

(** What evaluation checks of a byte: its scaled value lies in
    [0,1000] and converts back to the byte. *)
Definition byte_round_trip_ok (c : Z) : bool :=
  match to_1000 c with
  | Ok v => (0 <=? v) && (v <=? 1000) && result_is (to_255 v) c
  | Raise _ => false
  end.

(** The scaled value of the byte two hexadecimal digits denote. *)
Definition scaled_of (a b : ascii) : Z :=
  round_half_away (byte_of a b * 1000) 255.

Definition six (a b c d e f : ascii) : string :=
  String a (String b (String c (String d (String e (String f EmptyString))))).

(** A world in which the history file is in the given state, writing
    succeeds and the clipboard works. *)
Definition world_with_file (f : file_status) : world :=
  {| file := f; write_error := None; CLIP_AVAILABLE := true;
     copy_error := None |}.

(** The events of typing a text and pressing Enter, in a given world. *)
Definition typed (w : world) (text : string) : list (world * Z) :=
  (map (fun c => (w, Py.ord c)) (list_ascii_of_string text) ++ [(w, 10)])%list.

(** The view window and the cursor are both in range. *)
Definition window_inv (s : state) : Prop := view_ok s /\ cursor_ok s.

(** The index KEY_DOWN moves to (line 299 or 301). *)
Definition next_older (s : state) : Z :=
  match history_index s with
  | None => 0
  | Some i => Z.min (len s - 1) (i + 1)
  end.

(** The history holds at most [HISTORY_MAX] entries. *)
Definition bounded (s : state) : Prop :=
  (List.length (history s) <= HISTORY_MAX)%nat.

(** The cursor as a number, -1 standing for no cursor. *)
Definition cursor_pos (s : state) : Z :=
  match history_index s with
  | None => -1
  | Some i => i
  end.

(** ** Further notions: the codec on arbitrary texts *)

(** What [int(.., 16)] reads from two characters, when it reads them. *)
Definition int16_pair (a b : ascii) : option Z :=
  match Py.int (pair_text a b) 16 with
  | Ok v => Some v
  | Raise _ => None
  end.

Definition option_Z_eqb (x y : option Z) : bool :=
  match x, y with
  | Some a, Some b => a =? b
  | None, None => true
  | _, _ => false
  end.

(** What evaluation checks of any two characters: [int(.., 16)] either
    reads a value from -15 to 255 or raises a ValueError, and reads the
    same from the two characters in lower case. *)
Definition any_pair_ok (a b : ascii) : bool :=
  match Py.int (pair_text a b) 16 with
  | Ok v => (-15 <=? v) && (v <=? 255)
  | Raise e => is_ValueError e
  end
  && option_Z_eqb (int16_pair (lower_char a) (lower_char b)) (int16_pair a b).

(** What evaluation checks of a pair value: scaling succeeds and lands
    between -59 and 1000. *)
Definition scaled_range_ok (c : Z) : bool :=
  match to_1000 c with
  | Ok v => (-59 <=? v) && (v <=? 1000)
  | Raise _ => false
  end.

(** The three scaled channels of three pair values. *)
Definition scale3 (r g b : Z) : result (Z * Z * Z) :=
  r_1000 <- to_1000 r ;;
  g_1000 <- to_1000 g ;;
  b_1000 <- to_1000 b ;;
  Ok (r_1000, g_1000, b_1000).

(** What evaluation checks of a scaled value: its byte is written by
    [02x] as two lower-case hexadecimal digits that read back as the
    byte, and scaling the byte again moves the value by at most 2. *)
Definition scaled_round_trip_ok (v : Z) : bool :=
  match to_255 v with
  | Ok c =>
      match Py.format_02x c with
      | String a (String b EmptyString) =>
          is_hex_digit a && is_hex_digit b
          && Ascii.eqb (lower_char a) a && Ascii.eqb (lower_char b) b
          && (byte_of a b =? c)
          && result_is (Py.int (pair_text a b) 16) c
          && match to_1000 c with
             | Ok v' => (Z.abs (v - v') <=? 2)
             | Raise _ => false
             end
      | _ => false
      end
  | Raise _ => false
  end.

(** What evaluation checks of two neighbouring values: the conversion
    does not decrease. *)
Definition step_monotone (f : Z -> result Z) (v : Z) : bool :=
  match f v, f (v + 1) with
  | Ok c, Ok c' => c <=? c'
  | _, _ => false
  end.

(** ** Further notions: typing, the rendering of the left panel, the
    colour panel *)

(** A key whose character the last branch of the chain appends: it is
    printable and none of [c], [s], [l], [C], which the branches before
    take as commands. *)
Definition typeable (key : Z) : bool :=
  (32 <=? key) && (key <=? 126)
  && negb ((key =? 99) || (key =? 115) || (key =? 108) || (key =? 67)).

Definition typeable_char (c : ascii) : bool := typeable (Py.ord c).

Definition printable_char (c : ascii) : bool :=
  (32 <=? Py.ord c) && (Py.ord c <=? 126).

(** [s] without the characters that are not appended when typed. *)
Fixpoint typed_part (s : string) : string :=
  match s with
  | EmptyString => EmptyString
  | String c r =>
      if typeable_char c then String c (typed_part r) else typed_part r
  end.

Fixpoint string_forallb (p : ascii -> bool) (s : string) : bool :=
  match s with
  | EmptyString => true
  | String c r => p c && string_forallb p r
  end.

(** The keys of a text, one per pass of the loop, in the world [w]. *)
Definition keys_of (w : world) (text : string) : list (world * Z) :=
  map (fun c => (w, Py.ord c)) (list_ascii_of_string text).

(** [len("Ввод: ")], the label of the input field. *)
Definition input_label_len : Z := 6.

(** Line 191. *)
Definition max_input_len : Z :=
  INPUT_PANEL_WIDTH - INDENT_X - input_label_len - 4.

(** [s[i:]] for any int [i]. *)
Definition str_from (i : Z) (s : string) : string :=
  let n := Z.of_nat (String.length s) in
  let a := if i <? 0 then Z.max 0 (n + i) else Z.min i n in
  substring (Z.to_nat a) (Z.to_nat (n - a)) s.

(** Line 192: [display_input = current_input[-max_input_len:]]. *)
Definition display_input (current_input : string) : string :=
  str_from (- max_input_len) current_input.

(** Line 223: the column of the cursor inside the left panel. *)
Definition cursor_x (current_input : string) : Z :=
  INDENT_X + input_label_len
  + Z.of_nat (String.length (display_input current_input)).

(** [l[i:j]] for any ints [i], [j]. *)
Definition list_slice {A : Type} (l : list A) (i j : Z) : list A :=
  let n := Z.of_nat (List.length l) in
  let a := if i <? 0 then Z.max 0 (n + i) else Z.min i n in
  let b := if j <? 0 then Z.max 0 (n + j) else Z.min j n in
  firstn (Z.to_nat (b - a)) (skipn (Z.to_nat a) l).

(** Line 210: the entries drawn below the message. *)
Definition to_show (s : state) : list pyval :=
  list_slice (history s) (history_view_start s)
             (history_view_start s + available_lines).

(** Lines 212-215: whether row [i] of [to_show] carries the marker
    [>]. *)
Definition marked (s : state) (i : nat) : bool :=
  match history_index s with
  | Some k => k =? history_view_start s + Z.of_nat i
  | None => false
  end.

(** What the terminal answers to [draw_color_panel]. *)
Record terminal : Type := {
  can_change_colors : bool;               (* curses.can_change_color() *)
  custom_color_fails : Z -> Z -> Z -> bool;
    (* init_color(100, r, g, b) or the init_pair after it raises *)
  init_pair_fails : Z -> bool             (* init_pair(n, ..) raises *)
}.

(** [pair_attr], the style the inside of the panel is filled with. *)
Inductive pair_attr : Type :=
| PairCustom (r g b : Z)   (* color_pair(100) after init_color(100, r, g, b) *)
| PairLight                (* color_pair(200): black on white *)
| PairDark                 (* color_pair(201): white on black *)
| PairPlain.               (* color_pair(1) *)

Inductive panel_error : Type :=
| NotAString               (* AttributeError: the value has no lstrip *)
| CodecError (e : exn)     (* raised by hex_to_1000 *)
| DigitsError (e : exn).   (* raised by int(hex_color_str[i:i+2], 16) *)

(** What [draw_color_panel] leaves in the panel. *)
Inductive drawn : Type :=
| NoColor                  (* the label "No color" *)
| Filled (a : pair_attr)   (* the inside filled with blanks in style [a] *)
| ColorError (e : panel_error).   (* the text "Ошибка цвета: {e}" *)

(** Python's truth value of a value. *)
Definition truthy (v : pyval) : bool :=
  match v with
  | PNone => false
  | PBool b => b
  | PInt n => negb (n =? 0)
  | PFloat x => negb (PrimFloat.eqb x (Py.float_of_int 0))
  | PStr s => negb (String.eqb s "")
  | PList l => match l with [] => false | _ => true end
  | PDict items => match items with [] => false | _ => true end
  end.

(** Lines 149-153: the bytes read at the fixed places 1, 3 and 5 of the
    text, to tell a light colour from a dark one. *)
Definition bytes_at_fixed_places (hex_color_str : string) : result (Z * Z * Z) :=
  r <- Py.int (Py.slice 1 3 hex_color_str) 16 ;;
  g <- Py.int (Py.slice 3 5 hex_color_str) 16 ;;
  b <- Py.int (Py.slice 5 7 hex_color_str) 16 ;;
  Ok (r, g, b).

(** [avg > 200] for [avg = (r + g + b) / 3]. *)
Definition is_light (r g b : Z) : bool :=
  PrimFloat.ltb (Py.float_of_int 200) (Py.truediv (r + g + b) 3).

(** Lines 129-176, for a terminal whose [addstr] succeeds. *)
Definition painted (t : terminal) (v : pyval) : drawn :=
  if negb (truthy v) then NoColor
  else
    match v with
    | PStr hex_color_str =>
        match hex_to_1000 hex_color_str with
        | Raise e => ColorError (CodecError e)
        | Ok (r_1000, g_1000, b_1000) =>
            if can_change_colors t then
              Filled (if custom_color_fails t r_1000 g_1000 b_1000
                      then PairPlain
                      else PairCustom r_1000 g_1000 b_1000)
            else
              match bytes_at_fixed_places hex_color_str with
              | Raise e => ColorError (DigitsError e)
              | Ok (r, g, b) =>
                  if is_light r g b then
                    Filled (if init_pair_fails t 200 then PairPlain
                            else PairLight)
                  else
                    Filled (if init_pair_fails t 201 then PairPlain
                            else PairDark)
              end
        end
    | _ => ColorError NotAString
    end.

(** A terminal that cannot change colours and whose pairs work. *)
Definition plain_terminal : terminal :=
  {| can_change_colors := false;
     custom_color_fails := fun _ _ _ => false;
     init_pair_fails := fun _ => false |}.

(** A world whose history file, when read, gives strings only. *)
Definition loads_strings (w : world) : bool :=
  forallb is_str (fst (load_history_from_file w)).

(** The messages of the catch-all handler of the loop. *)
Definition is_global_error (m : msg) : bool :=
  match m with
  | MsgGlobalError _ => true
  | _ => false
  end.

(** What evaluation checks of a sum of three bytes: the float test
    [avg > 200] is the integer test [sum > 600]. *)
Definition light_threshold_ok (sum : Z) : bool :=
  Bool.eqb (PrimFloat.ltb (Py.float_of_int 200) (Py.truediv sum 3))
           (600 <? sum).

(** The input field holds a text and every history entry is a text. *)
Definition all_strings (s : state) : Prop :=
  (exists text, current_input s = PStr text)
  /\ forallb is_str (history s) = true.

(** The last hex, when set, begins with [#] and converts. *)
Definition last_hex_ok (s : state) : Prop :=
  forall h, last_hex s = Some h ->
    Py.startswith "#" h = true /\ exists r g b, hex_to_1000 h = Ok (r, g, b).

(** [str(n)] for an int [n >= 0]. *)
Definition decimal (n : Z) : string :=
  DecimalString.NilZero.string_of_uint (N.to_uint (Z.to_N n)).

Definition is_digit (c : ascii) : bool :=
  (48 <=? Py.ord c) && (Py.ord c <=? 57).

(** What evaluation checks of an int from 0 to 1000: its decimal text
    is made of digits, is not empty, and [int()] reads it back. *)
Definition decimal_ok (n : Z) : bool :=
  result_is (Py.int (decimal n) 10) n
  && string_forallb is_digit (decimal n)
  && negb (String.eqb (decimal n) "").

(** The text "r g b". *)
Definition triple_text (r g b : Z) : string :=
  (decimal r ++ " " ++ decimal g ++ " " ++ decimal b)%string.

(** ** Further notions: the left panel on the screen

    Lines 183-217 draw the left panel before the [try:] of line 239,
    so that an exception of [addstr] there leaves [main].  [addstr]
    raises ValueError for a str with an embedded NUL, on every
    terminal.  A text of printable ASCII characters is always written:
    the input field shows at most 38 characters from column 8, the
    message and a history row at most 46 from column 2, inside the 50
    columns of the panel.  What becomes of any other text (a newline
    or a tab that runs past the bottom of the window, a character the
    terminal cannot encode) is the terminal's answer, [refuses] below.
    The fixed texts of the program are taken to be drawn: the heading
    of line 186 is one of them and is drawn in every pass. *)

Definition has_nul (text : string) : bool :=
  negb (string_forallb (fun c => negb (Py.ord c =? 0)) text).

(** Printable ASCII characters only. *)
Definition plain (text : string) : bool := string_forallb printable_char text.

(** [str(n)] for an int. *)
Definition str_int (n : Z) : string :=
  DecimalString.NilZero.string_of_int (Z.to_int n).

(** [INPUT_PANEL_WIDTH - 4], the width the message and the history
    rows are cut to (lines 196 and 217). *)
Definition text_width : nat := Z.to_nat (INPUT_PANEL_WIDTH - 4).

(** What is seen of the text of an exception that follows [before]
    characters of the message.  Only an exception of the outside world
    carries a text of its own: the others have fixed texts, and the
    literal quoted by int()'s ValueError comes after "invalid literal
    for int() with base 10: ", 40 characters that push it past the
    width. *)
Definition exn_shown (before : nat) (e : exn) : list string :=
  match e with
  | EnvError text => [Py.slice 0 (text_width - before) text]
  | _ => []
  end.

(** Line 196: the parts of [message[:INPUT_PANEL_WIDTH - 4]] that come
    from run-time texts, each cut where the message is cut.  The number
    before each is the length of the fixed text in front of it:
    "HEX: " 5, "RGB: " 5 and " -> HEX: " 9, "Ошибка: " 8,
    "Скопировано: " 13, "Ошибка копирования: " 20,
    "Ошибка сохранения: " 19, "Ошибка загрузки: " 17,
    "Global error: " 14. *)
Definition msg_shown (m : msg) : list string :=
  match m with
  | MsgHexToRgb hex _ _ _ => [Py.slice 0 (text_width - 5) hex]
  | MsgRgbToHex r g b hex =>
      let before :=
        (5 + String.length (str_int r) + 1 + String.length (str_int g) + 1
         + String.length (str_int b) + 9)%nat in
      [Py.slice 0 (text_width - before) hex]
  | MsgError e => exn_shown 8 e
  | MsgCopied text => [Py.slice 0 (text_width - 13) text]
  | MsgCopyError e => [Py.slice 0 (text_width - 20) e]
  | MsgSaveError e => [Py.slice 0 (text_width - 19) e]
  | MsgLoadError e => [Py.slice 0 (text_width - 17) e]
  | MsgGlobalError e => exn_shown 14 e
  | MsgNone | MsgEmptyInput | MsgNoClipboard | MsgNothingToCopy | MsgSaved
  | MsgNotFound | MsgWrongFormat | MsgLoaded | MsgCleared => []
  end.

(** Lines 215-217: [line = f"{marker} {hexv}"] cut to the width, that
    is the marker, a blank and the first 44 characters of a str
    entry. *)
Definition row_shown (text : string) : string :=
  Py.slice 0 (text_width - 2) text.

(** A row whose [addstr] raises on every terminal.  The text of an
    entry that is no str is [str(hexv)], in which a NUL is written
    as an escape. *)
Definition row_raises (v : pyval) : bool :=
  match v with
  | PStr text => has_nul (row_shown text)
  | _ => false
  end.

(** A row that is written on every terminal.  [None], a bool and a
    number are written in ASCII; the text of a list or a dict can hold
    any printable character. *)
Definition row_plain (v : pyval) : bool :=
  match v with
  | PStr text => plain (row_shown text)
  | PList _ | PDict _ => false
  | PNone | PBool _ | PInt _ | PFloat _ => true
  end.

(** Every text of the left panel is written on every terminal. *)
Definition screen_plain (s : state) : bool :=
  match current_input s with
  | PStr text =>
      plain (display_input text)
      && forallb plain (msg_shown (message s))
      && forallb row_plain (to_show (clamp_view s))
  | _ => false
  end.

(** Whether drawing the left panel (lines 183-217) raises, on a
    terminal that refuses the screens [refuses] says, among those it
    is free to refuse.  A [current_input] that is no str is a TypeError
    at line 192 or 193. *)
Definition render_raises (refuses : state -> bool) (s : state) : bool :=
  match current_input s with
  | PStr text =>
      has_nul (display_input text)
      || existsb has_nul (msg_shown (message s))
      || existsb row_raises (to_show (clamp_view s))
      || (negb (screen_plain s) && refuses s)
  | _ => true
  end.

(** One pass of [while True] on such a terminal: the panel is drawn,
    then the key is handled. *)
Definition loop_pass (refuses : state -> bool) (w : world) (key : Z)
           (s : state) : outcome :=
  if render_raises refuses s then Crash else loop_body w key s.

(** The loop on such a terminal. *)
Fixpoint run_screen (refuses : state -> bool) (s : state)
         (events : list (world * Z)) : outcome :=
  match events with
  | [] => Continue s
  | (w, key) :: rest =>
      match loop_pass refuses w key s with
      | Continue s' => run_screen refuses s' rest
      | o => o
      end
  end.

(** A str of printable ASCII characters. *)
Definition plain_entry (v : pyval) : bool :=
  match v with
  | PStr text => plain text
  | _ => false
  end.

(** A world whose texts are plain: the entries the history file gives
    when read, and the texts of the exceptions of reading, writing and
    copying. *)
Definition plain_world (w : world) : bool :=
  forallb plain_entry (fst (load_history_from_file w))
  && match file w with
     | Unreadable e => plain e
     | _ => true
     end
  && match write_error w with
     | Some e => plain e
     | None => true
     end
  && match copy_error w with
     | Some e => plain e
     | None => true
     end.

(** The texts of the state are plain: the input field, the history
    entries, the last hex and what is seen of the message. *)
Definition plain_state (s : state) : Prop :=
  (exists text, current_input s = PStr text /\ plain text = true)
  /\ forallb plain_entry (history s) = true
  /\ (forall h, last_hex s = Some h -> plain h = true)
  /\ forallb plain (msg_shown (message s)) = true.

(** * Properties *)

(** ** Deciding by enumeration *)

Lemma Zrange_forallb (P : Z -> bool) (n : nat) :
  forallb P (Zrange n) = true ->
  forall z, 0 <= z < Z.of_nat n -> P z = true.
Proof.
  intros H z Hz. rewrite forallb_forall in H. apply H.
  unfold Zrange. apply in_map_iff. exists (Z.to_nat z).
  split; [lia | apply in_seq; lia].
Qed.

Lemma all_ascii_complete (c : ascii) : In c all_ascii.
Proof.
  unfold all_ascii. apply in_map_iff. exists (nat_of_ascii c).
  split; [apply ascii_nat_embedding | ].
  apply in_seq. pose proof (nat_ascii_bounded c). lia.
Qed.

Lemma all_ascii_forallb (P : ascii -> bool) :
  forallb P all_ascii = true -> forall c, P c = true.
Proof.
  intros H c. rewrite forallb_forall in H. apply H, all_ascii_complete.
Qed.

Lemma result_is_Ok (r : result Z) (v : Z) : result_is r v = true -> r = Ok v.
Proof.
  destruct r as [x | e]; simpl; [ | discriminate].
  intros H. apply Z.eqb_eq in H. now subst.
Qed.

(** ** Rounding of the two conversions *)

Lemma to_1000_nearest (c : Z) :
  0 <= c <= 255 -> to_1000 c = Ok (round_half_away (c * 1000) 255).
Proof.
  intros Hc. apply result_is_Ok.
  apply (Zrange_forallb
           (fun c => result_is (to_1000 c) (round_half_away (c * 1000) 255)) 256);
    [ vm_compute; reflexivity | lia ].
Qed.

Lemma to_255_nearest_even (v : Z) :
  0 <= v <= 1000 -> to_255 v = Ok (round_half_even (v * 255) 1000).
Proof.
  intros Hv. apply result_is_Ok.
  apply (Zrange_forallb
           (fun v => result_is (to_255 v) (round_half_even (v * 255) 1000)) 1001);
    [ vm_compute; reflexivity | lia ].
Qed.

Lemma half_even_is_half_away (v : Z) :
  0 <= v <= 1000 -> v <> 300 -> v <> 700 ->
  round_half_even (v * 255) 1000 = round_half_away (v * 255) 1000.
Proof.
  intros Hv H3 H7.
  assert (H : ((v =? 300) || (v =? 700)
               || (round_half_even (v * 255) 1000
                   =? round_half_away (v * 255) 1000)) = true).
  { apply (Zrange_forallb
             (fun v => (v =? 300) || (v =? 700)
                       || (round_half_even (v * 255) 1000
                           =? round_half_away (v * 255) 1000)) 1001);
      [ vm_compute; reflexivity | lia ]. }
  apply orb_true_iff in H. destruct H as [H | H].
  - apply orb_true_iff in H. destruct H as [H | H]; apply Z.eqb_eq in H; contradiction.
  - now apply Z.eqb_eq.
Qed.

(** C1, as stated, fails: at the scaled value 300 the exact quotient is
    76.5; [rgb1000_to_hex] yields 76 (hex 4c) where rounding half away
    from zero gives 77. *)
Lemma scaled_300_not_half_away :
  to_255 300 = Ok 76
  /\ round_half_away (300 * 255) 1000 = 77
  /\ rgb1000_to_hex 300 0 0 = Ok "#4c0000".
Proof. vm_compute. repeat split. Qed.

(** C1 (amended): [hex_to_1000] maps every byte channel c in [0,255] to
    the integer nearest to c*1000/255, where no tie arises, so that it
    agrees with rounding half away from zero; [rgb1000_to_hex] maps every
    scaled channel v in [0,1000] to the integer nearest to v*255/1000
    with a tie going to the even neighbour, which is the half-away value
    for every v except 300 and 700. *)
Theorem channel_rounding :
  (forall c, 0 <= c <= 255 ->
     to_1000 c = Ok (round_half_away (c * 1000) 255)
     /\ round_half_away (c * 1000) 255 = round_half_even (c * 1000) 255)
  /\ (forall v, 0 <= v <= 1000 ->
        to_255 v = Ok (round_half_even (v * 255) 1000))
  /\ (forall v, 0 <= v <= 1000 -> v <> 300 -> v <> 700 ->
        to_255 v = Ok (round_half_away (v * 255) 1000)).
Proof.
  split; [ | split].
  - intros c Hc. split; [now apply to_1000_nearest | ].
    apply Z.eqb_eq.
    apply (Zrange_forallb
             (fun c => round_half_away (c * 1000) 255
                       =? round_half_even (c * 1000) 255) 256);
      [ vm_compute; reflexivity | lia ].
  - apply to_255_nearest_even.
  - intros v Hv H3 H7. rewrite <- half_even_is_half_away by assumption.
    now apply to_255_nearest_even.
Qed.

(** [channel_rounding] at the byte 128 and at the scaled values 700 and 500. *)
Lemma channel_rounding_at_128_and_500 :
  (to_1000 128 = Ok (round_half_away (128 * 1000) 255)
   /\ round_half_away (128 * 1000) 255 = round_half_even (128 * 1000) 255)
  /\ to_255 700 = Ok (round_half_even (700 * 255) 1000)
  /\ to_255 500 = Ok (round_half_away (500 * 255) 1000).
Proof.
  split; [ | split].
  - apply (proj1 channel_rounding 128). lia.
  - apply (proj1 (proj2 channel_rounding) 700). lia.
  - apply (proj2 (proj2 channel_rounding) 500); lia.
Defined.

(** ** Hexadecimal pairs and bytes *)

Lemma hex_pairs_checked :
  forallb (fun a => forallb (hex_pair_ok a) all_ascii) all_ascii = true.
Proof. vm_compute. reflexivity. Qed.

Lemma hex_pair_facts (a b : ascii) :
  is_hex_digit a = true -> is_hex_digit b = true ->
  Py.int (pair_text a b) 16 = Ok (byte_of a b)
  /\ 0 <= byte_of a b <= 255
  /\ Py.format_02x (byte_of a b) = pair_text (lower_char a) (lower_char b)
  /\ is_hex_digit (lower_char a) = true
  /\ is_hex_digit (lower_char b) = true
  /\ byte_of (lower_char a) (lower_char b) = byte_of a b
  /\ Ascii.eqb a "#" = false.
Proof.
  intros Ha Hb.
  pose proof (all_ascii_forallb _ hex_pairs_checked a) as H. simpl in H.
  pose proof (all_ascii_forallb _ H b) as H'.
  unfold hex_pair_ok in H'. rewrite Ha, Hb in H'. simpl in H'.
  repeat (apply andb_true_iff in H'; destruct H' as [H' ?]).
  repeat split.
  - now apply result_is_Ok.
  - now apply Z.leb_le.
  - now apply Z.leb_le.
  - now apply String.eqb_eq.
  - assumption.
  - assumption.
  - now apply Z.eqb_eq.
  - now apply negb_true_iff.
Qed.

Lemma byte_round_trip (c : Z) :
  0 <= c <= 255 ->
  exists v, to_1000 c = Ok v /\ 0 <= v <= 1000 /\ to_255 v = Ok c.
Proof.
  intros Hc.
  assert (H : byte_round_trip_ok c = true).
  { apply (Zrange_forallb byte_round_trip_ok 256);
      [ vm_compute; reflexivity | lia ]. }
  unfold byte_round_trip_ok in H.
  destruct (to_1000 c) as [v | e]; [ | discriminate].
  exists v.
  apply andb_true_iff in H. destruct H as [H Hback].
  apply andb_true_iff in H. destruct H as [Hlo Hhi].
  repeat split.
  - now apply Z.leb_le.
  - now apply Z.leb_le.
  - now apply result_is_Ok.
Qed.

Lemma is_hex6_inv (s : string) :
  is_hex6 s = true ->
  exists a b c d e f,
    s = six a b c d e f
    /\ is_hex_digit a = true /\ is_hex_digit b = true
    /\ is_hex_digit c = true /\ is_hex_digit d = true
    /\ is_hex_digit e = true /\ is_hex_digit f = true.
Proof.
  unfold is_hex6.
  destruct s as [ | a [ | b [ | c [ | d [ | e [ | f [ | g s]]]]]]];
    simpl; try discriminate.
  intros H.
  repeat (apply andb_true_iff in H; destruct H as [? H]).
  exists a, b, c, d, e, f. repeat split; assumption.
Qed.

(** [hex_to_1000] on a text whose part after the leading [#]s is six
    hexadecimal digits. *)
Lemma hex_to_1000_six (t : string) (a b c d e f : ascii) :
  Py.lstrip_char "#" t = six a b c d e f ->
  is_hex_digit a = true -> is_hex_digit b = true ->
  is_hex_digit c = true -> is_hex_digit d = true ->
  is_hex_digit e = true -> is_hex_digit f = true ->
  hex_to_1000 t = Ok (scaled_of a b, scaled_of c d, scaled_of e f).
Proof.
  intros Ht Ha Hb Hc Hd He Hf.
  destruct (hex_pair_facts a b Ha Hb) as (Iab & Rab & _).
  destruct (hex_pair_facts c d Hc Hd) as (Icd & Rcd & _).
  destruct (hex_pair_facts e f He Hf) as (Ief & Ref & _).
  unfold hex_to_1000. rewrite Ht.
  change (String.length (six a b c d e f)) with 6%nat.
  change (Py.slice 0 2 (six a b c d e f)) with (pair_text a b).
  change (Py.slice 2 4 (six a b c d e f)) with (pair_text c d).
  change (Py.slice 4 6 (six a b c d e f)) with (pair_text e f).
  rewrite Iab, Icd, Ief. simpl.
  rewrite !to_1000_nearest by assumption. reflexivity.
Qed.

Lemma lstrip_char_hex_digit (a : ascii) (s : string) :
  Ascii.eqb a "#" = false ->
  Py.lstrip_char "#" (String a s) = String a s.
Proof. intros H. simpl. now rewrite H. Qed.

Lemma lstrip_char_hashes (n : nat) (s : string) :
  Py.lstrip_char "#" (hashes n ++ s) = Py.lstrip_char "#" s.
Proof. induction n as [ | n IH]; simpl; [reflexivity | exact IH]. Qed.

Lemma rgb1000_to_hex_scaled (a b c d e f : ascii) :
  is_hex_digit a = true -> is_hex_digit b = true ->
  is_hex_digit c = true -> is_hex_digit d = true ->
  is_hex_digit e = true -> is_hex_digit f = true ->
  rgb1000_to_hex (scaled_of a b) (scaled_of c d) (scaled_of e f)
  = Ok (lower (String "#" (six a b c d e f))).
Proof.
  intros Ha Hb Hc Hd He Hf.
  destruct (hex_pair_facts a b Ha Hb) as (_ & Rab & Fab & _).
  destruct (hex_pair_facts c d Hc Hd) as (_ & Rcd & Fcd & _).
  destruct (hex_pair_facts e f He Hf) as (_ & Ref & Fef & _).
  destruct (byte_round_trip _ Rab) as (v1 & T1 & B1 & U1).
  destruct (byte_round_trip _ Rcd) as (v2 & T2 & B2 & U2).
  destruct (byte_round_trip _ Ref) as (v3 & T3 & B3 & U3).
  rewrite to_1000_nearest in T1, T2, T3 by assumption.
  injection T1 as T1. injection T2 as T2. injection T3 as T3.
  unfold scaled_of. rewrite T1, T2, T3.
  unfold rgb1000_to_hex.
  replace ((0 <=? v1) && (v1 <=? 1000) && (0 <=? v2) && (v2 <=? 1000)
           && (0 <=? v3) && (v3 <=? 1000)) with true
    by (symmetry; repeat (apply andb_true_iff; split); apply Z.leb_le; lia).
  simpl negb. cbv iota.
  rewrite U1, U2, U3. simpl bind. rewrite Fab, Fcd, Fef. reflexivity.
Qed.

Lemma valid_hex_six (a b c d e f : ascii) :
  is_hex_digit a = true -> is_hex_digit b = true ->
  is_hex_digit c = true -> is_hex_digit d = true ->
  is_hex_digit e = true -> is_hex_digit f = true ->
  valid_hex (String "#" (six a b c d e f)) = true.
Proof.
  intros Ha Hb Hc Hd He Hf. unfold valid_hex, is_hex6, six. simpl.
  now rewrite Ha, Hb, Hc, Hd, He, Hf.
Qed.

Lemma channels_six (a b c d e f : ascii) :
  is_hex_digit a = true -> is_hex_digit b = true ->
  is_hex_digit c = true -> is_hex_digit d = true ->
  is_hex_digit e = true -> is_hex_digit f = true ->
  channels (String "#" (six a b c d e f))
  = Some (byte_of a b, byte_of c d, byte_of e f).
Proof.
  intros Ha Hb Hc Hd He Hf.
  pose proof (valid_hex_six a b c d e f Ha Hb Hc Hd He Hf) as V.
  unfold channels, six in *. now rewrite V.
Qed.

Lemma drift_refl (x : Z * Z * Z) : drift x x = 0.
Proof. destruct x as [[r g] b]. unfold drift. rewrite !Z.sub_diag. reflexivity. Qed.

(** C2: for every valid hex colour h, [rgb1000_to_hex] of
    [hex_to_1000 h] succeeds and its channels differ from those of h by
    at most 1 on the 0-255 scale; the result is h in lower case, so it
    equals h whenever h is written in lower case.  The values named by
    the specification are as it gives them. *)
Theorem hex_round_trip :
  (forall h, valid_hex h = true ->
     exists r g b h' c c',
       hex_to_1000 h = Ok (r, g, b)
       /\ rgb1000_to_hex r g b = Ok h'
       /\ channels h = Some c /\ channels h' = Some c'
       /\ drift c c' <= 1
       /\ h' = lower h)
  /\ hex_to_1000 "#ff0000" = Ok (1000, 0, 0)
  /\ hex_to_1000 "#000000" = Ok (0, 0, 0)
  /\ hex_to_1000 "#ffffff" = Ok (1000, 1000, 1000)
  /\ hex_to_1000 "#808080" = Ok (502, 502, 502)
  /\ rgb1000_to_hex 502 502 502 = Ok "#808080"
  /\ rgb1000_to_hex 1000 0 0 = Ok "#ff0000"
  /\ rgb1000_to_hex 0 0 0 = Ok "#000000".
Proof.
  split; [ | vm_compute; repeat split].
  intros h Hh.
  destruct h as [ | x s]; [discriminate | ].
  unfold valid_hex in Hh.
  destruct (Ascii.eqb_spec x "#") as [-> | Hx];
    [ | destruct x as [[] [] [] [] [] [] [] []]; try discriminate; now elim Hx].
  destruct (is_hex6_inv s Hh) as (a & b & c & d & e & f & -> & Ha & Hb & Hc & Hd & He & Hf).
  destruct (hex_pair_facts a b Ha Hb) as (_ & _ & _ & La & Lb & Eab & Na).
  destruct (hex_pair_facts c d Hc Hd) as (_ & _ & _ & Lc & Ld & Ecd & _).
  destruct (hex_pair_facts e f He Hf) as (_ & _ & _ & Le & Lf & Eef & _).
  exists (scaled_of a b), (scaled_of c d), (scaled_of e f),
    (lower (String "#" (six a b c d e f))),
    (byte_of a b, byte_of c d, byte_of e f),
    (byte_of a b, byte_of c d, byte_of e f).
  repeat split.
  - apply hex_to_1000_six; try assumption.
    change (Py.lstrip_char "#" (String "#" (six a b c d e f)))
      with (Py.lstrip_char "#" (six a b c d e f)).
    now apply lstrip_char_hex_digit.
  - now apply rgb1000_to_hex_scaled.
  - now apply channels_six.
  - change (lower (String "#" (six a b c d e f)))
      with (String "#" (six (lower_char a) (lower_char b) (lower_char c)
                            (lower_char d) (lower_char e) (lower_char f))).
    rewrite channels_six by assumption. now rewrite Eab, Ecd, Eef.
  - rewrite drift_refl. lia.
Qed.

(** [hex_round_trip] at a colour written in mixed case. *)
Lemma hex_round_trip_at_AbCdEf :
  exists r g b h' c c',
    hex_to_1000 "#AbCdEf" = Ok (r, g, b)
    /\ rgb1000_to_hex r g b = Ok h'
    /\ channels "#AbCdEf" = Some c /\ channels h' = Some c'
    /\ drift c c' <= 1
    /\ h' = lower "#AbCdEf".
Proof. apply (proj1 hex_round_trip "#AbCdEf"). reflexivity. Defined.

(** C10: every leading [#] is stripped: n of them followed by six
    hexadecimal digits convert, and to the triple of one [#] followed by
    the same digits; that triple is the three bytes the digits denote,
    each scaled to 0-1000 (the integer nearest to byte * 1000 / 255). *)
Theorem hex_to_1000_any_hashes (s : string) (n : nat) :
  is_hex6 s = true ->
  exists r g b,
    channels (String "#" s) = Some (r, g, b)
    /\ hex_to_1000 (hashes n ++ s)
       = Ok (round_half_away (r * 1000) 255,
             round_half_away (g * 1000) 255,
             round_half_away (b * 1000) 255)
    /\ hex_to_1000 (String "#" s)
       = Ok (round_half_away (r * 1000) 255,
             round_half_away (g * 1000) 255,
             round_half_away (b * 1000) 255).
Proof.
  intros Hs.
  destruct (is_hex6_inv s Hs) as (a & b & c & d & e & f & -> & Ha & Hb & Hc & Hd & He & Hf).
  destruct (hex_pair_facts a b Ha Hb) as (_ & _ & _ & _ & _ & _ & Na).
  assert (L : Py.lstrip_char "#" (six a b c d e f) = six a b c d e f)
    by (now apply lstrip_char_hex_digit).
  exists (byte_of a b), (byte_of c d), (byte_of e f).
  split; [now apply channels_six | ]. split.
  - apply hex_to_1000_six; try assumption.
    now rewrite lstrip_char_hashes.
  - apply hex_to_1000_six; try assumption.
Qed.

(** [hex_to_1000_any_hashes] with two leading [#] and with none: both
    texts give the triple of "#ff0000". *)
Lemma hex_to_1000_two_hashes_and_none :
  hex_to_1000 (hashes 2 ++ "ff0000") = Ok (1000, 0, 0)
  /\ hex_to_1000 (hashes 0 ++ "ff0000") = Ok (1000, 0, 0)
  /\ hex_to_1000 (String "#" "ff0000") = Ok (1000, 0, 0).
Proof.
  destruct (hex_to_1000_any_hashes "ff0000" 2 eq_refl)
    as (r & g & b & C & H2 & H1).
  destruct (hex_to_1000_any_hashes "ff0000" 0 eq_refl)
    as (r0 & g0 & b0 & C0 & H0 & _).
  cbv in C, C0.
  injection C as <- <- <-. injection C0 as <- <- <-.
  split; [exact H2 | split; [exact H0 | exact H1]].
Defined.

(** ** History insertion *)

#[local] Arguments firstn : simpl never.

Lemma ne_str_false (v : pyval) (x : string) : ne_str v x = false <-> v = PStr x.
Proof.
  destruct v; simpl; try (split; [discriminate | discriminate]).
  rewrite negb_false_iff, String.eqb_eq. split; [now intros -> | now intros [= ->]].
Qed.

Lemma history_insert_new (h : list pyval) (x : string) :
  hd_error h <> Some (PStr x) ->
  history_insert h x = firstn HISTORY_MAX (PStr x :: h).
Proof.
  intros H. unfold history_insert. destruct h as [ | top rest]; [reflexivity | ].
  destruct (ne_str top x) eqn:E; [reflexivity | ].
  apply ne_str_false in E. subst top. now elim H.
Qed.

Lemma history_insert_top (h : list pyval) (x : string) :
  hd_error h = Some (PStr x) ->
  history_insert h x = firstn HISTORY_MAX h.
Proof.
  intros H. unfold history_insert. destruct h as [ | top rest]; [discriminate | ].
  injection H as ->. simpl ne_str. now rewrite String.eqb_refl.
Qed.

Lemma history_insert_length (h : list pyval) (x : string) :
  (List.length (history_insert h x) <= HISTORY_MAX)%nat.
Proof. unfold history_insert. apply firstn_le_length. Qed.

Lemma firstn_app_firstn {A : Type} (n m : nat) (a b : list A) :
  (n <= m)%nat -> firstn n (a ++ firstn m b) = firstn n (a ++ b).
Proof.
  revert n. induction a as [ | x a IH]; intros n Hn.
  - simpl. rewrite firstn_firstn. f_equal. lia.
  - destruct n as [ | n]; [reflexivity | ].
    rewrite <- !app_comm_cons, !firstn_cons. f_equal.
    apply IH. lia.
Qed.

Lemma insert_all_distinct (l : list string) (h : list pyval) :
  NoDup l ->
  (List.length h <= HISTORY_MAX)%nat ->
  (forall x, In x l -> hd_error h <> Some (PStr x)) ->
  insert_all l h = firstn HISTORY_MAX (rev (map PStr l) ++ h).
Proof.
  revert h. induction l as [ | x l IH]; intros h ND Hlen Hh.
  - unfold insert_all. simpl. symmetry. now apply firstn_all2.
  - apply NoDup_cons_iff in ND. destruct ND as [Hx ND].
    change (insert_all (x :: l) h) with (insert_all l (history_insert h x)).
    rewrite history_insert_new by (apply Hh; now left).
    rewrite IH.
    + rewrite firstn_app_firstn by lia.
      simpl. now rewrite <- app_assoc.
    + assumption.
    + apply firstn_le_length.
    + intros y Hy. simpl. intros [= ->]. contradiction.
Qed.

Lemma insert_all_app (l1 l2 : list string) (h : list pyval) :
  insert_all (l1 ++ l2) h = insert_all l2 (insert_all l1 h).
Proof. apply fold_left_app. Qed.

(** The newest entry after inserting distinct values is the last one
    inserted. *)
Lemma hd_error_firstn_rev (rest : list string) (oldest x : string) :
  NoDup (oldest :: rest) -> rest <> [] ->
  hd_error (firstn HISTORY_MAX (rev (map PStr (oldest :: rest)) ++ []))
  <> Some (PStr oldest).
Proof.
  intros ND Hrest.
  destruct (exists_last Hrest) as (front & newest & ->).
  apply NoDup_cons_iff in ND. destruct ND as [Hin _].
  rewrite app_nil_r. simpl map. rewrite map_app. simpl rev.
  rewrite rev_app_distr. simpl.
  intros [= ->]. apply Hin. apply in_or_app. right. now left.
Qed.

(** C3: [history_insert] puts the hex in front and cuts the list to its
    first 200 entries when the list is empty or its newest entry
    differs, and leaves a history (of at most 200 entries) as it is
    otherwise.  Hence the same hex twice gives length 1; N distinct
    values and then the oldest of them (N >= 2) give length N + 1 (200
    once the bound is reached); 205 distinct values leave the 200
    newest, the oldest five dropped. *)
Theorem history_insert_spec :
  (forall h x, hd_error h <> Some (PStr x) ->
     history_insert h x = firstn HISTORY_MAX (PStr x :: h))
  /\ (forall h x, hd_error h = Some (PStr x) ->
        (List.length h <= HISTORY_MAX)%nat ->
        history_insert h x = h)
  /\ (forall x, insert_all [x; x] [] = [PStr x])
  /\ (forall oldest rest,
        NoDup (oldest :: rest) -> rest <> [] ->
        List.length (insert_all ((oldest :: rest) ++ [oldest]) [])
        = Nat.min (S (List.length (oldest :: rest))) HISTORY_MAX
        /\ ((S (List.length (oldest :: rest)) <= HISTORY_MAX)%nat ->
            insert_all ((oldest :: rest) ++ [oldest]) []
            = PStr oldest :: rev (map PStr (oldest :: rest))))
  /\ (forall l, NoDup l -> List.length l = 205%nat ->
        insert_all l [] = map PStr (rev (skipn 5 l))
        /\ List.length (insert_all l []) = 200%nat).
Proof.
  split; [exact history_insert_new | ].
  split.
  { intros h x Hh Hlen. rewrite history_insert_top by assumption.
    now apply firstn_all2. }
  split.
  { intros x. unfold insert_all. simpl. unfold history_insert at 2. simpl.
    rewrite history_insert_top by reflexivity. reflexivity. }
  split.
  - intros oldest rest ND Hrest.
    rewrite insert_all_app.
    rewrite (insert_all_distinct (oldest :: rest) []);
      [ | assumption | simpl; lia | intros; discriminate].
    change (insert_all [oldest] ?h) with (history_insert h oldest).
    rewrite history_insert_new by (now apply hd_error_firstn_rev).
    change (PStr oldest :: ?t) with ([PStr oldest] ++ t)%list.
    rewrite firstn_app_firstn by lia.
    rewrite app_nil_r. split.
    + rewrite length_firstn, length_app, length_rev, length_map.
      cbn [List.length]. lia.
    + intros Hle. apply firstn_all2.
      rewrite length_app, length_rev, length_map.
      cbn [List.length] in *. lia.
  - intros l ND Hl.
    rewrite insert_all_distinct; [ | assumption | simpl; lia | intros; discriminate].
    rewrite app_nil_r.
    assert (E : firstn HISTORY_MAX (rev (map PStr l)) = map PStr (rev (skipn 5 l))).
    { rewrite <- map_rev, firstn_map. f_equal.
      rewrite <- (firstn_skipn 5 l) at 1. rewrite rev_app_distr.
      rewrite firstn_app.
      replace (HISTORY_MAX - List.length (rev (skipn 5 l)))%nat with 0%nat
        by (rewrite length_rev, length_skipn, Hl; reflexivity).
      simpl firstn at 2. rewrite app_nil_r.
      apply firstn_all2. rewrite length_rev, length_skipn, Hl. unfold HISTORY_MAX. lia. }
    rewrite E. split; [reflexivity | ].
    rewrite length_map, length_rev, length_skipn, Hl. reflexivity.
Qed.

Lemma hashes_length (n : nat) : String.length (hashes n) = n.
Proof. induction n as [ | n IH]; simpl; [reflexivity | now rewrite IH]. Defined.

Lemma hashes_injective (n m : nat) : hashes n = hashes m -> n = m.
Proof.
  intros H. rewrite <- (hashes_length n), <- (hashes_length m). now rewrite H.
Defined.

(** [history_insert_spec] on small histories and on 205 distinct values. *)
Lemma history_insert_examples :
  history_insert [PStr "#000000"] "#ff0000"
  = firstn HISTORY_MAX [PStr "#ff0000"; PStr "#000000"]
  /\ history_insert [PStr "#ff0000"] "#ff0000" = [PStr "#ff0000"]
  /\ List.length (insert_all (["#000001"; "#000002"; "#000003"] ++ ["#000001"]) [])
     = Nat.min 4 HISTORY_MAX
  /\ List.length (insert_all (map hashes (seq 0 205)) []) = 200%nat.
Proof.
  destruct history_insert_spec as (H1 & H2 & _ & H4 & H5).
  split; [ | split; [ | split]].
  - apply H1. discriminate.
  - apply H2; [reflexivity | simpl; unfold HISTORY_MAX; lia].
  - apply (H4 "#000001" ["#000002"; "#000003"]); [ | discriminate].
    repeat constructor; simpl; intuition discriminate.
  - apply H5.
    + apply NoDup_map_NoDup_ForallPairs; [ | apply seq_NoDup].
      intros n m _ _. apply hashes_injective.
    + now rewrite length_map, length_seq.
Defined.

(** ** The history file *)





(** ** The load key *)





(** ** The Enter key *)

Lemma handle_key_enter (w : world) (key : Z) (inp : string) (s : state) :
  key = KEY_ENTER \/ key = 10 \/ key = 13 ->
  handle_key w key inp s = on_enter inp s.
Proof. intros [-> | [-> | ->]]; reflexivity. Qed.

Lemma on_enter_blank (inp : string) (s : state) :
  Py.strip inp = "" ->
  on_enter inp s = set_message MsgEmptyInput (color_pair 2) s.
Proof. intros H. unfold on_enter. now rewrite H. Qed.

Lemma on_enter_failure (inp : string) (s : state) (e : exn) :
  Py.strip inp <> "" -> parse_input inp = Raise e ->
  on_enter inp s
  = set_input (PStr "") (set_message (MsgError e) (color_pair 2) s).
Proof.
  intros H P. unfold on_enter.
  apply String.eqb_neq in H. now rewrite H, P.
Qed.

Lemma on_enter_success (inp : string) (s : state) (hex : string) (m : msg) :
  Py.strip inp <> "" -> parse_input inp = Ok (hex, m) ->
  on_enter inp s
  = {| current_input := PStr ""; message := m; message_attr := color_pair 3;
       last_hex := Some hex; history := history_insert (history s) hex;
       history_index := None; history_view_start := 0;
       color_panel := PStr hex |}.
Proof.
  intros H P. unfold on_enter.
  apply String.eqb_neq in H. now rewrite H, P.
Qed.

(** C6: Enter on a blank input sets the empty-input error message and
    leaves the input (and everything else) as it is; Enter on any other
    input whose parsing or validation raises sets the error message of
    that exception, leaves history, cursor and view as they are and
    clears the input; on success the input is cleared as well, the hex
    being inserted into the history. *)
Theorem submit_atomic (w : world) (key : Z) (inp : string) (s : state) :
  key = KEY_ENTER \/ key = 10 \/ key = 13 ->
  current_input s = PStr inp ->
  let s' := handle_key w key inp s in
  (Py.strip inp = "" ->
     message s' = MsgEmptyInput /\ message_attr s' = color_pair 2
     /\ current_input s' = PStr inp
     /\ history s' = history s /\ history_index s' = history_index s
     /\ history_view_start s' = history_view_start s)
  /\ (forall e, Py.strip inp <> "" -> parse_input inp = Raise e ->
        message s' = MsgError e /\ message_attr s' = color_pair 2
        /\ history s' = history s /\ history_index s' = history_index s
        /\ history_view_start s' = history_view_start s
        /\ current_input s' = PStr "")
  /\ (forall hex m, Py.strip inp <> "" -> parse_input inp = Ok (hex, m) ->
        current_input s' = PStr ""
        /\ message s' = m /\ message_attr s' = color_pair 3
        /\ history s' = history_insert (history s) hex).
Proof.
  intros Hkey Hinp. cbv zeta. rewrite (handle_key_enter w key inp s Hkey).
  split; [ | split].
  - intros H. rewrite on_enter_blank by assumption. simpl.
    repeat split; try reflexivity. exact Hinp.
  - intros e H P. rewrite (on_enter_failure inp s e H P). simpl.
    repeat split; reflexivity.
  - intros hex m H P. rewrite (on_enter_success inp s hex m H P). simpl.
    repeat split; reflexivity.
Qed.

(** [submit_atomic] on a blank input, a triple out of range and a hex. *)
Lemma submit_atomic_examples :
  (message (handle_key (world_with_file Missing) 10 "   "
              (set_input (PStr "   ") initial_state)) = MsgEmptyInput
   /\ current_input (handle_key (world_with_file Missing) 10 "   "
                       (set_input (PStr "   ") initial_state)) = PStr "   ")
  /\ (message (handle_key (world_with_file Missing) 13 "1001 0 0"
                 (set_input (PStr "1001 0 0")
                    (set_history [PStr "#ff0000"] initial_state)))
      = MsgError OutOfRange
      /\ history (handle_key (world_with_file Missing) 13 "1001 0 0"
                    (set_input (PStr "1001 0 0")
                       (set_history [PStr "#ff0000"] initial_state)))
         = [PStr "#ff0000"]
      /\ current_input (handle_key (world_with_file Missing) 13 "1001 0 0"
                          (set_input (PStr "1001 0 0")
                             (set_history [PStr "#ff0000"] initial_state)))
         = PStr "")
  /\ current_input (handle_key (world_with_file Missing) KEY_ENTER "#808080"
                      (set_input (PStr "#808080") initial_state))
     = PStr "".
Proof.
  split; [ | split].
  - destruct (submit_atomic (world_with_file Missing) 10 "   "
                (set_input (PStr "   ") initial_state)
                (or_intror (or_introl eq_refl)) eq_refl) as (H & _).
    destruct (H eq_refl) as (Hm & _ & Hi & _). split; [exact Hm | exact Hi].
  - destruct (submit_atomic (world_with_file Missing) 13 "1001 0 0"
                (set_input (PStr "1001 0 0")
                   (set_history [PStr "#ff0000"] initial_state))
                (or_intror (or_intror eq_refl)) eq_refl) as (_ & H & _).
    destruct (H OutOfRange ltac:(discriminate) eq_refl)
      as (Hm & _ & Hh & _ & _ & Hi).
    split; [exact Hm | split; [exact Hh | exact Hi]].
  - destruct (submit_atomic (world_with_file Missing) KEY_ENTER "#808080"
                (set_input (PStr "#808080") initial_state)
                (or_introl eq_refl) eq_refl) as (_ & _ & H).
    destruct (H "#808080" (MsgHexToRgb "#808080" 502 502 502)
                ltac:(discriminate) eq_refl) as (Hi & _).
    exact Hi.
Defined.

(** ** Navigation in the history *)

Lemma index_in_range {A : Type} (l : list A) (i : Z) :
  0 <= i < Z.of_nat (List.length l) ->
  exists v, Py.index l i = Some v /\ nth_error l (Z.to_nat i) = Some v.
Proof.
  intros Hi. unfold Py.index.
  replace ((0 <=? i) && (i <? Z.of_nat (List.length l))) with true
    by (symmetry; apply andb_true_iff; split; [apply Z.leb_le | apply Z.ltb_lt]; lia).
  destruct (nth_error l (Z.to_nat i)) as [v | ] eqn:E.
  - exists v. now split.
  - apply nth_error_None in E. lia.
Qed.

Lemma follow_index_fields (i : Z) (s : state) :
  history (follow_index i s) = history s
  /\ history_index (follow_index i s) = history_index s
  /\ current_input (follow_index i s) = current_input s.
Proof.
  unfold follow_index.
  destruct (i <? history_view_start s); simpl;
    match goal with |- context [if ?c then _ else _] => destruct c end;
    simpl; repeat split; reflexivity.
Qed.

Lemma follow_index_view_ok (i : Z) (s : state) :
  0 <= i < len s -> view_ok s -> view_ok (follow_index i s).
Proof.
  unfold view_ok, follow_index, len. intros Hi Hv.
  destruct (Z.ltb_spec i (history_view_start s)); simpl;
    rewrite Z.geb_leb;
    match goal with |- context [if ?a <=? ?b then _ else _] =>
      destruct (Z.leb_spec a b) end;
    simpl; lia.
Qed.

Lemma select_entry_spec (i : Z) (s : state) :
  0 <= i < len s ->
  exists v,
    nth_error (history s) (Z.to_nat i) = Some v
    /\ select_entry i s = draw_color_panel v (follow_index i (set_input v s)).
Proof.
  intros Hi. destruct (index_in_range (history s) i Hi) as (v & Hv & Hn).
  exists v. split; [assumption | ]. unfold select_entry. now rewrite Hv.
Qed.

Lemma next_older_in_range (s : state) :
  history s <> [] -> cursor_ok s -> 0 <= next_older s < len s.
Proof.
  intros Hne Hc. unfold next_older, cursor_ok, len in *.
  destruct (history s) as [ | x l]; [contradiction | ].
  destruct (history_index s) as [i | ]; simpl List.length in *; lia.
Qed.

Lemma on_key_down_spec (s : state) :
  history s <> [] -> cursor_ok s ->
  history_index (on_key_down s) = Some (next_older s)
  /\ history (on_key_down s) = history s
  /\ Some (current_input (on_key_down s))
     = nth_error (history s) (Z.to_nat (next_older s)).
Proof.
  intros Hne Hc. pose proof (next_older_in_range s Hne Hc) as Hi.
  assert (E : on_key_down s
              = select_entry (next_older s) (set_index (Some (next_older s)) s)).
  { unfold on_key_down. destruct (history s); [contradiction | reflexivity]. }
  rewrite E.
  destruct (select_entry_spec (next_older s)
              (set_index (Some (next_older s)) s) Hi) as (v & Hv & ->).
  simpl in Hv. simpl.
  destruct (follow_index_fields (next_older s)
              (set_input v (set_index (Some (next_older s)) s)))
    as (Fh & Fi & Fc).
  rewrite Fh, Fi, Fc. simpl. now rewrite Hv.
Qed.

Lemma on_key_down_cursor_ok (s : state) :
  history s <> [] -> cursor_ok s -> cursor_ok (on_key_down s).
Proof.
  intros Hne Hc. destruct (on_key_down_spec s Hne Hc) as (Hi & Hh & _).
  pose proof (next_older_in_range s Hne Hc).
  unfold cursor_ok, len. now rewrite Hi, Hh.
Qed.

Lemma iterated_down (s : state) (k : nat) :
  history s <> [] -> history_index s = None ->
  history (Nat.iter (S k) on_key_down s) = history s
  /\ history_index (Nat.iter (S k) on_key_down s)
     = Some (Z.min (Z.of_nat k) (len s - 1)).
Proof.
  intros Hne Hnone.
  assert (Hc : cursor_ok s) by (unfold cursor_ok; now rewrite Hnone).
  assert (Hlen : 1 <= len s).
  { unfold len. destruct (history s); [contradiction | simpl List.length; lia]. }
  induction k as [ | k [IHh IHi]].
  - simpl Nat.iter. destruct (on_key_down_spec s Hne Hc) as (Hi & Hh & _).
    split; [assumption | ]. rewrite Hi. unfold next_older. rewrite Hnone.
    f_equal. simpl. lia.
  - set (t := Nat.iter (S k) on_key_down s) in *.
    change (Nat.iter (S (S k)) on_key_down s) with (on_key_down t).
    assert (Ht : history t <> []) by (now rewrite IHh).
    assert (Hct : cursor_ok t).
    { unfold cursor_ok, len. rewrite IHi, IHh. fold (len s). lia. }
    destruct (on_key_down_spec t Ht Hct) as (Hi & Hh & _).
    split; [now rewrite Hh | ].
    rewrite Hi. unfold next_older, len. rewrite IHi, IHh. fold (len s).
    f_equal. lia.
Qed.

(** C9: with a history that is not empty, KEY_DOWN from no cursor sets
    the cursor to 0 and copies entry 0 into the input; every KEY_DOWN
    advances the cursor by one up to the last index, so that k + 1 of
    them from no cursor leave it at min(k, len - 1); KEY_UP from cursor 0
    unsets the cursor and clears the input. *)
Theorem history_navigation (w : world) (inp : string) (s : state) :
  history s <> [] -> cursor_ok s ->
  (history_index s = None ->
     history_index (handle_key w KEY_DOWN inp s) = Some 0
     /\ Some (current_input (handle_key w KEY_DOWN inp s))
        = nth_error (history s) 0)
  /\ (forall i, history_index s = Some i ->
        history_index (handle_key w KEY_DOWN inp s)
        = Some (Z.min (len s - 1) (i + 1))
        /\ Some (current_input (handle_key w KEY_DOWN inp s))
           = nth_error (history s) (Z.to_nat (Z.min (len s - 1) (i + 1))))
  /\ (forall k, history_index s = None ->
        history_index (Nat.iter (S k) (handle_key w KEY_DOWN inp) s)
        = Some (Z.min (Z.of_nat k) (len s - 1)))
  /\ (history_index s = Some 0 ->
        history_index (handle_key w KEY_UP inp s) = None
        /\ current_input (handle_key w KEY_UP inp s) = PStr "").
Proof.
  intros Hne Hc.
  change (handle_key w KEY_DOWN inp) with on_key_down.
  change (handle_key w KEY_UP inp s) with (on_key_up s).
  destruct (on_key_down_spec s Hne Hc) as (Hi & _ & Hin).
  split; [ | split; [ | split]].
  - intros Hnone. unfold next_older in *. rewrite Hnone in *. now split.
  - intros i Hsome. unfold next_older in *. rewrite Hsome in *. now split.
  - intros k Hnone. now apply iterated_down.
  - intros Hzero. unfold on_key_up. rewrite Hzero.
    destruct (history s); [contradiction | ]. simpl. now split.
Qed.

(** [history_navigation] on a history of two entries. *)
Lemma history_navigation_examples :
  (history_index
     (handle_key (world_with_file Missing) KEY_DOWN ""
        (set_history [PStr "#000001"; PStr "#000002"] initial_state))
   = Some 0
   /\ Some (current_input
              (handle_key (world_with_file Missing) KEY_DOWN ""
                 (set_history [PStr "#000001"; PStr "#000002"] initial_state)))
      = nth_error [PStr "#000001"; PStr "#000002"] 0)
  /\ history_index
       (Nat.iter 5 (handle_key (world_with_file Missing) KEY_DOWN "")
          (set_history [PStr "#000001"; PStr "#000002"] initial_state))
     = Some (Z.min 4 (2 - 1))
  /\ (history_index
        (handle_key (world_with_file Missing) KEY_UP "#000001"
           (set_index (Some 0)
              (set_history [PStr "#000001"; PStr "#000002"] initial_state)))
      = None
      /\ current_input
           (handle_key (world_with_file Missing) KEY_UP "#000001"
              (set_index (Some 0)
                 (set_history [PStr "#000001"; PStr "#000002"] initial_state)))
         = PStr "").
Proof.
  split; [ | split].
  - apply (proj1 (history_navigation (world_with_file Missing) ""
                    (set_history [PStr "#000001"; PStr "#000002"] initial_state)
                    ltac:(discriminate) I)).
    reflexivity.
  - apply (proj1 (proj2 (proj2
             (history_navigation (world_with_file Missing) ""
                (set_history [PStr "#000001"; PStr "#000002"] initial_state)
                ltac:(discriminate) I))) 4%nat).
    reflexivity.
  - apply (proj2 (proj2 (proj2
             (history_navigation (world_with_file Missing) "#000001"
                (set_index (Some 0)
                   (set_history [PStr "#000001"; PStr "#000002"] initial_state))
                ltac:(discriminate) ltac:(unfold cursor_ok, len; simpl; lia)))));
    reflexivity.
Defined.

(** ** The view window *)

Lemma clamp_view_inv (s : state) : cursor_ok s -> window_inv (clamp_view s).
Proof.
  intros Hc. unfold window_inv, view_ok, cursor_ok, clamp_view, len in *.
  destruct (Z.ltb_spec (history_view_start s) 0); simpl;
    rewrite Z.gtb_ltb;
    match goal with |- context [if ?a <? ?b then _ else _] =>
      destruct (Z.ltb_spec a b) end;
    simpl; split; (lia || assumption).
Qed.

Lemma clamp_view_input (s : state) : current_input (clamp_view s) = current_input s.
Proof.
  unfold clamp_view.
  destruct (history_view_start s <? 0); simpl;
    match goal with |- context [if ?c then _ else _] => destruct c end;
    reflexivity.
Qed.

Lemma set_message_inv (m : msg) (a : Z) (s : state) :
  window_inv s -> window_inv (set_message m a s).
Proof. exact (fun H => H). Qed.

Lemma reset_inv (s : state) (h : list pyval) (v : pyval) (m : msg) (a : Z)
      (lh : option string) (c : pyval) :
  window_inv {| current_input := c; message := m; message_attr := a;
                last_hex := lh; history := h; history_index := None;
                history_view_start := 0; color_panel := v |}.
Proof. unfold window_inv, view_ok, cursor_ok, len. simpl. split; [lia | exact I]. Qed.

Lemma on_enter_inv (inp : string) (s : state) :
  window_inv s -> window_inv (on_enter inp s).
Proof.
  intros H. unfold on_enter.
  destruct (String.eqb (Py.strip inp) ""); [exact H | ].
  destruct (parse_input inp) as [[hex m] | e]; [apply (reset_inv s) | exact H].
Qed.

Lemma unset_cursor_inv (v : pyval) (m : msg) (a : Z) (s : state) :
  window_inv s ->
  window_inv (set_message m a (set_index None (set_input v s))).
Proof.
  unfold window_inv, view_ok, cursor_ok, len. simpl. intros [H _]. now split.
Qed.

Lemma select_entry_inv (i : Z) (s : state) :
  0 <= i < len s -> view_ok s ->
  window_inv (select_entry i (set_index (Some i) s)).
Proof.
  intros Hi Hv.
  destruct (select_entry_spec i (set_index (Some i) s) Hi) as (v & _ & ->).
  pose proof (follow_index_view_ok i (set_input v (set_index (Some i) s)) Hi Hv) as F.
  destruct (follow_index_fields i (set_input v (set_index (Some i) s)))
    as (Fh & Fi & _).
  unfold window_inv, view_ok, cursor_ok, len in *. simpl in *.
  rewrite Fh in *. rewrite Fi. simpl. split; [exact F | exact Hi].
Qed.

Lemma on_key_down_inv (s : state) : window_inv s -> window_inv (on_key_down s).
Proof.
  intros [Hv Hc]. destruct (history s) as [ | x l] eqn:E.
  - unfold on_key_down. rewrite E. now split.
  - assert (Hne : history s <> []) by (rewrite E; discriminate).
    pose proof (next_older_in_range s Hne Hc) as Hi.
    unfold on_key_down. rewrite E. fold (next_older s).
    now apply select_entry_inv.
Qed.

Lemma on_key_up_inv (s : state) : window_inv s -> window_inv (on_key_up s).
Proof.
  intros [Hv Hc]. unfold on_key_up.
  destruct (history s) as [ | x l] eqn:E; [now split | ].
  destruct (history_index s) as [i | ] eqn:Ei; [ | now split].
  destruct (Z.ltb_spec (i - 1) 0).
  - unfold window_inv, view_ok, cursor_ok, len in *. simpl. now split.
  - apply select_entry_inv; [ | assumption].
    unfold cursor_ok in Hc. rewrite Ei in Hc. lia.
Qed.

Lemma on_page_inv (key : Z) (s : state) : window_inv s -> window_inv (on_page key s).
Proof.
  intros [Hv Hc]. unfold on_page.
  set (v := Z.max 0 (Z.min _ _)).
  assert (H : window_inv (set_view_start v s)).
  { unfold window_inv, view_ok, cursor_ok, len in *. simpl. split; [ | exact Hc].
    subst v. fold (len s). lia. }
  simpl history_index. simpl history.
  destruct (history_index s) as [i | ]; [ | exact H].
  change (len (set_view_start v s)) with (len s).
  destruct ((0 <=? i) && (i <? len s)); [ | exact H].
  destruct (Py.index (history s) i); exact H.
Qed.

Lemma on_copy_inv (w : world) (inp : string) (s : state) :
  window_inv s -> window_inv (on_copy w inp s).
Proof.
  intros H. unfold on_copy.
  repeat match goal with
         | |- context [match ?x with _ => _ end] => destruct x
         end; exact H.
Qed.

Lemma on_save_inv (w : world) (s : state) : window_inv s -> window_inv (on_save w s).
Proof.
  intros H. unfold on_save. destruct (save_history_to_file w (history s)). exact H.
Qed.

Lemma on_load_inv (w : world) (s : state) : window_inv s -> window_inv (on_load w s).
Proof.
  intros H. unfold on_load.
  destruct (load_history_from_file w) as [[ | v loaded] m]; [exact H | ].
  simpl history.
  destruct (firstn HISTORY_MAX (v :: loaded)); apply (reset_inv s).
Qed.

Lemma on_clear_inv (s : state) : window_inv (on_clear s).
Proof. apply (reset_inv s). Qed.

Lemma on_char_inv (key : Z) (inp : string) (s : state) :
  window_inv s -> window_inv (on_char key inp s).
Proof.
  intros H. unfold on_char.
  destruct ((32 <=? key) && (key <=? 126)); [ | exact H].
  now apply unset_cursor_inv.
Qed.

(** Every key handler keeps the view window and the cursor in range. *)
Lemma handle_key_inv (w : world) (key : Z) (inp : string) (s : state) :
  window_inv s -> window_inv (handle_key w key inp s).
Proof.
  intros H. unfold handle_key.
  repeat match goal with
         | |- context [if ?c then _ else _] => destruct c
         end.
  - now apply on_enter_inv.
  - unfold on_backspace. now apply unset_cursor_inv.
  - now apply on_key_down_inv.
  - now apply on_key_up_inv.
  - now apply on_page_inv.
  - now apply on_copy_inv.
  - now apply on_save_inv.
  - now apply on_load_inv.
  - apply on_clear_inv.
  - now apply on_char_inv.
Qed.

Lemma loop_body_inv (w : world) (key : Z) (s : state) :
  cursor_ok s -> sat window_inv (loop_body w key s).
Proof.
  intros Hc. unfold loop_body.
  destruct (current_input s) as [ | | | | text | | ]; try exact I.
  pose proof (clamp_view_inv s Hc) as H.
  destruct (key =? -1); [exact H | ].
  destruct (key =? 27); [exact H | ].
  now apply handle_key_inv.
Qed.

Lemma run_inv (events : list (world * Z)) (s : state) :
  window_inv s -> sat window_inv (run s events).
Proof.
  revert s. induction events as [ | [w key] rest IH]; intros s H.
  - exact H.
  - simpl. pose proof (loop_body_inv w key s (proj2 H)) as B.
    destruct (loop_body w key s) as [s' | s' | ]; [now apply IH | exact B | exact I].
Qed.

(** C8: whatever keys are read from the start of the program, in
    whatever world, the state after each handler has its view start
    between 0 and max(0, len(history) - available_lines). *)
Theorem view_window_invariant (events : list (world * Z)) :
  sat view_ok (run initial_state events).
Proof.
  assert (H : window_inv initial_state).
  { unfold window_inv, view_ok, cursor_ok, len. simpl. split; [lia | exact I]. }
  pose proof (run_inv events initial_state H) as R.
  destruct (run initial_state events); simpl in *; try exact I; apply R.
Qed.

(** ** When the codec raises *)

Lemma round_raises (x : float) (e : exn) :
  Py.round x = Raise e -> e = OverflowError \/ e = NanError.
Proof.
  unfold Py.round. destruct (Prim2SF x); intros [=]; auto.
Qed.

Lemma to_1000_not_format (c : Z) : to_1000 c <> Raise InvalidFormat.
Proof. intros H. apply round_raises in H. destruct H; discriminate. Qed.

(** [hex_to_1000] raises InvalidFormat exactly when the text left by
    [lstrip("#")] does not have six characters. *)
Lemma hex_to_1000_InvalidFormat (h : string) :
  hex_to_1000 h = Raise InvalidFormat
  <-> String.length (Py.lstrip_char "#" h) <> 6%nat.
Proof.
  unfold hex_to_1000.
  destruct (Nat.eqb_spec (String.length (Py.lstrip_char "#" h)) 6) as [E | E];
    simpl negb; cbv iota.
  - split; [ | intros H; now elim H]. intros H. exfalso.
    match type of H with
    | context [except_ValueError ?X _] => destruct X as [[[r g] b] | e]
    end; simpl in H.
    + destruct (to_1000 r) eqn:Er; simpl in H;
        [ | injection H as ->; now apply (to_1000_not_format r)].
      destruct (to_1000 g) eqn:Eg; simpl in H;
        [ | injection H as ->; now apply (to_1000_not_format g)].
      destruct (to_1000 b) eqn:Eb; simpl in H;
        [ discriminate | injection H as ->; now apply (to_1000_not_format b)].
    + destruct (is_ValueError e) eqn:V; simpl in H; [discriminate | ].
      injection H as ->. discriminate.
  - split; [now intros _ | reflexivity].
Qed.

(** Six hexadecimal digits after the leading [#]s are never refused:
    InvalidDigits is raised only on a text that is not of that form. *)
Lemma hex_to_1000_InvalidDigits_only_if (h : string) :
  hex_to_1000 h = Raise InvalidDigits ->
  is_hex6 (Py.lstrip_char "#" h) = false.
Proof.
  intros H. destruct (is_hex6 (Py.lstrip_char "#" h)) eqn:E; [ | reflexivity].
  destruct (is_hex6_inv _ E) as (a & b & c & d & e & f & Hs & Ha & Hb & Hc & Hd & He & Hf).
  rewrite (hex_to_1000_six h a b c d e f Hs Ha Hb Hc Hd He Hf) in H.
  discriminate.
Qed.

Lemma to_255_in_range (v : Z) :
  0 <= v <= 1000 -> exists c, to_255 v = Ok c /\ 0 <= c <= 255.
Proof.
  intros Hv.
  assert (H : (match to_255 v with
               | Ok c => (0 <=? c) && (c <=? 255)
               | Raise _ => false
               end) = true).
  { apply (Zrange_forallb
             (fun v => match to_255 v with
                       | Ok c => (0 <=? c) && (c <=? 255)
                       | Raise _ => false
                       end) 1001);
      [ vm_compute; reflexivity | lia ]. }
  destruct (to_255 v) as [c | e]; [ | discriminate].
  exists c. apply andb_true_iff in H. destruct H as [H1 H2].
  apply Z.leb_le in H1. apply Z.leb_le in H2. now split.
Qed.

(** [rgb1000_to_hex] raises (OutOfRange) exactly when some channel lies
    outside [0,1000]; inside it returns a text. *)
Lemma rgb1000_to_hex_OutOfRange (r g b : Z) :
  (rgb1000_to_hex r g b = Raise OutOfRange
   <-> ~ (0 <= r <= 1000 /\ 0 <= g <= 1000 /\ 0 <= b <= 1000))
  /\ (0 <= r <= 1000 /\ 0 <= g <= 1000 /\ 0 <= b <= 1000 ->
      exists h, rgb1000_to_hex r g b = Ok h).
Proof.
  assert (In_range : 0 <= r <= 1000 /\ 0 <= g <= 1000 /\ 0 <= b <= 1000 ->
                     exists h, rgb1000_to_hex r g b = Ok h).
  { intros (Hr & Hg & Hb). unfold rgb1000_to_hex.
    replace ((0 <=? r) && (r <=? 1000) && (0 <=? g) && (g <=? 1000)
             && (0 <=? b) && (b <=? 1000)) with true
      by (symmetry; repeat (apply andb_true_iff; split); apply Z.leb_le; lia).
    destruct (to_255_in_range r Hr) as (cr & -> & _).
    destruct (to_255_in_range g Hg) as (cg & -> & _).
    destruct (to_255_in_range b Hb) as (cb & -> & _).
    simpl. eexists. reflexivity. }
  split; [ | exact In_range]. split.
  - intros H Hin. destruct (In_range Hin) as (h & Hh). congruence.
  - intros Hout. unfold rgb1000_to_hex.
    destruct ((0 <=? r) && (r <=? 1000) && (0 <=? g) && (g <=? 1000)
              && (0 <=? b) && (b <=? 1000)) eqn:E; [ | reflexivity].
    exfalso. apply Hout.
    repeat (apply andb_true_iff in E; destruct E as [E ?]).
    repeat match goal with H : (_ <=? _) = true |- _ => apply Z.leb_le in H end.
    lia.
Qed.

(** C7, where the code departs from it: "-f" is not a pair of
    hexadecimal digits, yet [int("-f", 16)] is -15, so that "#-f0000"
    is converted (to a negative channel) instead of being refused with
    InvalidDigits; typed into the program it is accepted and stored.
    The other cases of the claim are as it says. *)
Theorem hex_to_1000_accepts_signed_pair :
  valid_hex "#-f0000" = false
  /\ Py.int "-f" 16 = Ok (-15)
  /\ hex_to_1000 "#-f0000" = Ok (-59, 0, 0)
  /\ hex_to_1000 "#+f f1 " = Ok (59, 59, 4)
  /\ run initial_state (typed (world_with_file Missing) "#-f0000")
     = Continue
         {| current_input := PStr "";
            message := MsgHexToRgb "#-f0000" (-59) 0 0;
            message_attr := color_pair 3; last_hex := Some "#-f0000";
            history := [PStr "#-f0000"]; history_index := None;
            history_view_start := 0; color_panel := PStr "#-f0000" |}
  /\ hex_to_1000 "#12" = Raise InvalidFormat
  /\ hex_to_1000 "#gggggg" = Raise InvalidDigits
  /\ rgb1000_to_hex 1001 0 0 = Raise OutOfRange.
Proof. vm_compute. repeat split. Qed.

(** ** The bound on the history *)

Lemma select_entry_history (i : Z) (s : state) :
  history (select_entry i s) = history s.
Proof.
  unfold select_entry. destruct (Py.index (history s) i) as [v | ]; [ | reflexivity].
  simpl. now destruct (follow_index_fields i (set_input v s)) as (-> & _).
Qed.

Lemma on_key_down_history (s : state) : history (on_key_down s) = history s.
Proof.
  unfold on_key_down. destruct (history s) eqn:E; [now rewrite E | ].
  rewrite select_entry_history. simpl. now rewrite E.
Qed.

Lemma on_key_up_history (s : state) : history (on_key_up s) = history s.
Proof.
  unfold on_key_up. destruct (history s) eqn:E; [now rewrite E | ].
  destruct (history_index s) as [i | ]; [ | now rewrite E].
  destruct (i - 1 <? 0); [simpl; now rewrite E | ].
  rewrite select_entry_history. simpl. now rewrite E.
Qed.

Lemma on_page_history (key : Z) (s : state) : history (on_page key s) = history s.
Proof.
  unfold on_page. simpl history_index. simpl history.
  destruct (history_index s) as [i | ]; [ | reflexivity].
  match goal with |- context [if ?c then _ else _] => destruct c end;
    [ | reflexivity].
  destruct (Py.index (history s) i); reflexivity.
Qed.

Lemma handle_key_bounded (w : world) (key : Z) (inp : string) (s : state) :
  bounded s -> bounded (handle_key w key inp s).
Proof.
  unfold bounded. intros H. unfold handle_key.
  repeat match goal with
         | |- context [if ?c then _ else _] => destruct c
         end.
  - unfold on_enter. destruct (String.eqb (Py.strip inp) ""); [exact H | ].
    destruct (parse_input inp) as [[hex m] | e]; [ | exact H].
    simpl. apply history_insert_length.
  - exact H.
  - now rewrite on_key_down_history.
  - now rewrite on_key_up_history.
  - now rewrite on_page_history.
  - unfold on_copy.
    repeat match goal with
           | |- context [match ?x with _ => _ end] => destruct x
           end; exact H.
  - unfold on_save. destruct (save_history_to_file w (history s)). exact H.
  - unfold on_load.
    destruct (load_history_from_file w) as [[ | v loaded] m]; [exact H | ].
    simpl history.
    assert (L : (List.length (firstn HISTORY_MAX (v :: loaded)) <= HISTORY_MAX)%nat)
      by apply firstn_le_length.
    destruct (firstn HISTORY_MAX (v :: loaded)); exact L.
  - simpl. unfold HISTORY_MAX. lia.
  - unfold on_char. destruct ((32 <=? key) && (key <=? 126)); exact H.
Qed.

Lemma clamp_view_fields (s : state) :
  history (clamp_view s) = history s
  /\ history_index (clamp_view s) = history_index s.
Proof.
  unfold clamp_view.
  destruct (history_view_start s <? 0); simpl;
    match goal with |- context [if ?c then _ else _] => destruct c end;
    split; reflexivity.
Qed.

(** In every run of the program the history has at most 200 entries:
    the case in which [history_insert] leaves the list as it is. *)
Lemma history_bounded (events : list (world * Z)) :
  sat bounded (run initial_state events).
Proof.
  assert (G : forall s, bounded s -> sat bounded (run s events)).
  { induction events as [ | [w key] rest IH]; intros s H; [exact H | ].
    simpl. unfold loop_body.
    destruct (current_input s); try exact I.
    assert (Hc : bounded (clamp_view s))
      by (unfold bounded; now destruct (clamp_view_fields s) as (-> & _)).
    destruct (key =? -1); [now apply IH | ].
    destruct (key =? 27); [exact Hc | ].
    apply IH. now apply handle_key_bounded. }
  apply G. unfold bounded. simpl. lia.
Qed.

(** ** Repeated KEY_DOWN in the loop *)

Lemma current_input_after_down (s : state) :
  history s <> [] -> cursor_ok s -> forallb is_str (history s) = true ->
  exists text, current_input (on_key_down s) = PStr text.
Proof.
  intros Hne Hc Hs. destruct (on_key_down_spec s Hne Hc) as (_ & _ & Hin).
  symmetry in Hin. apply nth_error_In in Hin.
  rewrite forallb_forall in Hs. specialize (Hs _ Hin).
  destruct (current_input (on_key_down s)); try discriminate. now eexists.
Qed.

(** Keys arriving one per pass: k presses of KEY_DOWN move the cursor k
    entries towards the oldest and stop at the last index. *)
Lemma run_repeated_down (w : world) (k : nat) (s : state) (text : string) :
  current_input s = PStr text ->
  history s <> [] -> cursor_ok s -> forallb is_str (history s) = true ->
  exists s',
    run s (repeat (w, KEY_DOWN) k) = Continue s'
    /\ history s' = history s
    /\ cursor_pos s' = (if (k =? 0)%nat then cursor_pos s
                        else Z.min (cursor_pos s + Z.of_nat k) (len s - 1)).
Proof.
  revert s text. induction k as [ | k IH]; intros s text Hin Hne Hc Hs.
  - exists s. repeat split.
  - simpl repeat.
    assert (B : loop_body w KEY_DOWN s = Continue (on_key_down (clamp_view s)))
      by (unfold loop_body; now rewrite Hin).
    simpl run. rewrite B.
    destruct (clamp_view_fields s) as (Ch & Ci).
    assert (Hne' : history (clamp_view s) <> []) by (now rewrite Ch).
    assert (Hc' : cursor_ok (clamp_view s))
      by (unfold cursor_ok, len in *; now rewrite Ci, Ch).
    assert (Hs' : forallb is_str (history (clamp_view s)) = true) by (now rewrite Ch).
    destruct (on_key_down_spec _ Hne' Hc') as (Di & Dh & _).
    destruct (current_input_after_down _ Hne' Hc' Hs') as (text' & Dt).
    set (t := on_key_down (clamp_view s)) in *.
    assert (Ht : history t = history s) by (now rewrite Dh).
    assert (Hlen : len t = len s) by (unfold len; now rewrite Ht).
    assert (Hlen1 : 1 <= len s).
    { unfold len. destruct (history s); [contradiction | simpl List.length; lia]. }
    assert (Hpos : -1 <= cursor_pos s < len s).
    { unfold cursor_pos, cursor_ok in *. destruct (history_index s); lia. }
    assert (Hnext : cursor_pos t = Z.min (cursor_pos s + 1) (len s - 1)).
    { unfold cursor_pos. rewrite Di. unfold next_older, len. rewrite Ci, Ch.
      fold (len s). destruct (history_index s); lia. }
    destruct (IH t text' Dt) as (s' & R & Rh & Rp).
    + now rewrite Ht.
    + unfold cursor_ok. rewrite Di.
      pose proof (next_older_in_range _ Hne' Hc') as N.
      unfold len in *. now rewrite Dh.
    + now rewrite Ht.
    + exists s'. split; [exact R | ]. split; [now rewrite Rh | ].
      rewrite Rp, Hlen, Hnext.
      destruct k as [ | k]; simpl Nat.eqb; cbv iota; lia.
Qed.

(** * Further properties of the codec *)

Lemma any_pairs_checked :
  forallb (fun a => forallb (any_pair_ok a) all_ascii) all_ascii = true.
Proof. vm_compute. reflexivity. Qed.

Lemma any_pair_facts (a b : ascii) :
  match Py.int (pair_text a b) 16 with
  | Ok v => -15 <= v <= 255
  | Raise e => is_ValueError e = true
  end
  /\ int16_pair (lower_char a) (lower_char b) = int16_pair a b.
Proof.
  pose proof (all_ascii_forallb _ any_pairs_checked a) as H. simpl in H.
  pose proof (all_ascii_forallb _ H b) as H'.
  unfold any_pair_ok in H'. apply andb_true_iff in H'. destruct H' as [H1 H2].
  split.
  - destruct (Py.int (pair_text a b) 16); [ | assumption].
    apply andb_true_iff in H1. destruct H1 as [L U].
    apply Z.leb_le in L. apply Z.leb_le in U. now split.
  - unfold option_Z_eqb in H2.
    destruct (int16_pair (lower_char a) (lower_char b)) as [x | ],
             (int16_pair a b) as [y | ]; try discriminate; [ | reflexivity].
    apply Z.eqb_eq in H2. now subst.
Qed.

Lemma scaled_range (c : Z) :
  -15 <= c <= 255 -> exists v, to_1000 c = Ok v /\ -59 <= v <= 1000.
Proof.
  intros Hc.
  assert (H : scaled_range_ok c = true).
  { replace c with ((c + 15) - 15) by lia.
    apply (Zrange_forallb (fun z => scaled_range_ok (z - 15)) 271);
      [ vm_compute; reflexivity | lia ]. }
  unfold scaled_range_ok in H. destruct (to_1000 c) as [v | ]; [ | discriminate].
  exists v. apply andb_true_iff in H. destruct H as [L U].
  apply Z.leb_le in L. apply Z.leb_le in U. now split.
Qed.

(** [hex_to_1000] on a text of six characters after its leading [#]s,
    in terms of what [int(.., 16)] reads from the three pairs. *)
Lemma hex_to_1000_pairs (t : string) (a b c d e f : ascii) :
  Py.lstrip_char "#" t = six a b c d e f ->
  hex_to_1000 t
  = match int16_pair a b, int16_pair c d, int16_pair e f with
    | Some r, Some g, Some b' => scale3 r g b'
    | _, _, _ => Raise InvalidDigits
    end.
Proof.
  intros Ht. unfold hex_to_1000. rewrite Ht.
  change (String.length (six a b c d e f)) with 6%nat.
  change (Py.slice 0 2 (six a b c d e f)) with (pair_text a b).
  change (Py.slice 2 4 (six a b c d e f)) with (pair_text c d).
  change (Py.slice 4 6 (six a b c d e f)) with (pair_text e f).
  simpl negb. cbv iota. unfold int16_pair.
  destruct (any_pair_facts a b) as (Fab & _).
  destruct (any_pair_facts c d) as (Fcd & _).
  destruct (any_pair_facts e f) as (Fef & _).
  destruct (Py.int (pair_text a b) 16) as [r | e1]; simpl;
    [ | now rewrite Fab].
  destruct (Py.int (pair_text c d) 16) as [g | e2]; simpl;
    [ | now rewrite Fcd].
  destruct (Py.int (pair_text e f) 16) as [b' | e3]; simpl;
    [ reflexivity | now rewrite Fef].
Qed.

Lemma length_six_inv (s : string) :
  String.length s = 6%nat -> exists a b c d e f, s = six a b c d e f.
Proof.
  destruct s as [ | a [ | b [ | c [ | d [ | e [ | f [ | g s]]]]]]];
    simpl; try discriminate.
  intros _. now exists a, b, c, d, e, f.
Qed.

(** X1: [hex_to_1000] raises nothing but InvalidFormat and
    InvalidDigits; when it returns, every channel lies between -59 and
    1000 (below 0 only for a pair read with a minus sign). *)
Theorem hex_to_1000_outcomes (h : string) :
  hex_to_1000 h = Raise InvalidFormat
  \/ hex_to_1000 h = Raise InvalidDigits
  \/ exists r g b,
       hex_to_1000 h = Ok (r, g, b)
       /\ -59 <= r <= 1000 /\ -59 <= g <= 1000 /\ -59 <= b <= 1000.
Proof.
  destruct (Nat.eq_dec (String.length (Py.lstrip_char "#" h)) 6) as [E | E].
  - destruct (length_six_inv _ E) as (a & b & c & d & e & f & Hs).
    rewrite (hex_to_1000_pairs h a b c d e f Hs).
    destruct (any_pair_facts a b) as (Fab & _).
    destruct (any_pair_facts c d) as (Fcd & _).
    destruct (any_pair_facts e f) as (Fef & _).
    unfold int16_pair.
    destruct (Py.int (pair_text a b) 16) as [r | ]; [ | now (right; left)].
    destruct (Py.int (pair_text c d) 16) as [g | ]; [ | now (right; left)].
    destruct (Py.int (pair_text e f) 16) as [b' | ]; [ | now (right; left)].
    right. right.
    destruct (scaled_range r Fab) as (vr & Er & Hr).
    destruct (scaled_range g Fcd) as (vg & Eg & Hg).
    destruct (scaled_range b' Fef) as (vb & Eb & Hb).
    exists vr, vg, vb. unfold scale3. rewrite Er, Eg, Eb. simpl. now repeat split.
  - left. unfold hex_to_1000.
    apply Nat.eqb_neq in E. now rewrite E.
Qed.





(** ** From scaled values back to hex *)

Lemma scaled_round_trip_facts (v : Z) :
  0 <= v <= 1000 ->
  exists c a b v',
    to_255 v = Ok c
    /\ Py.format_02x c = pair_text a b
    /\ is_hex_digit a = true /\ is_hex_digit b = true
    /\ lower_char a = a /\ lower_char b = b
    /\ byte_of a b = c
    /\ to_1000 c = Ok v' /\ Z.abs (v - v') <= 2.
Proof.
  intros Hv.
  assert (H : scaled_round_trip_ok v = true).
  { apply (Zrange_forallb scaled_round_trip_ok 1001);
      [ vm_compute; reflexivity | lia ]. }
  unfold scaled_round_trip_ok in H.
  destruct (to_255 v) as [c | ]; [ | discriminate].
  destruct (Py.format_02x c) as [ | a [ | b [ | ]]] eqn:F; try discriminate.
  destruct (to_1000 c) as [v' | ] eqn:T;
    [ | repeat rewrite andb_false_r in H; discriminate].
  repeat (apply andb_true_iff in H; destruct H as [H ?]).
  exists c, a, b, v'.
  split; [reflexivity | ]. split; [exact F | ].
  split; [assumption | ]. split; [assumption | ].
  split; [now apply Ascii.eqb_eq | ]. split; [now apply Ascii.eqb_eq | ].
  split; [now apply Z.eqb_eq | ]. split; [exact T | now apply Z.leb_le].
Qed.

(** X3: for channels inside [0,1000], [rgb1000_to_hex] returns a valid
    hex colour written in lower case; [hex_to_1000] accepts it and
    returns channels at most 2 away from the ones given. *)
Theorem rgb1000_to_hex_well_formed (r g b : Z) :
  0 <= r <= 1000 -> 0 <= g <= 1000 -> 0 <= b <= 1000 ->
  exists h r' g' b',
    rgb1000_to_hex r g b = Ok h
    /\ valid_hex h = true /\ lower h = h
    /\ hex_to_1000 h = Ok (r', g', b')
    /\ Z.abs (r - r') <= 2 /\ Z.abs (g - g') <= 2 /\ Z.abs (b - b') <= 2.
Proof.
  intros Hr Hg Hb.
  destruct (scaled_round_trip_facts r Hr)
    as (c1 & a1 & b1 & r' & T1 & F1 & Xa1 & Xb1 & La1 & Lb1 & B1 & S1 & D1).
  destruct (scaled_round_trip_facts g Hg)
    as (c2 & a2 & b2 & g' & T2 & F2 & Xa2 & Xb2 & La2 & Lb2 & B2 & S2 & D2).
  destruct (scaled_round_trip_facts b Hb)
    as (c3 & a3 & b3 & b' & T3 & F3 & Xa3 & Xb3 & La3 & Lb3 & B3 & S3 & D3).
  exists (String "#" (six a1 b1 a2 b2 a3 b3)), r', g', b'.
  split; [ | split; [ | split; [ | split]]].
  - unfold rgb1000_to_hex.
    replace ((0 <=? r) && (r <=? 1000) && (0 <=? g) && (g <=? 1000)
             && (0 <=? b) && (b <=? 1000)) with true
      by (symmetry; repeat (apply andb_true_iff; split); apply Z.leb_le; lia).
    simpl negb. cbv iota. rewrite T1, T2, T3. simpl bind.
    rewrite F1, F2, F3. reflexivity.
  - now apply valid_hex_six.
  - unfold six. simpl. now rewrite La1, Lb1, La2, Lb2, La3, Lb3.
  - assert (E : hex_to_1000 (String "#" (six a1 b1 a2 b2 a3 b3))
                = Ok (scaled_of a1 b1, scaled_of a2 b2, scaled_of a3 b3)).
    { apply hex_to_1000_six; try assumption.
      change (Py.lstrip_char "#" (String "#" (six a1 b1 a2 b2 a3 b3)))
        with (Py.lstrip_char "#" (six a1 b1 a2 b2 a3 b3)).
      apply lstrip_char_hex_digit.
      now destruct (hex_pair_facts a1 b1 Xa1 Xb1) as (_ & _ & _ & _ & _ & _ & N). }
    rewrite E. unfold scaled_of.
    destruct (hex_pair_facts a1 b1 Xa1 Xb1) as (_ & R1 & _).
    destruct (hex_pair_facts a2 b2 Xa2 Xb2) as (_ & R2 & _).
    destruct (hex_pair_facts a3 b3 Xa3 Xb3) as (_ & R3 & _).
    rewrite <- B1 in S1. rewrite <- B2 in S2. rewrite <- B3 in S3.
    rewrite to_1000_nearest in S1, S2, S3 by assumption.
    now injection S1 as ->; injection S2 as ->; injection S3 as ->.
  - now repeat split.
Qed.

(** X3 at the triple (300, 700, 500), whose ties round to even. *)
Lemma rgb1000_to_hex_well_formed_at_ties :
  exists h r' g' b',
    rgb1000_to_hex 300 700 500 = Ok h
    /\ valid_hex h = true /\ lower h = h
    /\ hex_to_1000 h = Ok (r', g', b')
    /\ Z.abs (300 - r') <= 2 /\ Z.abs (700 - g') <= 2 /\ Z.abs (500 - b') <= 2.
Proof. apply (rgb1000_to_hex_well_formed 300 700 500); lia. Defined.

(** ** Order *)

Lemma monotone_from_steps (f : Z -> result Z) (n : nat) :
  (0 < n)%nat ->
  forallb (step_monotone f) (Zrange n) = true ->
  forall v v', 0 <= v <= v' -> v' <= Z.of_nat n ->
  exists c c', f v = Ok c /\ f v' = Ok c' /\ c <= c'.
Proof.
  intros Hpos H.
  assert (Step : forall z, 0 <= z < Z.of_nat n ->
                 exists c c', f z = Ok c /\ f (z + 1) = Ok c' /\ c <= c').
  { intros z Hz. pose proof (Zrange_forallb _ n H z Hz) as S.
    unfold step_monotone in S.
    destruct (f z) as [c | ]; [ | discriminate].
    destruct (f (z + 1)) as [c' | ]; [ | discriminate].
    exists c, c'. apply Z.leb_le in S. now repeat split. }
  assert (Def : forall z, 0 <= z <= Z.of_nat n -> exists c, f z = Ok c).
  { intros z Hz. destruct (Z.eq_dec z (Z.of_nat n)) as [E | E].
    - destruct (Step (z - 1)) as (c & c' & _ & Hc & _); [lia | ].
      replace (z - 1 + 1) with z in Hc by lia. now exists c'.
    - destruct (Step z) as (c & _ & Hc & _); [lia | ]. now exists c. }
  assert (Chain : forall k v, 0 <= v -> v + Z.of_nat k <= Z.of_nat n ->
                  exists c c', f v = Ok c /\ f (v + Z.of_nat k) = Ok c' /\ c <= c').
  { induction k as [ | k IH]; intros v Hv Hk.
    - destruct (Def v) as (c & Hc); [lia | ].
      exists c, c. rewrite Z.add_0_r. repeat split; (assumption || lia).
    - destruct (IH v Hv) as (c & c' & Hc & Hc' & Hle); [lia | ].
      destruct (Step (v + Z.of_nat k)) as (d & d' & Hd & Hd' & Hdd); [lia | ].
      rewrite Hc' in Hd. injection Hd as <-.
      exists c, d'. replace (v + Z.of_nat (S k)) with (v + Z.of_nat k + 1) by lia.
      repeat split; (assumption || lia). }
  intros v v' Hv Hn.
  destruct (Chain (Z.to_nat (v' - v)) v) as (c & c' & Hc & Hc' & Hle); [lia | lia | ].
  replace (v + Z.of_nat (Z.to_nat (v' - v))) with v' in Hc' by lia.
  now exists c, c'.
Qed.

(** X4: both conversions keep the order of the values: a larger scaled
    value never gives a smaller byte, a larger byte never gives a
    smaller scaled value; and they send the ends of one scale to the
    ends of the other. *)
Theorem conversions_monotone :
  (forall v v', 0 <= v <= v' -> v' <= 1000 ->
     exists c c', to_255 v = Ok c /\ to_255 v' = Ok c' /\ c <= c')
  /\ (forall c c', 0 <= c <= c' -> c' <= 255 ->
        exists v v', to_1000 c = Ok v /\ to_1000 c' = Ok v' /\ v <= v')
  /\ to_255 0 = Ok 0 /\ to_255 1000 = Ok 255
  /\ to_1000 0 = Ok 0 /\ to_1000 255 = Ok 1000.
Proof.
  split; [ | split; [ | vm_compute; repeat split]].
  - apply (monotone_from_steps to_255 1000); [lia | vm_compute; reflexivity].
  - apply (monotone_from_steps to_1000 255); [lia | vm_compute; reflexivity].
Qed.

(** X4 at the neighbours 299 and 300, and at the bytes 127 and 128. *)
Lemma conversions_monotone_examples :
  (exists c c', to_255 299 = Ok c /\ to_255 300 = Ok c' /\ c <= c')
  /\ (exists v v', to_1000 127 = Ok v /\ to_1000 128 = Ok v' /\ v <= v').
Proof.
  split.
  - apply (proj1 conversions_monotone 299 300); lia.
  - apply (proj1 (proj2 conversions_monotone) 127 128); lia.
Defined.

(** * Further properties of the key loop *)

(** ** Typing *)

Lemma typeable_range (key : Z) :
  typeable key = true ->
  32 <= key <= 126 /\ key <> 99 /\ key <> 115 /\ key <> 108 /\ key <> 67.
Proof.
  unfold typeable. intros H.
  apply andb_true_iff in H. destruct H as [H N].
  apply andb_true_iff in H. destruct H as [L U].
  apply Z.leb_le in L. apply Z.leb_le in U.
  apply negb_true_iff in N.
  repeat (apply orb_false_iff in N; destruct N as [N ?]).
  repeat match goal with E : (_ =? _) = false |- _ => apply Z.eqb_neq in E end.
  repeat split; assumption.
Qed.

Lemma handle_key_typeable (w : world) (key : Z) (inp : string) (s : state) :
  typeable key = true ->
  handle_key w key inp s
  = set_message MsgNone (color_pair 1)
      (set_index None (set_input (PStr (inp ++ Py.chr key)) s)).
Proof.
  intros H. destruct (typeable_range key H) as (R & N1 & N2 & N3 & N4).
  unfold handle_key, on_char, KEY_ENTER, KEY_BACKSPACE, KEY_DOWN, KEY_UP,
    KEY_PPAGE, KEY_NPAGE.
  repeat match goal with
         | |- context [key =? ?c] =>
             replace (key =? c) with false by (symmetry; apply Z.eqb_neq; lia)
         end.
  simpl orb. cbv iota.
  replace ((32 <=? key) && (key <=? 126)) with true
    by (symmetry; apply andb_true_iff; split; apply Z.leb_le; lia).
  reflexivity.
Qed.

Lemma handle_key_command_input (w : world) (key : Z) (inp : string) (s : state) :
  key = 99 \/ key = 115 \/ key = 108 \/ key = 67 ->
  current_input (handle_key w key inp s) = current_input s.
Proof.
  intros [-> | [-> | [-> | ->]]].
  - change (handle_key w 99 inp s) with (on_copy w inp s). unfold on_copy.
    repeat match goal with
           | |- context [match ?x with _ => _ end] => destruct x
           end; reflexivity.
  - change (handle_key w 115 inp s) with (on_save w s). unfold on_save.
    now destruct (save_history_to_file w (history s)).
  - change (handle_key w 108 inp s) with (on_load w s). unfold on_load.
    destruct (load_history_from_file w) as [[ | v loaded] m]; [reflexivity | ].
    simpl history. now destruct (firstn HISTORY_MAX (v :: loaded)).
  - reflexivity.
Qed.

Lemma printable_not_typeable (key : Z) :
  32 <= key <= 126 -> typeable key = false ->
  key = 99 \/ key = 115 \/ key = 108 \/ key = 67.
Proof.
  intros R H. unfold typeable in H.
  replace ((32 <=? key) && (key <=? 126)) with true in H
    by (symmetry; apply andb_true_iff; split; apply Z.leb_le; lia).
  simpl in H. apply negb_false_iff in H.
  repeat (apply orb_true_iff in H; destruct H as [H | H]);
    apply Z.eqb_eq in H; auto.
Qed.

Lemma loop_body_key (w : world) (key : Z) (s : state) (text : string) :
  current_input s = PStr text -> key <> -1 -> key <> 27 ->
  loop_body w key s = Continue (handle_key w key text (clamp_view s)).
Proof.
  intros Hin H1 H2. unfold loop_body. rewrite Hin.
  apply Z.eqb_neq in H1. apply Z.eqb_neq in H2. now rewrite H1, H2.
Qed.

Lemma chr_ord (c : ascii) : Py.chr (Py.ord c) = String c EmptyString.
Proof.
  unfold Py.chr, Py.ord. now rewrite Nat2Z.id, ascii_nat_embedding.
Qed.

Lemma ord_range (c : ascii) : 0 <= Py.ord c < 256.
Proof. unfold Py.ord. pose proof (nat_ascii_bounded c). lia. Qed.

Lemma append_char_assoc (a : string) (c : ascii) (b : string) :
  ((a ++ String c EmptyString) ++ b = a ++ String c b)%string.
Proof. induction a as [ | x a IH]; simpl; [reflexivity | now rewrite IH]. Qed.

Lemma append_empty_r (a : string) : (a ++ "" = a)%string.
Proof. induction a as [ | x a IH]; simpl; [reflexivity | now rewrite IH]. Qed.

Lemma run_app (s : state) (l1 l2 : list (world * Z)) :
  run s (l1 ++ l2)
  = match run s l1 with
    | Continue s1 => run s1 l2
    | o => o
    end.
Proof.
  revert s. induction l1 as [ | [w key] l1 IH]; intros s; [reflexivity | ].
  simpl. destruct (loop_body w key s); [apply IH | reflexivity | reflexivity].
Qed.

(** The keys of a text of printable characters, as long as the screen
    is drawn: what reaches the input field is the text without its
    letters [c], [s], [l] and [C]. *)
Lemma run_printable_text (w : world) (text : string)
      (s : state) (inp : string) :
  string_forallb printable_char text = true ->
  current_input s = PStr inp ->
  exists s',
    run s (keys_of w text) = Continue s'
    /\ current_input s' = PStr (inp ++ typed_part text).
Proof.
  revert s inp. induction text as [ | c text IH]; intros s inp Hp Hin.
  - exists s. split; [reflexivity | ]. simpl. now rewrite append_empty_r.
  - simpl in Hp. apply andb_true_iff in Hp. destruct Hp as [Hc Hp].
    unfold printable_char in Hc. apply andb_true_iff in Hc.
    destruct Hc as [L U]. apply Z.leb_le in L. apply Z.leb_le in U.
    change (keys_of w (String c text)) with ((w, Py.ord c) :: keys_of w text).
    simpl run. rewrite (loop_body_key w (Py.ord c) s inp Hin) by lia.
    simpl typed_part. unfold typeable_char.
    destruct (typeable (Py.ord c)) eqn:T.
    + rewrite handle_key_typeable by assumption. rewrite chr_ord.
      destruct (IH (set_message MsgNone (color_pair 1)
                      (set_index None
                         (set_input (PStr (inp ++ String c EmptyString))
                            (clamp_view s))))
                   (inp ++ String c EmptyString)%string Hp eq_refl)
        as (s' & R & I).
      exists s'. split; [exact R | ]. now rewrite I, append_char_assoc.
    + pose proof (printable_not_typeable (Py.ord c) (conj L U) T) as K.
      pose proof (handle_key_command_input w (Py.ord c) inp (clamp_view s) K) as E.
      rewrite clamp_view_input, Hin in E.
      destruct (IH _ inp Hp E) as (s' & R & I).
      exists s'. now split.
Qed.

Lemma append_length (a b : string) :
  String.length (a ++ b) = (String.length a + String.length b)%nat.
Proof. induction a as [ | x a IH]; simpl; [reflexivity | now rewrite IH]. Qed.

Lemma substring_prefix (a b : string) :
  substring 0 (String.length a) (a ++ b) = a.
Proof.
  induction a as [ | x a IH]; simpl.
  - now destruct b.
  - now rewrite IH.
Qed.

Lemma drop_last_append (inp : string) (c : ascii) :
  Py.drop_last (inp ++ String c EmptyString) = inp.
Proof.
  unfold Py.drop_last. rewrite append_length. simpl String.length.
  replace (String.length inp + 1 - 1)%nat with (String.length inp) by lia.
  apply substring_prefix.
Qed.

Lemma handle_key_backspace (w : world) (key : Z) (inp : string) (s : state) :
  key = KEY_BACKSPACE \/ key = 127 \/ key = 8 ->
  handle_key w key inp s = on_backspace inp s.
Proof. intros [-> | [-> | ->]]; reflexivity. Qed.

(** X6: Backspace takes back the character a key has just appended,
    and on an empty input field it leaves the field empty; in both
    cases it unsets the cursor and clears the message, and the history
    stays as it is. *)
Theorem backspace_undoes_typing (w w' : world) (key bs : Z) (s : state)
        (inp : string) :
  typeable key = true ->
  bs = KEY_BACKSPACE \/ bs = 127 \/ bs = 8 ->
  current_input s = PStr inp ->
  (exists s',
     run s [(w, key); (w', bs)] = Continue s'
     /\ current_input s' = PStr inp
     /\ history s' = history s
     /\ history_index s' = None /\ message s' = MsgNone)
  /\ (inp = "" ->
      exists s',
        run s [(w', bs)] = Continue s'
        /\ current_input s' = PStr ""
        /\ history s' = history s
        /\ history_index s' = None /\ message s' = MsgNone).
Proof.
  intros Hk Hbs Hin.
  destruct (typeable_range key Hk) as (R & _).
  assert (Hb1 : bs <> -1) by (unfold KEY_BACKSPACE in Hbs; lia).
  assert (Hb2 : bs <> 27) by (unfold KEY_BACKSPACE in Hbs; lia).
  destruct (clamp_view_fields s) as (Ch & _).
  split.
  - simpl run. rewrite (loop_body_key w key s inp Hin) by lia.
    rewrite handle_key_typeable by assumption.
    erewrite loop_body_key; [ | reflexivity | assumption | assumption].
    rewrite handle_key_backspace by assumption.
    eexists. split; [reflexivity | ].
    unfold on_backspace. simpl.
    destruct (typeable_range key Hk) as ((L & U) & _).
    assert (E : Py.chr key = String (ascii_of_nat (Z.to_nat key)) EmptyString)
      by reflexivity.
    rewrite E, drop_last_append.
    repeat split.
    match goal with |- history (clamp_view ?t) = _ =>
      destruct (clamp_view_fields t) as (-> & _) end.
    simpl. exact Ch.
  - intros ->. simpl run. rewrite (loop_body_key w' bs s "" Hin) by assumption.
    rewrite handle_key_backspace by assumption.
    eexists. split; [reflexivity | ]. unfold on_backspace. simpl.
    repeat split. exact Ch.
Qed.

(** X6 with the key [f] and the Backspace code 127. *)
Lemma backspace_undoes_typing_f :
  (exists s',
     run (set_input (PStr "#f") initial_state)
         [(world_with_file Missing, 102); (world_with_file Missing, 127)]
     = Continue s'
     /\ current_input s' = PStr "#f"
     /\ history s' = history (set_input (PStr "#f") initial_state)
     /\ history_index s' = None /\ message s' = MsgNone).
Proof.
  apply (proj1 (backspace_undoes_typing (world_with_file Missing)
                  (world_with_file Missing) 102 127
                  (set_input (PStr "#f") initial_state) "#f"
                  eq_refl (or_intror (or_introl eq_refl)) eq_refl)).
Defined.

Lemma hex_digit_not_space (a : ascii) :
  is_hex_digit a = true -> Py.is_space a = false.
Proof.
  intros H.
  assert (C : implb (is_hex_digit a) (negb (Py.is_space a)) = true).
  { apply (all_ascii_forallb
             (fun a => implb (is_hex_digit a) (negb (Py.is_space a)))).
    vm_compute. reflexivity. }
  rewrite H in C. simpl in C. now apply negb_true_iff.
Qed.

Lemma strip_no_spaces (s : string) :
  string_forallb (fun a => negb (Py.is_space a)) s = true -> Py.strip s = s.
Proof.
  intros H. unfold Py.strip.
  assert (L : Py.lstrip s = s).
  { destruct s as [ | a r]; [reflexivity | ]. simpl in *.
    apply andb_true_iff in H. destruct H as [Ha _].
    apply negb_true_iff in Ha. now rewrite Ha. }
  rewrite L. induction s as [ | a r IH]; [reflexivity | ].
  simpl in H. apply andb_true_iff in H. destruct H as [Ha Hr].
  apply negb_true_iff in Ha. simpl.
  assert (Lr : Py.lstrip r = r).
  { destruct r as [ | b r']; [reflexivity | ]. simpl in *.
    apply andb_true_iff in Hr. destruct Hr as [Hb _].
    apply negb_true_iff in Hb. now rewrite Hb. }
  rewrite (IH Hr Lr). destruct r; [now rewrite Ha | reflexivity].
Qed.

Lemma valid_hex_inv (h : string) :
  valid_hex h = true ->
  exists a b c d e f,
    h = String "#" (six a b c d e f)
    /\ is_hex_digit a = true /\ is_hex_digit b = true
    /\ is_hex_digit c = true /\ is_hex_digit d = true
    /\ is_hex_digit e = true /\ is_hex_digit f = true.
Proof.
  intros Hh. destruct h as [ | x s]; [discriminate | ].
  unfold valid_hex in Hh.
  destruct (Ascii.eqb_spec x "#") as [-> | Hx];
    [ | destruct x as [[] [] [] [] [] [] [] []]; try discriminate; now elim Hx].
  destruct (is_hex6_inv s Hh) as (a & b & c & d & e & f & -> & H).
  now exists a, b, c, d, e, f.
Qed.

Lemma strip_valid_hex (h : string) : valid_hex h = true -> Py.strip h = h.
Proof.
  intros Hh.
  destruct (valid_hex_inv h Hh) as (a & b & c & d & e & f & -> & Ha & Hb & Hc & Hd & He & Hf).
  apply strip_no_spaces. unfold six. simpl.
  now rewrite (hex_digit_not_space a Ha), (hex_digit_not_space b Hb),
    (hex_digit_not_space c Hc), (hex_digit_not_space d Hd),
    (hex_digit_not_space e He), (hex_digit_not_space f Hf).
Qed.

Lemma hex_to_1000_valid (h : string) :
  valid_hex h = true -> exists r g b, hex_to_1000 h = Ok (r, g, b).
Proof.
  intros Hh.
  destruct (valid_hex_inv h Hh) as (a & b & c & d & e & f & -> & Ha & Hb & Hc & Hd & He & Hf).
  exists (scaled_of a b), (scaled_of c d), (scaled_of e f).
  apply hex_to_1000_six; try assumption.
  change (Py.lstrip_char "#" (String "#" (six a b c d e f)))
    with (Py.lstrip_char "#" (six a b c d e f)).
  apply lstrip_char_hex_digit.
  now destruct (hex_pair_facts a b Ha Hb) as (_ & _ & _ & _ & _ & _ & N).
Qed.

Lemma parse_input_hex (inp : string) (r g b : Z) :
  Py.startswith "#" (Py.strip inp) = true ->
  hex_to_1000 (Py.strip inp) = Ok (r, g, b) ->
  parse_input inp = Ok (Py.strip inp, MsgHexToRgb (Py.strip inp) r g b).
Proof.
  intros S H. unfold parse_input. rewrite S, H. reflexivity.
Qed.

Lemma run_typeable_text (w : world) (text : string) (s : state) (inp : string) :
  string_forallb typeable_char text = true ->
  current_input s = PStr inp ->
  exists s',
    run s (keys_of w text) = Continue s'
    /\ current_input s' = PStr (inp ++ text)
    /\ history s' = history s /\ last_hex s' = last_hex s.
Proof.
  revert s inp. induction text as [ | c text IH]; intros s inp Ht Hin.
  - exists s. rewrite append_empty_r. now repeat split.
  - simpl in Ht. apply andb_true_iff in Ht. destruct Ht as [Hc Ht].
    unfold typeable_char in Hc.
    destruct (typeable_range _ Hc) as (R & _).
    change (keys_of w (String c text)) with ((w, Py.ord c) :: keys_of w text).
    simpl run. rewrite (loop_body_key w (Py.ord c) s inp Hin) by lia.
    rewrite handle_key_typeable by assumption. rewrite chr_ord.
    destruct (IH (set_message MsgNone (color_pair 1)
                    (set_index None
                       (set_input (PStr (inp ++ String c EmptyString))
                          (clamp_view s))))
                 (inp ++ String c EmptyString)%string Ht eq_refl)
      as (s' & Run & I & Hh & Hl).
    exists s'. split; [exact Run | ].
    split; [now rewrite I, append_char_assoc | ].
    simpl in Hh, Hl. destruct (clamp_view_fields s) as (Ch & _).
    split; [now rewrite Hh, Ch | ].
    rewrite Hl. unfold clamp_view.
    destruct (history_view_start s <? 0); simpl;
      match goal with |- context [if ?x then _ else _] => destruct x end;
      reflexivity.
Qed.

(** X7: a valid hex colour without the letters [c] and [C], typed into
    an empty input field and followed by Enter, is converted and put
    in front of the history; the whole state after it is determined:
    empty input, success message with the scaled channels, the colour
    as last hex and in the panel, no cursor, view at 0. *)
Theorem typed_hex_is_stored (w : world) (h : string) (s : state) :
  valid_hex h = true ->
  string_forallb typeable_char h = true ->
  current_input s = PStr "" ->
  exists r g b,
    hex_to_1000 h = Ok (r, g, b)
    /\ run s (typed w h)
       = Continue
           {| current_input := PStr ""; message := MsgHexToRgb h r g b;
              message_attr := color_pair 3; last_hex := Some h;
              history := history_insert (history s) h;
              history_index := None; history_view_start := 0;
              color_panel := PStr h |}.
Proof.
  intros Hv Ht Hin.
  destruct (hex_to_1000_valid h Hv) as (r & g & b & Hc).
  exists r, g, b. split; [exact Hc | ].
  change (typed w h) with (keys_of w h ++ [(w, 10)])%list.
  rewrite run_app.
  destruct (run_typeable_text w h s "" Ht Hin) as (s1 & R & I & Hh & _).
  rewrite R. simpl append in I. simpl run.
  rewrite (loop_body_key w 10 s1 h I) by lia.
  change (handle_key w 10 h (clamp_view s1)) with (on_enter h (clamp_view s1)).
  pose proof (strip_valid_hex h Hv) as S.
  assert (Hne : Py.strip h <> "").
  { rewrite S. destruct h; [discriminate | discriminate]. }
  assert (P : parse_input h = Ok (h, MsgHexToRgb h r g b)).
  { rewrite <- S at 2 3. apply parse_input_hex; rewrite S; [ | exact Hc].
    destruct (valid_hex_inv h Hv) as (a1 & a2 & a3 & a4 & a5 & a6 & -> & _).
    reflexivity. }
  rewrite (on_enter_success h (clamp_view s1) h _ Hne P).
  destruct (clamp_view_fields s1) as (-> & _). now rewrite Hh.
Qed.

(** X7 with "#ff8000" typed at the start of the program. *)
Lemma typed_hex_is_stored_ff8000 :
  exists r g b,
    hex_to_1000 "#ff8000" = Ok (r, g, b)
    /\ run initial_state (typed (world_with_file Missing) "#ff8000")
       = Continue
           {| current_input := PStr ""; message := MsgHexToRgb "#ff8000" r g b;
              message_attr := color_pair 3; last_hex := Some "#ff8000";
              history := history_insert (history initial_state) "#ff8000";
              history_index := None; history_view_start := 0;
              color_panel := PStr "#ff8000" |}.
Proof.
  apply (typed_hex_is_stored (world_with_file Missing) "#ff8000" initial_state);
    reflexivity.
Defined.

(** ** Runs that do not crash, and the one that does *)

Lemma forallb_firstn {A : Type} (p : A -> bool) (n : nat) (l : list A) :
  forallb p l = true -> forallb p (firstn n l) = true.
Proof.
  intros H. rewrite forallb_forall in *. intros x Hx. apply H.
  rewrite <- (firstn_skipn n l). apply in_or_app. now left.
Qed.

Lemma history_insert_strings (h : list pyval) (x : string) :
  forallb is_str h = true -> forallb is_str (history_insert h x) = true.
Proof.
  intros H. unfold history_insert. apply forallb_firstn.
  destruct h as [ | top rest]; [reflexivity | ].
  destruct (ne_str top x); [simpl; exact H | exact H].
Qed.

Lemma follow_index_rest (i : Z) (s : state) :
  message (follow_index i s) = message s
  /\ last_hex (follow_index i s) = last_hex s
  /\ color_panel (follow_index i s) = color_panel s.
Proof.
  unfold follow_index.
  destruct (i <? history_view_start s); simpl;
    match goal with |- context [if ?c then _ else _] => destruct c end;
    simpl; repeat split; reflexivity.
Qed.

Lemma select_entry_input (i : Z) (s : state) :
  0 <= i < len s -> forallb is_str (history s) = true ->
  exists text, current_input (select_entry i s) = PStr text.
Proof.
  intros Hi Hs. destruct (select_entry_spec i s Hi) as (v & Hv & ->).
  simpl. destruct (follow_index_fields i (set_input v s)) as (_ & _ & ->).
  simpl. apply nth_error_In in Hv. rewrite forallb_forall in Hs.
  specialize (Hs v Hv). destruct v; try discriminate. now eexists.
Qed.

Lemma on_key_up_input (s : state) :
  cursor_ok s -> all_strings s ->
  exists text, current_input (on_key_up s) = PStr text.
Proof.
  intros Hc [Hin Hs]. unfold on_key_up.
  destruct (history s) as [ | x l] eqn:E; [exact Hin | ].
  destruct (history_index s) as [i | ] eqn:Ei; [ | exact Hin].
  destruct (Z.ltb_spec (i - 1) 0); [now eexists | ].
  apply select_entry_input.
  - unfold cursor_ok in Hc. rewrite Ei in Hc.
    change (len (set_index (Some (i - 1)) s)) with (len s). lia.
  - simpl. now rewrite E.
Qed.

Lemma on_page_input (key : Z) (s : state) :
  current_input (on_page key s) = current_input s.
Proof.
  unfold on_page. simpl history_index. simpl history.
  destruct (history_index s) as [i | ]; [ | reflexivity].
  change (len (set_view_start ?v s)) with (len s).
  destruct ((0 <=? i) && (i <? len s)) eqn:C; [ | reflexivity].
  apply andb_true_iff in C. destruct C as [L U].
  apply Z.leb_le in L. apply Z.ltb_lt in U.
  destruct (index_in_range (history s) i (conj L U)) as (v & -> & _).
  reflexivity.
Qed.

Lemma handle_key_all_strings (w : world) (key : Z) (inp : string) (s : state) :
  loads_strings w = true -> cursor_ok s -> all_strings s ->
  all_strings (handle_key w key inp s).
Proof.
  intros Hw Hc [Hin Hs]. unfold handle_key.
  repeat match goal with
         | |- context [if ?c then _ else _] => destruct c
         end.
  - unfold on_enter. destruct (String.eqb (Py.strip inp) ""); [now split | ].
    destruct (parse_input inp) as [[hex m] | e]; split; simpl;
      try (now eexists); try assumption.
    now apply history_insert_strings.
  - split; [now eexists | exact Hs].
  - split; [ | now rewrite on_key_down_history].
    destruct (history s) as [ | x l] eqn:E.
    + unfold on_key_down. now rewrite E.
    + apply current_input_after_down; [rewrite E; discriminate | assumption | ].
      now rewrite E.
  - split; [ | now rewrite on_key_up_history].
    apply on_key_up_input; [assumption | now split].
  - split; [now rewrite on_page_input | now rewrite on_page_history].
  - unfold on_copy.
    repeat match goal with
           | |- context [match ?x with _ => _ end] => destruct x
           end; now split.
  - unfold on_save. destruct (save_history_to_file w (history s)). now split.
  - unfold on_load. unfold loads_strings in Hw.
    destruct (load_history_from_file w) as [[ | v loaded] m]; [now split | ].
    simpl fst in Hw. simpl history.
    pose proof (forallb_firstn is_str HISTORY_MAX _ Hw) as F.
    destruct (firstn HISTORY_MAX (v :: loaded)); split; simpl; assumption.
  - split; [exact Hin | reflexivity].
  - unfold on_char. destruct ((32 <=? key) && (key <=? 126)); [ | now split].
    split; [now eexists | exact Hs].
Qed.

Lemma clamp_view_all_strings (s : state) : all_strings s -> all_strings (clamp_view s).
Proof.
  intros [Hin Hs]. split.
  - now rewrite clamp_view_input.
  - now destruct (clamp_view_fields s) as (-> & _).
Qed.

Lemma run_all_strings (events : list (world * Z)) (s : state) :
  Forall (fun e => loads_strings (fst e) = true) events ->
  window_inv s -> all_strings s ->
  run s events <> Crash /\ sat all_strings (run s events).
Proof.
  revert s. induction events as [ | [w key] rest IH]; intros s Hev Hinv Hall.
  - split; [discriminate | exact Hall].
  - apply Forall_cons_iff in Hev. destruct Hev as [Hw Hev]. simpl in Hw.
    simpl run. unfold loop_body.
    destruct Hall as [[text Hin] Hs]. rewrite Hin.
    pose proof (clamp_view_inv s (proj2 Hinv)) as Ci.
    assert (Ca : all_strings (clamp_view s))
      by (apply clamp_view_all_strings; split; [now exists text | exact Hs]).
    destruct (key =? -1); [now apply IH | ].
    destruct (key =? 27); [split; [discriminate | exact Ca] | ].
    apply IH; [assumption | now apply handle_key_inv | ].
    apply handle_key_all_strings; [assumption | exact (proj2 Ci) | exact Ca].
Qed.

(** X9: when the entry KEY_DOWN moves to is not a string (a loaded
    file may hold any JSON values), the program ends with an uncaught
    exception at the next pass of the loop, whatever key comes next. *)
Theorem selecting_non_string_crashes (w w' : world) (key : Z) (s : state)
        (text : string) (v : pyval) :
  current_input s = PStr text -> cursor_ok s ->
  nth_error (history s) (Z.to_nat (next_older s)) = Some v ->
  is_str v = false ->
  run s [(w, KEY_DOWN); (w', key)] = Crash.
Proof.
  intros Hin Hc Hv Hns.
  assert (Hne : history s <> []).
  { intros E. rewrite E in Hv. now destruct (Z.to_nat (next_older s)). }
  destruct (clamp_view_fields s) as (Ch & Ci).
  assert (Hne' : history (clamp_view s) <> []) by (now rewrite Ch).
  assert (Hc' : cursor_ok (clamp_view s))
    by (unfold cursor_ok, len in *; now rewrite Ci, Ch).
  destruct (on_key_down_spec _ Hne' Hc') as (_ & _ & Hcur).
  assert (N : next_older (clamp_view s) = next_older s)
    by (unfold next_older, len; now rewrite Ci, Ch).
  rewrite N, Ch, Hv in Hcur. injection Hcur as Hcur.
  simpl run. rewrite (loop_body_key w KEY_DOWN s text Hin) by (unfold KEY_DOWN; lia).
  change (handle_key w KEY_DOWN text (clamp_view s)) with (on_key_down (clamp_view s)).
  unfold loop_body. rewrite Hcur. now destruct v.
Qed.

(** X9 from the start of the program: a file holding [[1]] is loaded,
    then KEY_DOWN and one more key. *)
Lemma selecting_non_string_crashes_after_load :
  run initial_state [(world_with_file (Holds (PList [PInt 1])), 108)]
  = Continue
      {| current_input := PStr ""; message := MsgLoaded;
         message_attr := color_pair 3; last_hex := None;
         history := [PInt 1]; history_index := None;
         history_view_start := 0; color_panel := PInt 1 |}
  /\ run {| current_input := PStr ""; message := MsgLoaded;
            message_attr := color_pair 3; last_hex := None;
            history := [PInt 1]; history_index := None;
            history_view_start := 0; color_panel := PInt 1 |}
         [(world_with_file Missing, KEY_DOWN); (world_with_file Missing, 97)]
     = Crash.
Proof.
  split; [reflexivity | ].
  apply (selecting_non_string_crashes (world_with_file Missing)
           (world_with_file Missing) 97 _ "" (PInt 1));
    [reflexivity | exact I | reflexivity | reflexivity].
Defined.

(** ** What the loop never does *)

Lemma clamp_view_id (s : state) : view_ok s -> clamp_view s = s.
Proof.
  unfold view_ok, clamp_view, len. intros H.
  destruct (Z.ltb_spec (history_view_start s) 0); [lia | ].
  rewrite Z.gtb_ltb.
  destruct (Z.ltb_spec (Z.max 0 (Z.of_nat (List.length (history s))
                                 - available_lines))
                       (history_view_start s)); [lia | reflexivity].
Qed.

(** X10: the correction of the view at the top of the loop never has
    anything to correct: in every state the program reaches, it leaves
    the view where the key handler put it. *)
Theorem render_clamp_is_idle (events : list (world * Z)) :
  sat (fun s => clamp_view s = s) (run initial_state events).
Proof.
  assert (H : window_inv initial_state).
  { unfold window_inv, view_ok, cursor_ok, len. simpl. split; [lia | exact I]. }
  pose proof (run_inv events initial_state H) as R.
  destruct (run initial_state events); simpl in *; try exact I;
    apply clamp_view_id, R.
Qed.

Lemma parse_input_message (inp hex : string) (m : msg) :
  parse_input inp = Ok (hex, m) -> is_global_error m = false.
Proof.
  unfold parse_input.
  destruct (Py.startswith "#" (Py.strip inp)).
  - destruct (hex_to_1000 (Py.strip inp)) as [[[r g] b] | ]; simpl;
      [ | discriminate].
    now intros [= _ <-].
  - destruct (mapM (fun t => Py.int t 10) (Py.split (Py.strip inp)))
      as [[ | r [ | g [ | b [ | ]]]] | ]; simpl; try discriminate.
    destruct (rgb1000_to_hex r g b); simpl; [ | discriminate].
    now intros [= _ <-].
Qed.

Lemma load_message (w : world) :
  is_global_error (snd (load_history_from_file w)) = false.
Proof.
  unfold load_history_from_file.
  now destruct (file w) as [ | e | [ | | | | | l | ]].
Qed.

Lemma select_entry_message (i : Z) (s : state) :
  0 <= i < len s -> message (select_entry i s) = message s.
Proof.
  intros Hi. destruct (select_entry_spec i s Hi) as (v & _ & ->).
  simpl. now destruct (follow_index_rest i (set_input v s)) as (-> & _).
Qed.

Lemma handle_key_no_global_error (w : world) (key : Z) (inp : string)
      (s : state) :
  window_inv s -> is_global_error (message s) = false ->
  is_global_error (message (handle_key w key inp s)) = false.
Proof.
  intros [Hv Hc] Hm. unfold handle_key.
  repeat match goal with
         | |- context [if ?c then _ else _] => destruct c
         end.
  - unfold on_enter. destruct (String.eqb (Py.strip inp) ""); [reflexivity | ].
    destruct (parse_input inp) as [[hex m] | e] eqn:P; [ | reflexivity].
    simpl. exact (parse_input_message inp hex m P).
  - reflexivity.
  - destruct (history s) as [ | x l] eqn:E.
    + unfold on_key_down. now rewrite E.
    + assert (Hne : history s <> []) by (rewrite E; discriminate).
      pose proof (next_older_in_range s Hne Hc) as Hi.
      unfold on_key_down. rewrite E. fold (next_older s).
      now rewrite select_entry_message.
  - unfold on_key_up.
    destruct (history s) as [ | x l] eqn:E; [exact Hm | ].
    destruct (history_index s) as [i | ] eqn:Ei; [ | exact Hm].
    destruct (Z.ltb_spec (i - 1) 0); [exact Hm | ].
    rewrite select_entry_message; [exact Hm | ].
    unfold cursor_ok in Hc. rewrite Ei in Hc.
    change (len (set_index (Some (i - 1)) s)) with (len s). lia.
  - unfold on_page. simpl history_index. simpl history.
    destruct (history_index s) as [i | ]; [ | exact Hm].
    change (len (set_view_start ?v s)) with (len s).
    destruct ((0 <=? i) && (i <? len s)) eqn:C; [ | exact Hm].
    apply andb_true_iff in C. destruct C as [L U].
    apply Z.leb_le in L. apply Z.ltb_lt in U.
    destruct (index_in_range (history s) i (conj L U)) as (v & -> & _).
    exact Hm.
  - unfold on_copy.
    repeat match goal with
           | |- context [match ?x with _ => _ end] => destruct x
           end; reflexivity.
  - unfold on_save, save_history_to_file. now destruct (write_error w).
  - unfold on_load. pose proof (load_message w) as L.
    destruct (load_history_from_file w) as [[ | v loaded] m]; simpl in L;
      [exact L | ].
    simpl history. destruct (firstn HISTORY_MAX (v :: loaded)); exact L.
  - reflexivity.
  - unfold on_char. destruct ((32 <=? key) && (key <=? 126)); [reflexivity | exact Hm].
Qed.

(** X11: no key handler ever raises: the catch-all [except] at the
    bottom of the loop is never entered, since every [history[index]]
    the handlers read has its index inside the list. *)
Theorem catch_all_never_entered (events : list (world * Z)) :
  sat (fun s => is_global_error (message s) = false) (run initial_state events).
Proof.
  assert (G : forall s, window_inv s -> is_global_error (message s) = false ->
                        sat (fun s => is_global_error (message s) = false)
                            (run s events)).
  { induction events as [ | [w key] rest IH]; intros s Hinv Hm; [exact Hm | ].
    simpl. unfold loop_body.
    destruct (current_input s); try exact I.
    pose proof (clamp_view_inv s (proj2 Hinv)) as Ci.
    assert (Cm : is_global_error (message (clamp_view s)) = false).
    { rewrite (clamp_view_id s (proj1 Hinv)). exact Hm. }
    destruct (key =? -1); [now apply IH | ].
    destruct (key =? 27); [exact Cm | ].
    apply IH; [now apply handle_key_inv | now apply handle_key_no_global_error]. }
  apply G; [ | reflexivity].
  unfold window_inv, view_ok, cursor_ok, len. simpl. split; [lia | exact I].
Qed.

(** ** The last hex and the copy key *)

Lemma rgb1000_to_hex_accepted (r g b : Z) (h : string) :
  rgb1000_to_hex r g b = Ok h ->
  Py.startswith "#" h = true /\ exists r' g' b', hex_to_1000 h = Ok (r', g', b').
Proof.
  intros H.
  assert (In_range : 0 <= r <= 1000 /\ 0 <= g <= 1000 /\ 0 <= b <= 1000).
  { unfold rgb1000_to_hex in H.
    destruct ((0 <=? r) && (r <=? 1000) && (0 <=? g) && (g <=? 1000)
              && (0 <=? b) && (b <=? 1000)) eqn:E; [ | discriminate].
    repeat (apply andb_true_iff in E; destruct E as [E ?]).
    repeat match goal with X : (_ <=? _) = true |- _ => apply Z.leb_le in X end.
    lia. }
  destruct In_range as (Hr & Hg & Hb).
  destruct (scaled_round_trip_facts r Hr)
    as (c1 & a1 & b1 & r' & T1 & F1 & Xa1 & Xb1 & _).
  destruct (scaled_round_trip_facts g Hg)
    as (c2 & a2 & b2 & g' & T2 & F2 & Xa2 & Xb2 & _).
  destruct (scaled_round_trip_facts b Hb)
    as (c3 & a3 & b3 & b' & T3 & F3 & Xa3 & Xb3 & _).
  assert (E : h = String "#" (six a1 b1 a2 b2 a3 b3)).
  { unfold rgb1000_to_hex in H.
    replace ((0 <=? r) && (r <=? 1000) && (0 <=? g) && (g <=? 1000)
             && (0 <=? b) && (b <=? 1000)) with true in H
      by (symmetry; repeat (apply andb_true_iff; split); apply Z.leb_le; lia).
    simpl negb in H. cbv iota in H. rewrite T1, T2, T3 in H. simpl bind in H.
    rewrite F1, F2, F3 in H. now injection H as <-. }
  subst h. split; [reflexivity | ].
  apply hex_to_1000_valid. now apply valid_hex_six.
Qed.

Lemma parse_input_hex_ok (inp hex : string) (m : msg) :
  parse_input inp = Ok (hex, m) ->
  Py.startswith "#" hex = true /\ exists r g b, hex_to_1000 hex = Ok (r, g, b).
Proof.
  unfold parse_input.
  destruct (Py.startswith "#" (Py.strip inp)) eqn:S.
  - destruct (hex_to_1000 (Py.strip inp)) as [[[r g] b] | ] eqn:H; simpl;
      [ | discriminate].
    intros [= <- _]. split; [exact S | now exists r, g, b].
  - destruct (mapM (fun t => Py.int t 10) (Py.split (Py.strip inp)))
      as [[ | r [ | g [ | b [ | ]]]] | ]; simpl; try discriminate.
    destruct (rgb1000_to_hex r g b) as [h | ] eqn:H; simpl; [ | discriminate].
    intros [= <- _]. exact (rgb1000_to_hex_accepted r g b h H).
Qed.

Lemma select_entry_last_hex (i : Z) (s : state) :
  last_hex (select_entry i s) = last_hex s.
Proof.
  unfold select_entry. destruct (Py.index (history s) i) as [v | ]; [ | reflexivity].
  simpl. now destruct (follow_index_rest i (set_input v s)) as (_ & -> & _).
Qed.

Lemma handle_key_last_hex (w : world) (key : Z) (inp : string) (s : state) :
  last_hex (handle_key w key inp s) = last_hex s
  \/ exists hex m, parse_input inp = Ok (hex, m)
                   /\ last_hex (handle_key w key inp s) = Some hex.
Proof.
  unfold handle_key.
  repeat match goal with
         | |- context [if ?c then _ else _] => destruct c
         end.
  - unfold on_enter. destruct (String.eqb (Py.strip inp) ""); [now left | ].
    destruct (parse_input inp) as [[hex m] | e]; [ | now left].
    right. now exists hex, m.
  - now left.
  - left. unfold on_key_down. destruct (history s); [reflexivity | ].
    now rewrite select_entry_last_hex.
  - left. unfold on_key_up. destruct (history s); [reflexivity | ].
    destruct (history_index s) as [i | ]; [ | reflexivity].
    destruct (i - 1 <? 0); [reflexivity | ].
    now rewrite select_entry_last_hex.
  - left. unfold on_page. simpl history_index. simpl history.
    destruct (history_index s) as [i | ]; [ | reflexivity].
    match goal with |- context [if ?c then _ else _] => destruct c end;
      [ | reflexivity].
    destruct (Py.index (history s) i); reflexivity.
  - left. unfold on_copy.
    repeat match goal with
           | |- context [match ?x with _ => _ end] => destruct x
           end; reflexivity.
  - left. unfold on_save. now destruct (save_history_to_file w (history s)).
  - left. unfold on_load.
    destruct (load_history_from_file w) as [[ | v loaded] m]; [reflexivity | ].
    simpl history. now destruct (firstn HISTORY_MAX (v :: loaded)).
  - now left.
  - left. unfold on_char. now destruct ((32 <=? key) && (key <=? 126)).
Qed.

Lemma handle_key_last_hex_ok (w : world) (key : Z) (inp : string) (s : state) :
  last_hex_ok s -> last_hex_ok (handle_key w key inp s).
Proof.
  intros H h Hh.
  destruct (handle_key_last_hex w key inp s) as [E | (hex & m & P & E)].
  - rewrite E in Hh. now apply H.
  - rewrite E in Hh. injection Hh as <-. exact (parse_input_hex_ok inp hex m P).
Qed.

Lemma clamp_view_last_hex (s : state) : last_hex (clamp_view s) = last_hex s.
Proof.
  unfold clamp_view.
  destruct (history_view_start s <? 0); simpl;
    match goal with |- context [if ?x then _ else _] => destruct x end;
    reflexivity.
Qed.

Lemma run_last_hex_ok (events : list (world * Z)) (s : state) :
  last_hex_ok s -> sat last_hex_ok (run s events).
Proof.
  revert s. induction events as [ | [w key] rest IH]; intros s H; [exact H | ].
  simpl. unfold loop_body.
  destruct (current_input s); try exact I.
  assert (C : last_hex_ok (clamp_view s))
    by (unfold last_hex_ok; now rewrite clamp_view_last_hex).
  destruct (key =? -1); [now apply IH | ].
  destruct (key =? 27); [exact C | ].
  apply IH. now apply handle_key_last_hex_ok.
Qed.

Lemma copy_of_last_hex (w : world) (inp h : string) (s : state) :
  last_hex s = Some h -> Py.startswith "#" h = true ->
  CLIP_AVAILABLE w = true -> copy_error w = None ->
  handle_key w 99 inp s = set_message (MsgCopied h) (color_pair 3) s.
Proof.
  intros Hl Hs Hc He.
  change (handle_key w 99 inp s) with (on_copy w inp s).
  unfold on_copy. rewrite Hl.
  destruct h as [ | x h']; [discriminate | ].
  simpl String.eqb. cbv iota. now rewrite Hc, He.
Qed.

(** X12: in every state the program reaches, the last hex, once there
    is one, begins with [#] and is accepted by [hex_to_1000]; the [c]
    key then copies exactly that hex, whatever the input field holds
    (with a working clipboard), and changes nothing but the message. *)
Theorem copy_takes_last_hex (events : list (world * Z)) :
  sat (fun s =>
         forall h, last_hex s = Some h ->
           Py.startswith "#" h = true
           /\ (exists r g b, hex_to_1000 h = Ok (r, g, b))
           /\ forall w inp,
                CLIP_AVAILABLE w = true -> copy_error w = None ->
                handle_key w 99 inp s
                = set_message (MsgCopied h) (color_pair 3) s)
      (run initial_state events).
Proof.
  assert (H : last_hex_ok initial_state) by (intros h; discriminate).
  pose proof (run_last_hex_ok events initial_state H) as R.
  destruct (run initial_state events) as [s | s | ]; simpl in *; try exact I;
    intros h Hh; destruct (R h Hh) as (S & A);
    (split; [exact S | split; [exact A | ]]);
    intros w inp Hc He; now apply copy_of_last_hex.
Qed.

(** X12 after "#ff8000" was submitted, with "12" in the input field. *)
Lemma copy_takes_last_hex_example :
  handle_key (world_with_file Missing) 99 "12"
    {| current_input := PStr ""; message := MsgHexToRgb "#ff8000" 1000 502 0;
       message_attr := color_pair 3; last_hex := Some "#ff8000";
       history := [PStr "#ff8000"]; history_index := None;
       history_view_start := 0; color_panel := PStr "#ff8000" |}
  = set_message (MsgCopied "#ff8000") (color_pair 3)
      {| current_input := PStr ""; message := MsgHexToRgb "#ff8000" 1000 502 0;
         message_attr := color_pair 3; last_hex := Some "#ff8000";
         history := [PStr "#ff8000"]; history_index := None;
         history_view_start := 0; color_panel := PStr "#ff8000" |}.
Proof.
  pose proof (copy_takes_last_hex (typed (world_with_file Missing) "#ff8000")) as H.
  assert (E : run initial_state (typed (world_with_file Missing) "#ff8000")
              = Continue
                  {| current_input := PStr "";
                     message := MsgHexToRgb "#ff8000" 1000 502 0;
                     message_attr := color_pair 3; last_hex := Some "#ff8000";
                     history := [PStr "#ff8000"]; history_index := None;
                     history_view_start := 0; color_panel := PStr "#ff8000" |})
    by (vm_compute; reflexivity).
  rewrite E in H. simpl sat in H.
  apply (H "#ff8000" eq_refl); reflexivity.
Defined.

(** ** Loading back the history *)

Lemma load_of_own_history (w : world) (inp : string) (s : state) :
  bounded s -> file w = Holds (PList (history s)) -> history s <> [] ->
  history (handle_key w 108 inp s) = history s
  /\ history_index (handle_key w 108 inp s) = None
  /\ history_view_start (handle_key w 108 inp s) = 0
  /\ Some (color_panel (handle_key w 108 inp s)) = hd_error (history s)
  /\ message (handle_key w 108 inp s) = MsgLoaded
  /\ message_attr (handle_key w 108 inp s) = color_pair 3.
Proof.
  intros Hb Hf Hne.
  change (handle_key w 108 inp s) with (on_load w s).
  unfold on_load, load_history_from_file. rewrite Hf.
  unfold bounded in Hb. rewrite (firstn_all2 (history s) Hb).
  destruct (history s) as [ | v l] eqn:E; [contradiction | ].
  simpl history.
  try rewrite E in Hb.
  assert (F : firstn HISTORY_MAX (v :: l) = v :: l)
    by (apply firstn_all2; exact Hb).
  rewrite F. simpl. now repeat split.
Qed.

(** X13: in every state the program reaches, loading a file whose
    array is the current history (not empty) gives back that history
    entire and in order: nothing is cut, since a history never has more
    than 200 entries; the cursor is unset, the view is at 0 and the
    newest entry is drawn. *)
Theorem load_restores_saved_history (events : list (world * Z)) :
  sat (fun s =>
         forall w inp,
           file w = Holds (PList (history s)) -> history s <> [] ->
           history (handle_key w 108 inp s) = history s
           /\ history_index (handle_key w 108 inp s) = None
           /\ history_view_start (handle_key w 108 inp s) = 0
           /\ Some (color_panel (handle_key w 108 inp s)) = hd_error (history s)
           /\ message (handle_key w 108 inp s) = MsgLoaded
           /\ message_attr (handle_key w 108 inp s) = color_pair 3)
      (run initial_state events).
Proof.
  pose proof (history_bounded events) as B.
  destruct (run initial_state events) as [s | s | ]; simpl in *; try exact I;
    intros w inp Hf Hne; now apply load_of_own_history.
Qed.

(** X13 after two colours were submitted. *)
Lemma load_restores_saved_history_example :
  history
    (handle_key
       (world_with_file (Holds (PList [PStr "#00ff00"; PStr "#ff8000"]))) 108 ""
       {| current_input := PStr ""; message := MsgHexToRgb "#00ff00" 0 1000 0;
          message_attr := color_pair 3; last_hex := Some "#00ff00";
          history := [PStr "#00ff00"; PStr "#ff8000"]; history_index := None;
          history_view_start := 0; color_panel := PStr "#00ff00" |})
  = [PStr "#00ff00"; PStr "#ff8000"].
Proof.
  pose proof (load_restores_saved_history
                (typed (world_with_file Missing) "#ff8000"
                 ++ typed (world_with_file Missing) "#00ff00")) as H.
  assert (E : run initial_state
                  (typed (world_with_file Missing) "#ff8000"
                   ++ typed (world_with_file Missing) "#00ff00")
              = Continue
                  {| current_input := PStr "";
                     message := MsgHexToRgb "#00ff00" 0 1000 0;
                     message_attr := color_pair 3; last_hex := Some "#00ff00";
                     history := [PStr "#00ff00"; PStr "#ff8000"];
                     history_index := None; history_view_start := 0;
                     color_panel := PStr "#00ff00" |})
    by (vm_compute; reflexivity).
  rewrite E in H. simpl sat in H.
  apply (H (world_with_file (Holds (PList [PStr "#00ff00"; PStr "#ff8000"]))) "");
    [reflexivity | discriminate].
Defined.

(** ** Page scroll *)

Lemma on_page_fields (key : Z) (s : state) :
  history_view_start (on_page key s)
  = Z.max 0 (Z.min (history_view_start s
                    + (if key =? KEY_PPAGE then 1 else -1) * available_lines)
                   (Z.max 0 (len s - available_lines)))
  /\ history_index (on_page key s) = history_index s.
Proof.
  unfold on_page. cbv zeta.
  change (history_index (set_view_start ?v s)) with (history_index s).
  change (history (set_view_start ?v s)) with (history s).
  change (len (set_view_start ?v s)) with (len s).
  destruct (history_index s) as [i | ] eqn:E; [ | split; [reflexivity | exact E]].
  destruct ((0 <=? i) && (i <? len s)); [ | split; [reflexivity | exact E]].
  destruct (Py.index (history s) i); split; try reflexivity; exact E.
Qed.

(** X14: with the keys swapped as the program sets them, KEY_PPAGE
    moves the view one page (3 lines) towards the older entries and
    stops at the last page, KEY_NPAGE moves it one page back and stops
    at 0; KEY_NPAGE after KEY_PPAGE returns to the same view whenever
    the page down was not stopped.  Neither key changes the history,
    the cursor or the input field. *)
Theorem page_scroll (w : world) (inp : string) (s : state) :
  view_ok s ->
  history_view_start (handle_key w KEY_PPAGE inp s)
  = Z.min (history_view_start s + 3) (Z.max 0 (len s - 3))
  /\ history_view_start (handle_key w KEY_NPAGE inp s)
     = Z.max 0 (history_view_start s - 3)
  /\ (history_view_start s + 3 <= Z.max 0 (len s - 3) ->
      history_view_start
        (handle_key w KEY_NPAGE inp (handle_key w KEY_PPAGE inp s))
      = history_view_start s)
  /\ (forall key, key = KEY_PPAGE \/ key = KEY_NPAGE ->
        history (handle_key w key inp s) = history s
        /\ history_index (handle_key w key inp s) = history_index s
        /\ current_input (handle_key w key inp s) = current_input s).
Proof.
  unfold view_ok. change available_lines with 3. intros Hv.
  change (handle_key w KEY_PPAGE inp) with (on_page KEY_PPAGE).
  change (handle_key w KEY_NPAGE inp) with (on_page KEY_NPAGE).
  destruct (on_page_fields KEY_PPAGE s) as (Vp & _).
  destruct (on_page_fields KEY_NPAGE s) as (Vn & _).
  destruct (on_page_fields KEY_NPAGE (on_page KEY_PPAGE s)) as (Vnp & _).
  assert (Lp : len (on_page KEY_PPAGE s) = len s)
    by (unfold len; now rewrite on_page_history).
  change available_lines with 3 in *.
  change (KEY_PPAGE =? KEY_PPAGE) with true in *.
  change (KEY_NPAGE =? KEY_PPAGE) with false in *.
  split; [rewrite Vp; lia | ].
  split; [rewrite Vn; lia | ].
  split; [intros Hroom; rewrite Vnp, Lp, Vp; lia | ].
  intros key [-> | ->].
  - change (handle_key w KEY_PPAGE inp s) with (on_page KEY_PPAGE s).
    rewrite on_page_history, on_page_input.
    now destruct (on_page_fields KEY_PPAGE s) as (_ & ->).
  - change (handle_key w KEY_NPAGE inp s) with (on_page KEY_NPAGE s).
    rewrite on_page_history, on_page_input.
    now destruct (on_page_fields KEY_NPAGE s) as (_ & ->).
Qed.

(** X14 on a history of ten entries seen from its top. *)
Lemma page_scroll_example :
  history_view_start
    (handle_key (world_with_file Missing) KEY_PPAGE ""
       (set_history (repeat (PStr "#000000") 10) initial_state))
  = Z.min (0 + 3) (Z.max 0 (10 - 3))
  /\ history_view_start
       (handle_key (world_with_file Missing) KEY_NPAGE ""
          (set_history (repeat (PStr "#000000") 10) initial_state))
     = Z.max 0 (0 - 3).
Proof.
  destruct (page_scroll (world_with_file Missing) ""
              (set_history (repeat (PStr "#000000") 10) initial_state))
    as (Hp & Hn & _).
  - unfold view_ok, len. simpl. lia.
  - split; [exact Hp | exact Hn].
Defined.

(** ** The selected entry on the screen *)

Lemma follow_index_shows (i : Z) (s : state) :
  history_view_start (follow_index i s) <= i
  < history_view_start (follow_index i s) + available_lines.
Proof.
  unfold follow_index. change available_lines with 3.
  destruct (Z.ltb_spec i (history_view_start s)); simpl;
    rewrite Z.geb_leb;
    match goal with |- context [if ?a <=? ?b then _ else _] =>
      destruct (Z.leb_spec a b) end;
    simpl; lia.
Qed.

Lemma list_slice_nth {A : Type} (l : list A) (v i : Z) :
  0 <= v <= i -> i < v + available_lines -> i < Z.of_nat (List.length l) ->
  nth_error (list_slice l v (v + available_lines)) (Z.to_nat (i - v))
  = nth_error l (Z.to_nat i).
Proof.
  change available_lines with 3. intros Hv Hi Hn. unfold list_slice.
  replace (v <? 0) with false by (symmetry; apply Z.ltb_ge; lia).
  replace (v + 3 <? 0) with false by (symmetry; apply Z.ltb_ge; lia).
  rewrite nth_error_firstn.
  replace (Z.to_nat (i - v) <? Z.to_nat (Z.min (v + 3) (Z.of_nat (List.length l))
                                        - Z.min v (Z.of_nat (List.length l))))%nat
    with true by (symmetry; apply Nat.ltb_lt; lia).
  rewrite nth_error_skipn. f_equal. lia.
Qed.

Lemma navigation_selects (w : world) (key : Z) (inp : string) (s : state) (i : Z) :
  window_inv s -> key = KEY_DOWN \/ key = KEY_UP ->
  history_index (handle_key w key inp s) = Some i ->
  0 <= i < len s
  /\ handle_key w key inp s = select_entry i (set_index (Some i) s).
Proof.
  intros [Hv Hc] [-> | ->] Hi.
  - change (handle_key w KEY_DOWN inp s) with (on_key_down s) in *.
    destruct (history s) as [ | x l] eqn:E.
    + exfalso. unfold on_key_down in Hi. rewrite E in Hi.
      unfold cursor_ok, len in Hc. rewrite Hi, E in Hc. simpl in Hc. lia.
    + assert (Hne : history s <> []) by (rewrite E; discriminate).
      destruct (on_key_down_spec s Hne Hc) as (Hidx & _).
      rewrite Hidx in Hi. injection Hi as <-.
      split; [now apply next_older_in_range | ].
      unfold on_key_down. now rewrite E.
  - change (handle_key w KEY_UP inp s) with (on_key_up s) in *.
    unfold on_key_up in *.
    destruct (history s) as [ | x l] eqn:E.
    + exfalso. unfold cursor_ok, len in Hc. rewrite Hi, E in Hc. simpl in Hc. lia.
    + destruct (history_index s) as [j | ] eqn:Ej; [ | simpl in Hi; congruence].
      destruct (Z.ltb_spec (j - 1) 0); [discriminate | ].
      unfold cursor_ok in Hc. rewrite Ej in Hc.
      assert (R : 0 <= j - 1 < len (set_index (Some (j - 1)) s))
        by (change (len (set_index (Some (j - 1)) s)) with (len s); lia).
      destruct (select_entry_spec (j - 1) (set_index (Some (j - 1)) s) R)
        as (v & _ & Es).
      rewrite Es in Hi. simpl in Hi.
      destruct (follow_index_fields (j - 1)
                  (set_input v (set_index (Some (j - 1)) s))) as (_ & Fi & _).
      rewrite Fi in Hi. simpl in Hi. injection Hi as <-.
      split; [exact R | reflexivity].
Qed.

(** X15: whenever KEY_DOWN or KEY_UP leaves the cursor on an entry,
    that entry is on the screen: the cursor lies inside the three
    lines of the view, the row drawn for it is the entry itself and
    carries the marker, and the input field holds the entry. *)
Theorem selected_entry_is_shown (w : world) (key : Z) (inp : string)
        (s : state) (i : Z) :
  window_inv s -> key = KEY_DOWN \/ key = KEY_UP ->
  history_index (handle_key w key inp s) = Some i ->
  history_view_start (handle_key w key inp s) <= i
  < history_view_start (handle_key w key inp s) + available_lines
  /\ exists v,
       nth_error (history (handle_key w key inp s)) (Z.to_nat i) = Some v
       /\ nth_error (to_show (handle_key w key inp s))
                    (Z.to_nat (i - history_view_start (handle_key w key inp s)))
          = Some v
       /\ marked (handle_key w key inp s)
                 (Z.to_nat (i - history_view_start (handle_key w key inp s)))
          = true
       /\ current_input (handle_key w key inp s) = v.
Proof.
  intros Hinv Hkey Hi.
  destruct (navigation_selects w key inp s i Hinv Hkey Hi) as (R & E).
  rewrite E in *.
  destruct (select_entry_spec i (set_index (Some i) s) R) as (v & Hv & Es).
  rewrite Es in *. simpl in Hv.
  pose proof (follow_index_shows i (set_input v (set_index (Some i) s))) as Sh.
  destruct (follow_index_fields i (set_input v (set_index (Some i) s)))
    as (Fh & Fi & Fc).
  split; [exact Sh | ].
  exists v. simpl. rewrite Fh, Fc. simpl.
  split; [exact Hv | ]. split; [ | split; [ | reflexivity]].
  - unfold to_show. simpl. rewrite Fh. simpl.
    rewrite list_slice_nth; [exact Hv | | lia | unfold len in R; simpl in R; lia].
    split; [ | lia].
    destruct (select_entry_inv i s R (proj1 Hinv)) as [Vo _].
    rewrite Es in Vo. unfold view_ok in Vo. simpl in Vo. lia.
  - unfold marked. simpl. rewrite Fi. simpl. apply Z.eqb_eq. lia.
Qed.

(** X15 on a history of five entries, the cursor moving from 2 to 3:
    the view follows it. *)
Lemma selected_entry_is_shown_example :
  history_view_start
    (handle_key (world_with_file Missing) KEY_DOWN ""
       (set_index (Some 2)
          (set_history (repeat (PStr "#000000") 5) initial_state))) <= 3
  < history_view_start
      (handle_key (world_with_file Missing) KEY_DOWN ""
         (set_index (Some 2)
            (set_history (repeat (PStr "#000000") 5) initial_state)))
    + available_lines.
Proof.
  apply (proj1 (selected_entry_is_shown (world_with_file Missing) KEY_DOWN ""
                  (set_index (Some 2)
                     (set_history (repeat (PStr "#000000") 5) initial_state))
                  3
                  ltac:(unfold window_inv, view_ok, cursor_ok, len; simpl; lia)
                  (or_introl eq_refl) eq_refl)).
Defined.

(** ** The input field *)

Lemma substring_suffix (s : string) (a : nat) :
  (a <= String.length s)%nat ->
  exists hidden,
    s = (hidden ++ substring a (String.length s - a) s)%string
    /\ String.length hidden = a.
Proof.
  revert a. induction s as [ | c s IH]; intros a Ha.
  - simpl in Ha. assert (a = 0)%nat by lia. subst. now exists "".
  - destruct a as [ | a].
    + exists "". split; [ | reflexivity]. simpl append.
      change (String.length (String c s) - 0)%nat with (S (String.length s)).
      simpl substring. f_equal.
      destruct (IH 0%nat) as (h & Hs & Hl); [lia | ].
      destruct h; [ | discriminate]. simpl in Hs.
      now rewrite Nat.sub_0_r in Hs.
    + simpl in Ha. destruct (IH a) as (h & Hs & Hl); [lia | ].
      exists (String c h). simpl. split; [now f_equal | now f_equal].
Qed.

(** X16: the input field shows the last 38 characters typed (all of
    them when there are fewer), and the cursor drawn after them stays
    between column 8 and column 46 of the 50 columns of the panel,
    inside its border, however long the input is. *)
Theorem input_field_fits (current_input : string) :
  (exists hidden,
     current_input = (hidden ++ display_input current_input)%string)
  /\ String.length (display_input current_input)
     = Nat.min (String.length current_input) 38
  /\ 8 <= cursor_x current_input <= 46
  /\ cursor_x current_input < INPUT_PANEL_WIDTH - 1.
Proof.
  unfold cursor_x, display_input, str_from.
  change (- max_input_len) with (-38). change (-38 <? 0) with true. cbv iota.
  change INDENT_X with 2. change input_label_len with 6.
  change INPUT_PANEL_WIDTH with 50.
  set (n := String.length current_input).
  set (a := Z.max 0 (Z.of_nat n + -38)).
  assert (Ha : (Z.to_nat a <= n)%nat) by lia.
  destruct (substring_suffix current_input (Z.to_nat a) Ha) as (hidden & Hs & Hl).
  fold n in Hs.
  replace (Z.to_nat (Z.of_nat n - a)) with (n - Z.to_nat a)%nat by lia.
  assert (L : String.length (substring (Z.to_nat a) (n - Z.to_nat a) current_input)
              = (n - Z.to_nat a)%nat).
  { assert (E : String.length current_input
                = (String.length hidden
                   + String.length (substring (Z.to_nat a) (n - Z.to_nat a)
                                              current_input))%nat)
      by (rewrite Hs at 1; apply append_length).
    fold n in E. lia. }
  split; [now exists hidden | ].
  rewrite L. repeat split; lia.
Qed.

(** ** The colour panel *)

Lemma light_threshold (sum : Z) :
  0 <= sum <= 765 ->
  PrimFloat.ltb (Py.float_of_int 200) (Py.truediv sum 3) = (600 <? sum).
Proof.
  intros H. apply eqb_prop.
  apply (Zrange_forallb light_threshold_ok 766); [vm_compute; reflexivity | lia].
Qed.

Lemma bytes_at_fixed_places_valid (a b c d e f : ascii) :
  is_hex_digit a = true -> is_hex_digit b = true ->
  is_hex_digit c = true -> is_hex_digit d = true ->
  is_hex_digit e = true -> is_hex_digit f = true ->
  bytes_at_fixed_places (String "#" (six a b c d e f))
  = Ok (byte_of a b, byte_of c d, byte_of e f).
Proof.
  intros Ha Hb Hc Hd He Hf. unfold bytes_at_fixed_places.
  change (Py.slice 1 3 (String "#" (six a b c d e f))) with (pair_text a b).
  change (Py.slice 3 5 (String "#" (six a b c d e f))) with (pair_text c d).
  change (Py.slice 5 7 (String "#" (six a b c d e f))) with (pair_text e f).
  destruct (hex_pair_facts a b Ha Hb) as (-> & _).
  destruct (hex_pair_facts c d Hc Hd) as (-> & _).
  destruct (hex_pair_facts e f He Hf) as (-> & _).
  reflexivity.
Qed.

(** X17: for a valid hex colour, [draw_color_panel] fills the panel:
    on a terminal that can change colours, with the custom colour of
    the scaled channels (or the plain pair when the terminal refuses
    it); on any other terminal, black on white when the three bytes
    add up to more than 600 (mean above 200) and white on black
    otherwise.  It never shows an error for such a colour. *)
Theorem panel_of_valid_hex (t : terminal) (h : string) :
  valid_hex h = true ->
  exists r g b r_1000 g_1000 b_1000,
    channels h = Some (r, g, b)
    /\ hex_to_1000 h = Ok (r_1000, g_1000, b_1000)
    /\ painted t (PStr h)
       = Filled
           (if can_change_colors t then
              if custom_color_fails t r_1000 g_1000 b_1000 then PairPlain
              else PairCustom r_1000 g_1000 b_1000
            else if 600 <? r + g + b then
                   if init_pair_fails t 200 then PairPlain else PairLight
                 else
                   if init_pair_fails t 201 then PairPlain else PairDark).
Proof.
  intros Hv.
  destruct (valid_hex_inv h Hv) as (a & b & c & d & e & f & -> & Ha & Hb & Hc & Hd & He & Hf).
  destruct (hex_to_1000_valid _ Hv) as (r1 & g1 & b1 & Hc1).
  exists (byte_of a b), (byte_of c d), (byte_of e f), r1, g1, b1.
  split; [now apply channels_six | ]. split; [exact Hc1 | ].
  unfold painted. simpl truthy. simpl negb. cbv iota.
  rewrite Hc1. destruct (can_change_colors t); [reflexivity | ].
  rewrite bytes_at_fixed_places_valid by assumption.
  unfold is_light. rewrite light_threshold;
    [destruct (600 <? byte_of a b + byte_of c d + byte_of e f); reflexivity | ].
  destruct (hex_pair_facts a b Ha Hb) as (_ & R1 & _).
  destruct (hex_pair_facts c d Hc Hd) as (_ & R2 & _).
  destruct (hex_pair_facts e f He Hf) as (_ & R3 & _).
  lia.
Qed.

(** X17 for a light grey on a terminal that cannot change colours. *)
Lemma panel_of_valid_hex_example :
  exists r g b r_1000 g_1000 b_1000,
    channels "#d0d0d0" = Some (r, g, b)
    /\ hex_to_1000 "#d0d0d0" = Ok (r_1000, g_1000, b_1000)
    /\ painted plain_terminal (PStr "#d0d0d0")
       = Filled
           (if can_change_colors plain_terminal then
              if custom_color_fails plain_terminal r_1000 g_1000 b_1000
              then PairPlain
              else PairCustom r_1000 g_1000 b_1000
            else if 600 <? r + g + b then
                   if init_pair_fails plain_terminal 200 then PairPlain
                   else PairLight
                 else
                   if init_pair_fails plain_terminal 201 then PairPlain
                   else PairDark).
Proof. apply (panel_of_valid_hex plain_terminal "#d0d0d0"). reflexivity. Defined.

Lemma hash_pair_refused (x : ascii) :
  exists e, Py.int (pair_text "#" x) 16 = Raise e.
Proof.
  assert (H : (match Py.int (pair_text "#" x) 16 with
               | Raise _ => true
               | Ok _ => false
               end) = true).
  { apply (all_ascii_forallb
             (fun x => match Py.int (pair_text "#" x) 16 with
                       | Raise _ => true
                       | Ok _ => false
                       end)).
    vm_compute. reflexivity. }
  destruct (Py.int (pair_text "#" x) 16) as [v | e]; [discriminate | now exists e].
Qed.

Lemma string_forallb_app (p : ascii -> bool) (a b : string) :
  string_forallb p (a ++ b) = string_forallb p a && string_forallb p b.
Proof.
  induction a as [ | x a IH]; simpl; [reflexivity | ].
  now rewrite IH, andb_assoc.
Qed.

Lemma hashes_no_spaces (n : nat) :
  string_forallb (fun a => negb (Py.is_space a)) (hashes n) = true.
Proof. induction n as [ | n IH]; simpl; [reflexivity | exact IH]. Qed.

(** X18: a text of two or more [#] followed by six hexadecimal digits
    is accepted by Enter as a colour (every leading [#] is stripped),
    but on a terminal that cannot change colours the panel shows an
    error for it: the bytes are read at the fixed places 1, 3 and 5 of
    the text, where the second [#] stands. *)
Theorem extra_hashes_accepted_but_not_drawn (t : terminal) (n : nat)
        (s : string) :
  is_hex6 s = true -> (2 <= n)%nat -> can_change_colors t = false ->
  (exists r g b,
     parse_input (hashes n ++ s)
     = Ok ((hashes n ++ s)%string, MsgHexToRgb (hashes n ++ s) r g b))
  /\ exists e, painted t (PStr (hashes n ++ s)) = ColorError (DigitsError e).
Proof.
  intros Hs Hn Ht.
  destruct (is_hex6_inv s Hs) as (a & b & c & d & e & f & -> & Ha & Hb & Hc & Hd & He & Hf).
  assert (Hconv : hex_to_1000 (hashes n ++ six a b c d e f)
                  = Ok (scaled_of a b, scaled_of c d, scaled_of e f)).
  { apply hex_to_1000_six; try assumption.
    rewrite lstrip_char_hashes. apply lstrip_char_hex_digit.
    now destruct (hex_pair_facts a b Ha Hb) as (_ & _ & _ & _ & _ & _ & N). }
  assert (Hstrip : Py.strip (hashes n ++ six a b c d e f)
                   = (hashes n ++ six a b c d e f)%string).
  { apply strip_no_spaces. rewrite string_forallb_app, hashes_no_spaces.
    unfold six. simpl.
    now rewrite (hex_digit_not_space a Ha), (hex_digit_not_space b Hb),
      (hex_digit_not_space c Hc), (hex_digit_not_space d Hd),
      (hex_digit_not_space e He), (hex_digit_not_space f Hf). }
  destruct n as [ | [ | m]]; try lia.
  split.
  - exists (scaled_of a b), (scaled_of c d), (scaled_of e f).
    rewrite <- Hstrip at 2 3.
    apply parse_input_hex; rewrite Hstrip; [reflexivity | exact Hconv].
  - unfold painted. simpl truthy. simpl negb. cbv iota.
    rewrite Hconv, Ht.
    assert (X : exists x rest,
                  (hashes (S (S m)) ++ six a b c d e f)%string
                  = String "#" (String "#" (String x rest))).
    { destruct m as [ | m]; simpl; now eexists; eexists. }
    destruct X as (x & rest & ->).
    unfold bytes_at_fixed_places.
    replace (Py.slice 1 3 (String "#" (String "#" (String x rest))))
      with (pair_text "#" x) by (now destruct rest).
    destruct (hash_pair_refused x) as (err & ->).
    now exists err.
Qed.

(** X18 for "##ff0000". *)
Lemma extra_hashes_accepted_but_not_drawn_example :
  (exists r g b,
     parse_input (hashes 2 ++ "ff0000")
     = Ok ((hashes 2 ++ "ff0000")%string,
           MsgHexToRgb (hashes 2 ++ "ff0000") r g b))
  /\ exists e,
       painted plain_terminal (PStr (hashes 2 ++ "ff0000"))
       = ColorError (DigitsError e).
Proof.
  apply (extra_hashes_accepted_but_not_drawn plain_terminal 2 "ff0000");
    [reflexivity | lia | reflexivity].
Defined.

(** ** Down and back up *)

(** X19: KEY_UP takes back a KEY_DOWN that moved the cursor from one
    entry to the next older one: the cursor and the input field are
    again those of the entry left.  From no cursor, KEY_DOWN followed
    by KEY_UP ends with no cursor and an empty input field: what had
    been typed before is not brought back. *)
Theorem up_undoes_down (w : world) (inp : string) (s : state) :
  window_inv s -> history s <> [] ->
  (forall i, history_index s = Some i -> i + 1 < len s ->
     history_index (handle_key w KEY_UP inp (handle_key w KEY_DOWN inp s))
     = Some i
     /\ Some (current_input
                (handle_key w KEY_UP inp (handle_key w KEY_DOWN inp s)))
        = nth_error (history s) (Z.to_nat i))
  /\ (history_index s = None ->
      history_index (handle_key w KEY_UP inp (handle_key w KEY_DOWN inp s))
      = None
      /\ current_input (handle_key w KEY_UP inp (handle_key w KEY_DOWN inp s))
         = PStr ""
      /\ color_panel (handle_key w KEY_UP inp (handle_key w KEY_DOWN inp s))
         = PNone).
Proof.
  intros [Hv Hc] Hne.
  change (handle_key w KEY_DOWN inp s) with (on_key_down s).
  change (handle_key w KEY_UP inp (on_key_down s)) with (on_key_up (on_key_down s)).
  destruct (on_key_down_spec s Hne Hc) as (Di & Dh & _).
  assert (Hne1 : history (on_key_down s) <> []) by (now rewrite Dh).
  assert (U : forall j, next_older s = j ->
              on_key_up (on_key_down s)
              = if j - 1 <? 0 then
                  draw_color_panel PNone
                    (set_input (PStr "") (set_index None (on_key_down s)))
                else select_entry (j - 1)
                       (set_index (Some (j - 1)) (on_key_down s))).
  { intros j Hj. unfold on_key_up at 1. rewrite Di, Hj.
    destruct (history (on_key_down s)); [contradiction | reflexivity]. }
  split.
  - intros i Hi Hroom.
    assert (N : next_older s = i + 1) by (unfold next_older; rewrite Hi; lia).
    unfold cursor_ok in Hc. rewrite Hi in Hc.
    rewrite (U _ N).
    replace (i + 1 - 1) with i by lia.
    replace (i <? 0) with false by (symmetry; apply Z.ltb_ge; lia).
    assert (R : 0 <= i < len (set_index (Some i) (on_key_down s)))
      by (unfold len; simpl; rewrite Dh; fold (len s); lia).
    destruct (select_entry_spec i (set_index (Some i) (on_key_down s)) R)
      as (v & Hnth & ->).
    simpl in Hnth. rewrite Dh in Hnth. simpl.
    destruct (follow_index_fields i
                (set_input v (set_index (Some i) (on_key_down s))))
      as (_ & -> & ->).
    simpl. now split.
  - intros Hnone.
    assert (N : next_older s = 0) by (unfold next_older; now rewrite Hnone).
    rewrite (U _ N). simpl. now repeat split.
Qed.

(** X19 on a history of two entries, from the newest one and from no
    cursor. *)
Lemma up_undoes_down_example :
  history_index
    (handle_key (world_with_file Missing) KEY_UP ""
       (handle_key (world_with_file Missing) KEY_DOWN ""
          (set_index (Some 0)
             (set_history [PStr "#000001"; PStr "#000002"] initial_state))))
  = Some 0
  /\ current_input
       (handle_key (world_with_file Missing) KEY_UP "12"
          (handle_key (world_with_file Missing) KEY_DOWN "12"
             (set_input (PStr "12")
                (set_history [PStr "#000001"; PStr "#000002"] initial_state))))
     = PStr "".
Proof.
  split.
  - apply (proj1 (up_undoes_down (world_with_file Missing) ""
                    (set_index (Some 0)
                       (set_history [PStr "#000001"; PStr "#000002"]
                          initial_state))
                    ltac:(unfold window_inv, view_ok, cursor_ok, len; simpl; lia)
                    ltac:(discriminate)) 0 eq_refl
                 ltac:(unfold len; simpl; lia)).
  - apply (proj2 (up_undoes_down (world_with_file Missing) "12"
                    (set_input (PStr "12")
                       (set_history [PStr "#000001"; PStr "#000002"]
                          initial_state))
                    ltac:(unfold window_inv, view_ok, cursor_ok, len; simpl; lia)
                    ltac:(discriminate)) eq_refl).
Defined.

(** ** Clearing the history *)

(** X20: after the history was cleared with [C], the keys that move in
    it (KEY_DOWN, KEY_UP, KEY_PPAGE, KEY_NPAGE) change nothing at all;
    clearing leaves the input field and the last hex as they were. *)
Theorem navigation_after_clear (w w' : world) (key : Z) (inp inp' : string)
        (s : state) :
  key = KEY_DOWN \/ key = KEY_UP \/ key = KEY_PPAGE \/ key = KEY_NPAGE ->
  handle_key w' key inp' (handle_key w 67 inp s) = handle_key w 67 inp s
  /\ history (handle_key w 67 inp s) = []
  /\ current_input (handle_key w 67 inp s) = current_input s
  /\ last_hex (handle_key w 67 inp s) = last_hex s.
Proof.
  intros [-> | [-> | [-> | ->]]]; repeat split; reflexivity.
Qed.

(** X20 with KEY_DOWN after a colour was submitted and cleared. *)
Lemma navigation_after_clear_example :
  handle_key (world_with_file Missing) KEY_DOWN ""
    (handle_key (world_with_file Missing) 67 ""
       (set_history [PStr "#ff0000"] initial_state))
  = handle_key (world_with_file Missing) 67 ""
      (set_history [PStr "#ff0000"] initial_state).
Proof.
  apply (proj1 (navigation_after_clear (world_with_file Missing)
                  (world_with_file Missing) KEY_DOWN "" ""
                  (set_history [PStr "#ff0000"] initial_state)
                  (or_introl eq_refl))).
Defined.

(** ** White space around the input *)









(** ** Three numbers typed in *)

Lemma decimal_facts (n : Z) :
  0 <= n <= 1000 ->
  Py.int (decimal n) 10 = Ok n
  /\ string_forallb is_digit (decimal n) = true
  /\ decimal n <> "".
Proof.
  intros Hn.
  assert (H : decimal_ok n = true)
    by (apply (Zrange_forallb decimal_ok 1001); [vm_compute; reflexivity | lia]).
  unfold decimal_ok in H.
  apply andb_true_iff in H. destruct H as [H Hne].
  apply andb_true_iff in H. destruct H as [Hi Hd].
  split; [now apply result_is_Ok | ]. split; [exact Hd | ].
  apply negb_true_iff in Hne. now apply String.eqb_neq.
Qed.

Lemma digit_facts (c : ascii) :
  is_digit c = true -> Py.is_space c = false /\ typeable_char c = true.
Proof.
  intros H.
  assert (C : implb (is_digit c) (negb (Py.is_space c) && typeable_char c) = true).
  { apply (all_ascii_forallb
             (fun c => implb (is_digit c)
                             (negb (Py.is_space c) && typeable_char c))).
    vm_compute. reflexivity. }
  rewrite H in C. simpl in C. apply andb_true_iff in C. destruct C as [C1 C2].
  split; [now apply negb_true_iff | exact C2].
Qed.

Lemma string_forallb_impl (p q : ascii -> bool) (s : string) :
  (forall c, p c = true -> q c = true) ->
  string_forallb p s = true -> string_forallb q s = true.
Proof.
  intros Hpq. induction s as [ | c s IH]; [reflexivity | ].
  simpl. intros H. apply andb_true_iff in H. destruct H as [Hc Hs].
  now rewrite (Hpq c Hc), (IH Hs).
Qed.

Lemma digits_no_spaces (d : string) :
  string_forallb is_digit d = true ->
  string_forallb (fun a => negb (Py.is_space a)) d = true.
Proof.
  apply string_forallb_impl. intros c Hc.
  destruct (digit_facts c Hc) as (-> & _). reflexivity.
Qed.

Lemma split_aux_token (d rest : string) (cur : list ascii) :
  string_forallb (fun a => negb (Py.is_space a)) d = true ->
  Py.split_aux (d ++ String " " rest) cur
  = match (rev (list_ascii_of_string d) ++ cur)%list with
    | [] => Py.split_aux rest []
    | acc => string_of_list_ascii (rev acc) :: Py.split_aux rest []
    end.
Proof.
  revert cur. induction d as [ | a d IH]; intros cur H.
  - simpl. now destruct cur.
  - simpl in H. apply andb_true_iff in H. destruct H as [Ha Hd].
    apply negb_true_iff in Ha.
    simpl append. simpl Py.split_aux. rewrite Ha. rewrite (IH (a :: cur) Hd).
    simpl list_ascii_of_string. simpl rev. now rewrite <- app_assoc.
Qed.

Lemma split_aux_last (d : string) (cur : list ascii) :
  string_forallb (fun a => negb (Py.is_space a)) d = true ->
  Py.split_aux d cur
  = match (rev (list_ascii_of_string d) ++ cur)%list with
    | [] => []
    | acc => [string_of_list_ascii (rev acc)]
    end.
Proof.
  revert cur. induction d as [ | a d IH]; intros cur H.
  - simpl. now destruct cur.
  - simpl in H. apply andb_true_iff in H. destruct H as [Ha Hd].
    apply negb_true_iff in Ha.
    simpl Py.split_aux. rewrite Ha. rewrite (IH (a :: cur) Hd).
    simpl list_ascii_of_string. simpl rev. now rewrite <- app_assoc.
Qed.

Lemma token_text (d : string) :
  d <> "" ->
  match (rev (list_ascii_of_string d) ++ [])%list with
  | [] => False
  | acc => string_of_list_ascii (rev acc) = d
  end.
Proof.
  intros Hne. rewrite app_nil_r.
  destruct (rev (list_ascii_of_string d)) as [ | x l] eqn:E.
  - apply (f_equal (@rev ascii)) in E. rewrite rev_involutive in E. simpl in E.
    apply Hne. rewrite <- (string_of_list_ascii_of_string d). now rewrite E.
  - rewrite <- E, rev_involutive. apply string_of_list_ascii_of_string.
Qed.

Lemma split_three (d1 d2 d3 : string) :
  string_forallb (fun a => negb (Py.is_space a)) d1 = true -> d1 <> "" ->
  string_forallb (fun a => negb (Py.is_space a)) d2 = true -> d2 <> "" ->
  string_forallb (fun a => negb (Py.is_space a)) d3 = true -> d3 <> "" ->
  Py.split (d1 ++ " " ++ d2 ++ " " ++ d3) = [d1; d2; d3].
Proof.
  intros H1 N1 H2 N2 H3 N3. unfold Py.split.
  change (d1 ++ " " ++ d2 ++ " " ++ d3)%string
    with (d1 ++ String " " (d2 ++ String " " d3))%string.
  rewrite (split_aux_token d1 _ [] H1).
  rewrite (split_aux_token d2 _ [] H2).
  rewrite (split_aux_last d3 [] H3).
  pose proof (token_text d1 N1) as T1.
  pose proof (token_text d2 N2) as T2.
  pose proof (token_text d3 N3) as T3.
  destruct (rev (list_ascii_of_string d1) ++ [])%list; [contradiction | ].
  destruct (rev (list_ascii_of_string d2) ++ [])%list; [contradiction | ].
  destruct (rev (list_ascii_of_string d3) ++ [])%list; [contradiction | ].
  now rewrite T1, T2, T3.
Qed.

Lemma rstrip_no_spaces (s : string) :
  string_forallb (fun a => negb (Py.is_space a)) s = true -> Py.rstrip s = s.
Proof.
  induction s as [ | a r IH]; [reflexivity | ].
  simpl. intros H. apply andb_true_iff in H. destruct H as [Ha Hr].
  apply negb_true_iff in Ha. rewrite (IH Hr).
  destruct r; [now rewrite Ha | reflexivity].
Qed.

Lemma rstrip_app (x d : string) :
  string_forallb (fun a => negb (Py.is_space a)) d = true -> d <> "" ->
  Py.rstrip (x ++ d) = (x ++ d)%string.
Proof.
  intros Hd Hne. induction x as [ | a x IH].
  - simpl. now apply rstrip_no_spaces.
  - simpl. rewrite IH.
    destruct (x ++ d)%string eqn:E; [ | reflexivity].
    destruct x; simpl in E; [contradiction | discriminate].
Qed.

Lemma lstrip_starts (d x : string) :
  string_forallb (fun a => negb (Py.is_space a)) d = true -> d <> "" ->
  Py.lstrip (d ++ x) = (d ++ x)%string.
Proof.
  intros Hd Hne. destruct d as [ | a d]; [contradiction | ].
  simpl in *. apply andb_true_iff in Hd. destruct Hd as [Ha _].
  apply negb_true_iff in Ha. now rewrite Ha.
Qed.

Lemma triple_text_strip (r g b : Z) :
  0 <= r <= 1000 -> 0 <= g <= 1000 -> 0 <= b <= 1000 ->
  Py.strip (triple_text r g b) = triple_text r g b.
Proof.
  intros Hr Hg Hb.
  destruct (decimal_facts r Hr) as (_ & Dr & Nr).
  destruct (decimal_facts b Hb) as (_ & Db & Nb).
  unfold Py.strip, triple_text.
  rewrite lstrip_starts by (try apply digits_no_spaces; assumption).
  change (decimal r ++ " " ++ decimal g ++ " " ++ decimal b)%string
    with (decimal r ++ String " " (decimal g ++ String " " (decimal b)))%string.
  assert (A : forall x y z : string,
              (x ++ String " " (y ++ String " " z))%string
              = ((x ++ String " " (y ++ String " " "")) ++ z)%string).
  { intros x y z. induction x as [ | c x IH]; simpl.
    - f_equal. induction y as [ | c y IHy]; simpl; [reflexivity | now rewrite IHy].
    - now rewrite IH. }
  rewrite A. apply rstrip_app; [now apply digits_no_spaces | assumption].
Qed.

Lemma parse_input_triple (r g b : Z) (h : string) :
  0 <= r <= 1000 -> 0 <= g <= 1000 -> 0 <= b <= 1000 ->
  rgb1000_to_hex r g b = Ok h ->
  parse_input (triple_text r g b) = Ok (h, MsgRgbToHex r g b h).
Proof.
  intros Hr Hg Hb Hh.
  destruct (decimal_facts r Hr) as (Ir & Dr & Nr).
  destruct (decimal_facts g Hg) as (Ig & Dg & Ng).
  destruct (decimal_facts b Hb) as (Ib & Db & Nb).
  unfold parse_input. rewrite triple_text_strip by assumption.
  assert (S : Py.startswith "#" (triple_text r g b) = false).
  { unfold triple_text. destruct (decimal r) as [ | c d] eqn:E; [contradiction | ].
    simpl in Dr. apply andb_true_iff in Dr. destruct Dr as [Dc _].
    unfold Py.startswith.
    cbn -[ascii_dec].
    destruct (ascii_dec "#" c) as [<- | ];
      [vm_compute in Dc; discriminate | reflexivity]. }
  rewrite S. unfold triple_text.
  rewrite split_three by (try apply digits_no_spaces; assumption).
  simpl mapM. rewrite Ir, Ig, Ib. simpl bind. now rewrite Hh.
Qed.

Lemma run_typed_success (w : world) (text : string) (s : state)
      (hex : string) (m : msg) :
  string_forallb typeable_char text = true ->
  current_input s = PStr "" ->
  Py.strip text <> "" -> parse_input text = Ok (hex, m) ->
  run s (typed w text)
  = Continue
      {| current_input := PStr ""; message := m;
         message_attr := color_pair 3; last_hex := Some hex;
         history := history_insert (history s) hex;
         history_index := None; history_view_start := 0;
         color_panel := PStr hex |}.
Proof.
  intros Ht Hin Hne P.
  change (typed w text) with (keys_of w text ++ [(w, 10)])%list.
  rewrite run_app.
  destruct (run_typeable_text w text s "" Ht Hin) as (s1 & R & I & Hh & _).
  rewrite R. simpl append in I. simpl run.
  rewrite (loop_body_key w 10 s1 text I) by lia.
  change (handle_key w 10 text (clamp_view s1)) with (on_enter text (clamp_view s1)).
  rewrite (on_enter_success text (clamp_view s1) hex m Hne P).
  destruct (clamp_view_fields s1) as (-> & _). now rewrite Hh.
Qed.

Lemma digits_typeable (d : string) :
  string_forallb is_digit d = true -> string_forallb typeable_char d = true.
Proof.
  apply string_forallb_impl. intros c Hc. now destruct (digit_facts c Hc).
Qed.

(** X22: three numbers from 0 to 1000, typed in decimal with one blank
    between them into an empty input field and followed by Enter, are
    converted: the hex of [rgb1000_to_hex] is put in front of the
    history, becomes the last hex and the colour of the panel, and the
    message names the three numbers and the hex. *)
Theorem typed_triple_is_stored (w : world) (r g b : Z) (s : state) :
  0 <= r <= 1000 -> 0 <= g <= 1000 -> 0 <= b <= 1000 ->
  current_input s = PStr "" ->
  exists h,
    rgb1000_to_hex r g b = Ok h
    /\ run s (typed w (triple_text r g b))
       = Continue
           {| current_input := PStr ""; message := MsgRgbToHex r g b h;
              message_attr := color_pair 3; last_hex := Some h;
              history := history_insert (history s) h;
              history_index := None; history_view_start := 0;
              color_panel := PStr h |}.
Proof.
  intros Hr Hg Hb Hin.
  destruct (scaled_round_trip_facts r Hr) as (c1 & a1 & b1 & _ & T1 & _).
  destruct (scaled_round_trip_facts g Hg) as (c2 & a2 & b2 & _ & T2 & _).
  destruct (scaled_round_trip_facts b Hb) as (c3 & a3 & b3 & _ & T3 & _).
  assert (Hh : exists h, rgb1000_to_hex r g b = Ok h).
  { unfold rgb1000_to_hex.
    replace ((0 <=? r) && (r <=? 1000) && (0 <=? g) && (g <=? 1000)
             && (0 <=? b) && (b <=? 1000)) with true
      by (symmetry; repeat (apply andb_true_iff; split); apply Z.leb_le; lia).
    rewrite T1, T2, T3. simpl. now eexists. }
  destruct Hh as (h & Hh). exists h. split; [exact Hh | ].
  destruct (decimal_facts r Hr) as (_ & Dr & Nr).
  destruct (decimal_facts g Hg) as (_ & Dg & _).
  destruct (decimal_facts b Hb) as (_ & Db & _).
  apply run_typed_success; try assumption.
  - unfold triple_text. rewrite !string_forallb_app.
    rewrite (digits_typeable _ Dr), (digits_typeable _ Dg), (digits_typeable _ Db).
    reflexivity.
  - rewrite triple_text_strip by assumption. unfold triple_text.
    destruct (decimal r); [contradiction | discriminate].
  - now apply parse_input_triple.
Qed.

(** X22 with "300 700 500" typed at the start of the program. *)
Lemma typed_triple_is_stored_example :
  exists h,
    rgb1000_to_hex 300 700 500 = Ok h
    /\ run initial_state (typed (world_with_file Missing) (triple_text 300 700 500))
       = Continue
           {| current_input := PStr ""; message := MsgRgbToHex 300 700 500 h;
              message_attr := color_pair 3; last_hex := Some h;
              history := history_insert (history initial_state) h;
              history_index := None; history_view_start := 0;
              color_panel := PStr h |}.
Proof.
  apply (typed_triple_is_stored (world_with_file Missing) 300 700 500
           initial_state); (lia || reflexivity).
Defined.
